(** * Fe64 NNUE training scripts: weight files, feature encoders, the network
    pipeline and the training loops of [training/train_nnue.py] and
    [training/train_from_lichess.py], embedded as Rocq functions. *)

From Stdlib Require Import List ZArith Bool Lia.
From Stdlib Require Import Strings.Byte.
From Stdlib Require Strings.String.
From Stdlib Require Import Floats.SpecFloat QArith Qcanon.
Import ListNotations.

Close Scope Qc_scope.
Close Scope Q_scope.
Open Scope nat_scope.

Set Implicit Arguments.

(** ** Python exceptions and mutable objects *)

(** The exceptions the code below can raise. *)
Inductive PyError : Type :=
| ValueError
| IndexError
| ZeroDivisionError
| OverflowError.

Inductive result (A : Type) : Type :=
| Ok (a : A)
| Raise (e : PyError).

Arguments Ok {A} a.
Arguments Raise {A} e.

(** A method of an object with state [S]: it returns or raises, and in both
    cases the attribute assignments made so far stay on the object. *)
Definition Py (S A : Type) : Type := S -> S * result A.

Definition ret {S A} (a : A) : Py S A := fun s => (s, Ok a).

Definition bind {S A B} (m : Py S A) (k : A -> Py S B) : Py S B :=
  fun s => match m s with
           | (s', Ok a) => k a s'
           | (s', Raise e) => (s', Raise e)
           end.

Definition lift {S A} (r : result A) : Py S A := fun s => (s, r).

Definition assign {S} (f : S -> S) : Py S unit := fun s => (f s, Ok tt).

Definition get {S} : Py S S := fun s => (s, Ok s).

Declare Scope py_scope.
Delimit Scope py_scope with py.
Notation "x <- m ;; k" := (bind m (fun x => k))
  (at level 61, m at next level, right associativity) : py_scope.
Notation "m ;;; k" := (bind m (fun _ => k))
  (at level 61, right associativity) : py_scope.

(** A [for] loop over [l] that carries the loop's local variables in [b]. *)
Fixpoint foldM {S A B} (f : B -> A -> Py S B) (l : list A) (b : B) : Py S B :=
  match l with
  | [] => ret b
  | a :: l' => bind (f b a) (foldM f l')
  end.

Definition rbind {A B} (r : result A) (k : A -> result B) : result B :=
  match r with
  | Ok a => k a
  | Raise e => Raise e
  end.

(** A function of Python's float library that returns or raises
    [OverflowError] ("math range error", "Numerical result out of range"). *)
Definition or_overflow {A} (o : option A) : result A :=
  match o with
  | Some a => Ok a
  | None => Raise OverflowError
  end.

(** ** NNUE architecture (module constants of both scripts) *)

Definition INPUT_SIZE : nat := 768.
Definition HIDDEN1_SIZE : nat := 256.
Definition HIDDEN2_SIZE : nat := 32.
Definition OUTPUT_SIZE : nat := 1.

(** ** numpy arrays *)

(** An array owns its elements and a [writeable] flag: [np.frombuffer] over
    an immutable [bytes] object gives a read-only array, [reshape] gives a view
    that inherits the flag, and [np.zeros], [copy], [astype] and arithmetic
    give fresh writeable arrays. *)
Record ndarray (A : Type) : Type := mk_ndarray {
  nd_data : A;
  nd_writeable : bool
}.

Definition fresh_array {A} (d : A) : ndarray A := mk_ndarray d true.

(** ** float32 values as stored: four bytes, in the machine's order *)

Inductive f32 : Type := F32 (b0 b1 b2 b3 : byte).

(** [x.tobytes()] for one element. *)
Definition f32_tobytes (x : f32) : list byte :=
  let '(F32 b0 b1 b2 b3) := x in [b0; b1; b2; b3].

(** [arr.tobytes()] of a one-dimensional array, and of a two-dimensional one
    (C order: row after row). *)
Definition tobytes (v : list f32) : list byte := flat_map f32_tobytes v.

Definition tobytes2 (m : list (list f32)) : list byte := flat_map tobytes m.

(** [np.frombuffer(buf, dtype=np.float32)]: the buffer length must be a
    multiple of the element size; an empty buffer gives an empty array. *)
Fixpoint frombuffer_data (buf : list byte) : result (list f32) :=
  match buf with
  | [] => Ok []
  | b0 :: b1 :: b2 :: b3 :: rest =>
      rbind (frombuffer_data rest) (fun v => Ok (F32 b0 b1 b2 b3 :: v))
  | _ => Raise ValueError
  end.

Definition np_frombuffer (buf : list byte) : result (ndarray (list f32)) :=
  rbind (frombuffer_data buf) (fun v => Ok (mk_ndarray v false)).

(** Rows of a C-ordered buffer. *)
Fixpoint rows_of {A} (r c : nat) (v : list A) : list (list A) :=
  match r with
  | O => []
  | S r' => firstn c v :: rows_of r' c (skipn c v)
  end.

(** [a.reshape(r, c)]: the sizes must agree. *)
Definition np_reshape {A} (r c : nat) (a : ndarray (list A))
  : result (ndarray (list (list A))) :=
  if Nat.eqb (length (nd_data a)) (r * c)
  then Ok (mk_ndarray (rows_of r c (nd_data a)) (nd_writeable a))
  else Raise ValueError.

(** [a[0]] on a one-dimensional array. *)
Definition np_item0 {A} (a : ndarray (list A)) : result A :=
  match nd_data a with
  | x :: _ => Ok x
  | [] => Raise IndexError
  end.

(** ** The parameter set: the attributes of [NNUENetwork] and [NNUETrainer]

    Both classes hold the same six attributes, in the same order. *)
Record Network (F : Type) : Type := mk_Network {
  input_weights : ndarray (list (list F));
  hidden1_bias : ndarray (list F);
  hidden1_weights : ndarray (list (list F));
  hidden2_bias : ndarray (list F);
  hidden2_weights : ndarray (list F);
  output_bias : F
}.

Section Setters.
Context {F : Type}.

Definition set_input_weights (a : ndarray (list (list F))) (n : Network F) :=
  mk_Network a (hidden1_bias n) (hidden1_weights n) (hidden2_bias n)
             (hidden2_weights n) (output_bias n).
Definition set_hidden1_bias (a : ndarray (list F)) (n : Network F) :=
  mk_Network (input_weights n) a (hidden1_weights n) (hidden2_bias n)
             (hidden2_weights n) (output_bias n).
Definition set_hidden1_weights (a : ndarray (list (list F))) (n : Network F) :=
  mk_Network (input_weights n) (hidden1_bias n) a (hidden2_bias n)
             (hidden2_weights n) (output_bias n).
Definition set_hidden2_bias (a : ndarray (list F)) (n : Network F) :=
  mk_Network (input_weights n) (hidden1_bias n) (hidden1_weights n) a
             (hidden2_weights n) (output_bias n).
Definition set_hidden2_weights (a : ndarray (list F)) (n : Network F) :=
  mk_Network (input_weights n) (hidden1_bias n) (hidden1_weights n)
             (hidden2_bias n) a (output_bias n).
Definition set_output_bias (x : F) (n : Network F) :=
  mk_Network (input_weights n) (hidden1_bias n) (hidden1_weights n)
             (hidden2_bias n) (hidden2_weights n) x.

(** The shapes every constructor gives, and every method expects. *)
Definition shape_ok (n : Network F) : Prop :=
  length (nd_data (input_weights n)) = INPUT_SIZE /\
  Forall (fun row => length row = HIDDEN1_SIZE) (nd_data (input_weights n)) /\
  length (nd_data (hidden1_bias n)) = HIDDEN1_SIZE /\
  length (nd_data (hidden1_weights n)) = HIDDEN1_SIZE /\
  Forall (fun row => length row = HIDDEN2_SIZE) (nd_data (hidden1_weights n)) /\
  length (nd_data (hidden2_bias n)) = HIDDEN2_SIZE /\
  length (nd_data (hidden2_weights n)) = HIDDEN2_SIZE.

(** Two parameter sets hold the same values (the flags apart). *)
Definition same_parameters (n m : Network F) : Prop :=
  nd_data (input_weights n) = nd_data (input_weights m) /\
  nd_data (hidden1_bias n) = nd_data (hidden1_bias m) /\
  nd_data (hidden1_weights n) = nd_data (hidden1_weights m) /\
  nd_data (hidden2_bias n) = nd_data (hidden2_bias m) /\
  nd_data (hidden2_weights n) = nd_data (hidden2_weights m) /\
  output_bias n = output_bias m.
End Setters.

(** ** Weight files *)

(** [f.read(n)] on a file opened for reading: at most [n] bytes, fewer at the
    end of the file; the second component is what is left to read. *)
Definition file_read (f : list byte) (n : nat) : list byte * list byte :=
  (firstn n f, skipn n f).

(** The size [save_weights] checks the written file against. *)
Definition expected_size : nat :=
  (INPUT_SIZE * HIDDEN1_SIZE + HIDDEN1_SIZE +
   HIDDEN1_SIZE * HIDDEN2_SIZE + HIDDEN2_SIZE +
   HIDDEN2_SIZE + 1) * 4.

(** A parameter set of the right shapes holding [x] everywhere, writeable (as
    after [__init__], with every draw equal to [x]). *)
Definition constant_network {F} (x : F) : Network F :=
  mk_Network (fresh_array (repeat (repeat x HIDDEN1_SIZE) INPUT_SIZE))
             (fresh_array (repeat x HIDDEN1_SIZE))
             (fresh_array (repeat (repeat x HIDDEN2_SIZE) HIDDEN1_SIZE))
             (fresh_array (repeat x HIDDEN2_SIZE))
             (fresh_array (repeat x HIDDEN2_SIZE))
             x.

(** ** Numbers

    The numeric code is written once, over the operations it uses on its
    numbers; they are instantiated with IEEE binary32 arithmetic on [f32]
    (round to nearest even, as numpy's float32) and with exact rational
    arithmetic.  Python floats handed to numpy code (a learning rate, a
    target) are taken as values of the same type, as numpy does when it
    combines a Python float with a float32 array. *)
Class Scalar (F : Type) : Type := {
  fzero : F;
  fone : F;
  fadd : F -> F -> F;
  fsub : F -> F -> F;
  fmul : F -> F -> F;
  fdiv : F -> F -> F;
  (** [fltb x y] is Python's [x < y]: false when either side is a NaN. *)
  fltb : F -> F -> bool;
  fisnan : F -> bool;
  (** the conversion of a Python [int] *)
  of_int : Z -> F
}.

Declare Scope num_scope.
Delimit Scope num_scope with num.
Infix "+" := fadd : num_scope.
Infix "-" := fsub : num_scope.
Infix "*" := fmul : num_scope.
Infix "/" := fdiv : num_scope.

Section Numpy.
Context {F : Type} {SF : Scalar F}.
Local Open Scope num_scope.

(** Elementwise operations on one- and two-dimensional arrays of equal shapes
    (numpy raises on shapes that do not broadcast; every use below is on the
    shapes of [shape_ok]). *)
Fixpoint zip_with (f : F -> F -> F) (v w : list F) : list F :=
  match v, w with
  | x :: v', y :: w' => f x y :: zip_with f v' w'
  | _, _ => []
  end.

Definition vadd : list F -> list F -> list F := zip_with fadd.
Definition vsub : list F -> list F -> list F := zip_with fsub.
Definition vmul : list F -> list F -> list F := zip_with fmul.

(** [s * v] for a scalar [s]. *)
Definition smul (s : F) (v : list F) : list F := map (fmul s) v.

Fixpoint madd (a b : list (list F)) : list (list F) :=
  match a, b with
  | r :: a', q :: b' => vadd r q :: madd a' b'
  | _, _ => []
  end.

Fixpoint msub (a b : list (list F)) : list (list F) :=
  match a, b with
  | r :: a', q :: b' => vsub r q :: msub a' b'
  | _, _ => []
  end.

Definition msmul (s : F) (m : list (list F)) : list (list F) := map (smul s) m.

(** [np.zeros(n)], [np.zeros_like]. *)
Definition np_zeros (n : nat) : list F := repeat fzero n.
Definition np_zeros2 (r c : nat) : list (list F) := repeat (np_zeros c) r.

(** [np.dot(v, w)] of two vectors: the products summed from the left. *)
Definition np_dot (v w : list F) : F :=
  fold_left (fun acc '(x, y) => acc + x * y) (combine v w) fzero.

(** [np.dot(v, m)], [v @ m] for a vector and a matrix: entry [j] is the sum,
    from the left, of [v[k] * m[k][j]]. *)
Definition ncols (m : list (list F)) : nat :=
  match m with
  | [] => 0
  | row :: _ => length row
  end.

Definition np_vecmat (v : list F) (m : list (list F)) : list F :=
  fold_left (fun acc '(x, row) => vadd acc (smul x row)) (combine v m)
            (np_zeros (ncols m)).

(** [np.dot(v, m.T)], [v @ m.T]: entry [i] is the dot product with row [i]. *)
Definition np_vecmat_T (v : list F) (m : list (list F)) : list F :=
  map (np_dot v) m.

(** [np.outer(a, b)]. *)
Definition np_outer (a b : list F) : list (list F) :=
  map (fun x => map (fmul x) b) a.

(** [np.clip(x, 0, 1)] on one element: a NaN stays, otherwise
    [min(max(x, 0), 1)]. *)
Definition clip01 (x : F) : F :=
  if fisnan x then x
  else let m := if fltb x fzero then fzero else x in
       if fltb fone m then fone else m.

Definition np_clip01 (v : list F) : list F := map clip01 v.

(** [((x > 0) & (x < 1)).astype(np.float32)]. *)
Definition open_unit_mask (v : list F) : list F :=
  map (fun x => if fltb fzero x && fltb x fone then fone else fzero) v.

(** [np.where(v > 0)[0]]: the indices of the positive entries, ascending. *)
Fixpoint where_positive_from (i : nat) (v : list F) : list nat :=
  match v with
  | [] => []
  | x :: v' => if fltb fzero x then i :: where_positive_from (S i) v'
               else where_positive_from (S i) v'
  end.

Definition where_positive (v : list F) : list nat := where_positive_from 0 v.

(** [v[i] = x] on a list; numpy raises [IndexError] for [i] out of range,
    which no index computed below is. *)
Fixpoint set_item (i : nat) (x : F) (v : list F) : list F :=
  match v, i with
  | [], _ => []
  | _ :: v', O => x :: v'
  | y :: v', S i' => y :: set_item i' x v'
  end.

(** A vector of zeros and ones, as the encoders build. *)
Definition zero_one (x : list F) : Prop :=
  Forall (fun v => v = fzero \/ v = fone) x.

(** [a -= d] on an array: in place, so the array must be writeable. *)
Definition inplace_sub {A D} (sub : A -> D -> A) (a : ndarray A) (d : D)
  : result (ndarray A) :=
  if nd_writeable a then Ok (mk_ndarray (sub (nd_data a) d) true)
  else Raise ValueError.

(** [m[idx] -= d[np.newaxis, :]] for a list [idx] of row indices: every row
    named in [idx] becomes that row minus [d], the others stay (numpy raises
    [IndexError] for an index past the last row). *)
Definition sub_rows_at (idx : list nat) (m : list (list F)) (d : list F)
  : list (list F) :=
  map (fun '(i, row) => if existsb (Nat.eqb i) idx then vsub row d else row)
      (combine (seq 0 (length m)) m).

End Numpy.

(** [range(0, n, step)]: [0, step, 2*step, ...] below [n]; a zero step is a
    [ValueError]. *)
Definition py_range0 (n step : nat) : result (list nat) :=
  match step with
  | O => Raise ValueError
  | S _ => Ok (map (fun k => k * step) (seq 0 ((n + step - 1) / step)))
  end.

(** The slice [l[i:j]]. *)
Definition slice {A} (l : list A) (i j : nat) : list A :=
  firstn (j - i) (skipn i l).

(** Python's [min(a, b)] and [max(a, b)] on two numbers: the first one unless
    the second is smaller (larger). *)
Definition py_min {F} {SF : Scalar F} (a b : F) : F := if fltb b a then b else a.
Definition py_max {F} {SF : Scalar F} (a b : F) : F := if fltb a b then b else a.

(** ** Boards (python-chess)

    [chess.SQUARES] is [range(64)] with a1 = 0, b1 = 1, ..., h8 = 63;
    [chess.square_rank(sq)] is [sq >> 3] and [chess.square_file(sq)] is
    [sq & 7]; [board.piece_at(sq)] is the piece on a square, or [None]. *)
Inductive PieceType : Type := PAWN | KNIGHT | BISHOP | ROOK | QUEEN | KING.

Inductive Color : Type := WHITE | BLACK.

Record Piece : Type := mk_Piece {
  piece_type : PieceType;
  color : Color
}.

Record Board : Type := mk_Board {
  piece_at : nat -> option Piece
}.

Definition SQUARES : list nat := seq 0 64.
Definition square_rank (sq : nat) : nat := sq / 8.
Definition square_file (sq : nat) : nat := sq mod 8.

(** ** IEEE binary32 arithmetic on [f32]

    The bit pattern of a float32 (sign, 8 exponent bits, 23 fraction bits) is
    read as a [spec_float]; the operations are the Standard Library's
    round-to-nearest-even operations at precision 24 and maximal exponent
    128, and the result is written back as a bit pattern (a NaN as the quiet
    NaN 7FC00000). *)
Section Binary32.
Local Open Scope Z_scope.

Definition prec32 : Z := 24.
Definition emax32 : Z := 128.

Definition bits_of_f32 (x : f32) : Z :=
  let '(F32 b0 b1 b2 b3) := x in
  Z.of_N (Byte.to_N b0) + 256 * (Z.of_N (Byte.to_N b1) +
    256 * (Z.of_N (Byte.to_N b2) + 256 * Z.of_N (Byte.to_N b3))).

Definition byte_of_Z (z : Z) : byte :=
  match Byte.of_N (Z.to_N (Z.land z 255)) with
  | Some b => b
  | None => x00
  end.

Definition f32_of_bits (z : Z) : f32 :=
  F32 (byte_of_Z z) (byte_of_Z (Z.shiftr z 8)) (byte_of_Z (Z.shiftr z 16))
      (byte_of_Z (Z.shiftr z 24)).

Definition decode32 (x : f32) : spec_float :=
  let z := bits_of_f32 x in
  let s := Z.testbit z 31 in
  let e := Z.land (Z.shiftr z 23) 255 in
  let m := Z.land z 8388607 in
  if Z.eqb e 0 then
    match m with
    | Zpos p => S754_finite s p (-149)
    | _ => S754_zero s
    end
  else if Z.eqb e 255 then
    if Z.eqb m 0 then S754_infinity s else S754_nan
  else
    match m + 8388608 with
    | Zpos p => S754_finite s p (e - 150)
    | _ => S754_nan
    end.

Definition sign_bit (s : bool) : Z := if s then 2147483648 else 0.

Definition encode32 (x : spec_float) : f32 :=
  f32_of_bits
    match x with
    | S754_zero s => sign_bit s
    | S754_infinity s => sign_bit s + 2139095040
    | S754_nan => 2143289344
    | S754_finite s m e =>
        if Z.ltb (Zpos m) 8388608 then sign_bit s + Zpos m
        else sign_bit s + (e + 150) * 8388608 + (Zpos m - 8388608)
    end.

(** [m * 2^e], rounded to float32. *)
Definition f32_of_scaled (m e : Z) : f32 :=
  encode32 (binary_normalize prec32 emax32 m e false).

Definition lift32 (op : spec_float -> spec_float -> spec_float) (x y : f32) : f32 :=
  encode32 (op (decode32 x) (decode32 y)).

End Binary32.

#[export] Instance Scalar_f32 : Scalar f32 := {|
  fzero := F32 x00 x00 x00 x00;
  fone := F32 x00 x00 x80 x3f;
  fadd := lift32 (SFadd prec32 emax32);
  fsub := lift32 (SFsub prec32 emax32);
  fmul := lift32 (SFmul prec32 emax32);
  fdiv := lift32 (SFdiv prec32 emax32);
  fltb := fun x y => SFltb (decode32 x) (decode32 y);
  fisnan := fun x => match decode32 x with S754_nan => true | _ => false end;
  of_int := fun z => f32_of_scaled z 0
|}.

(** ** IEEE binary64 arithmetic: Python's [float]

    A Python float that never reaches a numpy array (the arithmetic of
    [calculate_target_eval]) is a binary64 number: a [spec_float] with the
    round-to-nearest-even operations at precision 53 and maximal exponent
    1024.  [of_int] is the conversion of an [int] in the range of a float
    (beyond it Python raises [OverflowError], where this gives an
    infinity). *)
Definition prec64 : Z := 53.
Definition emax64 : Z := 1024.

Definition f64 : Type := spec_float.

#[export] Instance Scalar_f64 : Scalar f64 := {|
  fzero := S754_zero false;
  fone := S754_finite false 4503599627370496 (-52);
  fadd := SFadd prec64 emax64;
  fsub := SFsub prec64 emax64;
  fmul := SFmul prec64 emax64;
  fdiv := SFdiv prec64 emax64;
  fltb := SFltb;
  fisnan := fun x => match x with S754_nan => true | _ => false end;
  of_int := fun z => binary_normalize prec64 emax64 z 0 false
|}.

(** ** Exact rational arithmetic *)
#[export] Instance Scalar_Qc : Scalar Qc := {|
  fzero := Q2Qc 0;
  fone := Q2Qc 1;
  fadd := Qcplus;
  fsub := Qcminus;
  fmul := Qcmult;
  fdiv := Qcdiv;
  fltb := fun x y => match Qccompare x y with Lt => true | _ => false end;
  fisnan := fun _ => false;
  of_int := fun z => Q2Qc (inject_Z z)
|}.

(** Equality of two float32 bit patterns. *)
Definition f32_eqb (x y : f32) : bool :=
  let '(F32 a0 a1 a2 a3) := x in
  let '(F32 b0 b1 b2 b3) := y in
  Byte.eqb a0 b0 && Byte.eqb a1 b1 && Byte.eqb a2 b2 && Byte.eqb a3 b3.

(** ** The laws of exact arithmetic

    Rational arithmetic satisfies them; float32 arithmetic does not (its
    addition is not associative, and [0 * x] is a NaN for an infinite [x]). *)
Class ExactArithmetic (F : Type) {SF : Scalar F} : Prop := {
  exact_ring :
    ring_theory fzero fone fadd fmul fsub (fun x => fsub fzero x) (@eq F);
  exact_div_one : forall x : F, fdiv x fone = x;
  exact_of_int_one : of_int 1 = fone;
  exact_of_int_two : of_int 2 = fadd fone fone;
  exact_zero_lt_one : fltb fzero fone = true;
  exact_lt_irrefl : forall x : F, fltb x x = false;
  exact_no_nan : forall x : F, fisnan x = false
}.

Arguments ExactArithmetic F {SF}.

(** ** Arrays given entry by entry *)
Definition tabulate {A} (n : nat) (f : nat -> A) : list A := map f (seq 0 n).

Definition tabulate2 {A} (r c : nat) (f : nat -> nat -> A) : list (list A) :=
  tabulate r (fun i => tabulate c (f i)).

(** * training/train_nnue.py *)
Module train_nnue.

(** [SCALE] *)
Definition SCALE : Z := 400.

Module NNUENetwork.

Local Open Scope py_scope.

(** [NNUENetwork.load]: six reads, each assigned to its attribute as soon
    as it is converted. *)
Definition load (file : list byte) : Py (Network f32) unit :=
  let '(b, f) := file_read file (INPUT_SIZE * HIDDEN1_SIZE * 4) in
  a <- lift (rbind (np_frombuffer b) (np_reshape INPUT_SIZE HIDDEN1_SIZE)) ;;
  assign (set_input_weights a) ;;;
  let '(b, f) := file_read f (HIDDEN1_SIZE * 4) in
  a <- lift (np_frombuffer b) ;;
  assign (set_hidden1_bias a) ;;;
  let '(b, f) := file_read f (HIDDEN1_SIZE * HIDDEN2_SIZE * 4) in
  a <- lift (rbind (np_frombuffer b) (np_reshape HIDDEN1_SIZE HIDDEN2_SIZE)) ;;
  assign (set_hidden1_weights a) ;;;
  let '(b, f) := file_read f (HIDDEN2_SIZE * 4) in
  a <- lift (np_frombuffer b) ;;
  assign (set_hidden2_bias a) ;;;
  let '(b, f) := file_read f (HIDDEN2_SIZE * 4) in
  a <- lift (np_frombuffer b) ;;
  assign (set_hidden2_weights a) ;;;
  let '(b, f) := file_read f 4 in
  x <- lift (rbind (np_frombuffer b) np_item0) ;;
  assign (set_output_bias x).

(** [NNUENetwork.save]: the bytes written ([astype(np.float32)] copies a
    float32 array unchanged). *)
Definition save (self : Network f32) : list byte :=
  tobytes2 (nd_data (input_weights self)) ++
  tobytes (nd_data (hidden1_bias self)) ++
  tobytes2 (nd_data (hidden1_weights self)) ++
  tobytes (nd_data (hidden2_bias self)) ++
  tobytes (nd_data (hidden2_weights self)) ++
  tobytes [output_bias self].

Section Numeric.
Context {F : Type} {SF : Scalar F}.
Local Open Scope num_scope.

Definition piece_map (t : PieceType) : nat :=
  match t with
  | PAWN => 0 | KNIGHT => 1 | BISHOP => 2 | ROOK => 3 | QUEEN => 4 | KING => 5
  end.

(** [NNUENetwork.__init__], given the three arrays of scaled normal draws
    (each already cast to float32). *)
Definition init (w1 w2 : list (list F)) (w3 : list F) : Network F :=
  mk_Network (fresh_array w1) (fresh_array (np_zeros HIDDEN1_SIZE))
             (fresh_array w2) (fresh_array (np_zeros HIDDEN2_SIZE))
             (fresh_array w3) fzero.

(** [NNUENetwork.board_to_features] *)
Definition board_to_features (board : Board) : list F :=
  fold_left
    (fun features square =>
       match piece_at board square with
       | Some piece =>
           let piece_idx := piece_map (piece_type piece) in
           let piece_idx := match color piece with
                            | BLACK => (piece_idx + 6)%nat
                            | WHITE => piece_idx
                            end in
           let rank := square_rank square in
           let file := square_file square in
           let our_sq := ((7 - rank) * 8 + file)%nat in
           let feature_idx := (piece_idx * 64 + our_sq)%nat in
           set_item feature_idx fone features
       | None => features
       end)
    SQUARES (np_zeros INPUT_SIZE).

(** The loop [for idx in active_indices: hidden1 += self.input_weights[idx]]. *)
Definition add_rows (w : list (list F)) (active_indices : list nat)
           (hidden1 : list F) : list F :=
  fold_left (fun h idx => vadd h (nth idx w [])) active_indices hidden1.

(** [NNUENetwork.forward] *)
Definition forward (self : Network F) (features : list F) : F :=
  let hidden1 := nd_data (hidden1_bias self) in
  let active_indices := where_positive features in
  let hidden1 := add_rows (nd_data (input_weights self)) active_indices hidden1 in
  let hidden1 := np_clip01 hidden1 in
  let hidden2 := vadd (nd_data (hidden2_bias self))
                      (np_vecmat hidden1 (nd_data (hidden1_weights self))) in
  let hidden2 := np_clip01 hidden2 in
  output_bias self + np_dot hidden2 (nd_data (hidden2_weights self)).

(** The dictionary [forward_with_cache] returns beside the output. *)
Record Cache : Type := mk_Cache {
  c_features : list F;
  c_active_indices : list nat;
  c_hidden1_pre : list F;
  c_hidden1 : list F;
  c_hidden2_pre : list F;
  c_hidden2 : list F
}.

(** [NNUENetwork.forward_with_cache] *)
Definition forward_with_cache (self : Network F) (features : list F)
  : F * Cache :=
  let hidden1_pre := nd_data (hidden1_bias self) in
  let active_indices := where_positive features in
  let hidden1_pre :=
    add_rows (nd_data (input_weights self)) active_indices hidden1_pre in
  let hidden1 := np_clip01 hidden1_pre in
  let hidden2_pre := vadd (nd_data (hidden2_bias self))
                          (np_vecmat hidden1 (nd_data (hidden1_weights self))) in
  let hidden2 := np_clip01 hidden2_pre in
  let output := output_bias self + np_dot hidden2 (nd_data (hidden2_weights self)) in
  (output, mk_Cache features active_indices hidden1_pre hidden1 hidden2_pre hidden2).

(** [NNUENetwork.backward]: the gradients are computed from the parameters
    as they are on entry; then come the updates, in the order of the source.
    [self.output_bias] is a scalar, and [-=] rebinds it; the five arrays are
    updated in place. *)
Definition backward (cache : Cache) (target lr : F) : Py (Network F) F :=
  self <- get ;;
  let output := np_dot (c_hidden2 cache) (nd_data (hidden2_weights self))
                + output_bias self in
  let error := output - target in
  let d_hidden2_weights := smul error (c_hidden2 cache) in
  let d_hidden2 := smul error (nd_data (hidden2_weights self)) in
  let mask2 := open_unit_mask (c_hidden2_pre cache) in
  let d_hidden2_pre := vmul d_hidden2 mask2 in
  let d_hidden1 := np_vecmat_T d_hidden2_pre (nd_data (hidden1_weights self)) in
  let mask1 := open_unit_mask (c_hidden1_pre cache) in
  let d_hidden1_pre := vmul d_hidden1 mask1 in
  assign (set_output_bias (output_bias self - lr * error)) ;;;
  a <- lift (inplace_sub vsub (hidden2_weights self) (smul lr d_hidden2_weights)) ;;
  assign (set_hidden2_weights a) ;;;
  a <- lift (inplace_sub vsub (hidden2_bias self) (smul lr d_hidden2_pre)) ;;
  assign (set_hidden2_bias a) ;;;
  a <- lift (inplace_sub msub (hidden1_weights self)
                         (msmul lr (np_outer (c_hidden1 cache) d_hidden2_pre))) ;;
  assign (set_hidden1_weights a) ;;;
  a <- lift (inplace_sub vsub (hidden1_bias self) (smul lr d_hidden1_pre)) ;;
  assign (set_hidden1_bias a) ;;;
  (if Nat.ltb 0 (length (c_active_indices cache))
   then a <- lift (inplace_sub (sub_rows_at (c_active_indices cache))
                               (input_weights self) (smul lr d_hidden1_pre)) ;;
        assign (set_input_weights a)
   else ret tt) ;;;
  ret (error * error).

End Numeric.
End NNUENetwork.

Section Script.
Context {F : Type} {SF : Scalar F}.
(** [math.exp], from Python's library: its value, or [None] where it raises
    [OverflowError] (the argument is too large for the result to be a
    float). *)
Variable math_exp : F -> option F.
(** [x ** 2] on Python floats: the square, or [None] where it raises
    [OverflowError] (the square is out of the range of a float). *)
Variable float_pow2 : F -> option F.
Local Open Scope py_scope.

(** [sigmoid(x, k=0.004)] with the default [k].  [math.exp] returns no
    negative number, so the divisor is not zero. *)
Definition sigmoid (x : F) : result F :=
  let k := (of_int 4 / of_int 1000)%num in
  rbind (or_overflow (math_exp ((fzero - k) * x)%num))
        (fun e => Ok (fone / (fone + e))%num).

(** [simple_material_eval] *)
Definition piece_values (t : PieceType) : Z :=
  match t with
  | PAWN => 100 | KNIGHT => 337 | BISHOP => 365
  | ROOK => 477 | QUEEN => 1025 | KING => 0
  end.

Definition simple_material_eval (board : Board) : Z :=
  fold_left
    (fun score square =>
       match piece_at board square with
       | Some piece =>
           let value := piece_values (piece_type piece) in
           match color piece with
           | WHITE => (score + value)%Z
           | BLACK => (score - value)%Z
           end
       | None => score
       end)
    SQUARES 0%Z.

(** What [info["score"].white()] gives: a mate distance or centipawns. *)
Inductive Score : Type :=
| Mate (moves : Z)
| Centipawns (cp : Z).

(** An opened engine: [engine.analyse(board, chess.engine.Limit(depth=12))]
    returns a score or raises. *)
Definition Engine : Type := Board -> option Score.

(** [extract_positions_from_pgn], lines 226-246: the target of the position
    reached after move [i] of a game of [n_moves] moves whose result scores
    [result_score], with or without an engine. *)
Definition position_target (engine : option Engine) (board : Board)
           (i n_moves : nat) (result_score : F) : result F :=
  match engine with
  | Some analyse =>
      match analyse board with
      | Some score =>
          let cp := match score with
                    | Mate m => if (0 <? m)%Z then 10000%Z else (-10000)%Z
                    | Centipawns c => c
                    end in
          (* the bare [except] also catches what [sigmoid] raises *)
          match sigmoid (of_int cp) with
          | Ok target => Ok target
          | Raise _ => Ok result_score
          end
      | None => Ok result_score
      end
  | None =>
      let material := simple_material_eval board in
      rbind (sigmoid (of_int material)) (fun material_score =>
      let progress :=
        py_min (of_int (Z.of_nat i) / of_int (Z.of_nat n_moves))%num fone in
      Ok ((fone - progress) * material_score + progress * result_score)%num)
  end.

(** [train_nnue], lines 332-342: one sample of a batch. *)
Definition train_position (lr : F) (acc : F * nat) (sample : Board * F)
  : Py (Network F) (F * nat) :=
  let '(batch_loss, num_samples) := acc in
  let '(board, target) := sample in
  net <- get ;;
  let features := NNUENetwork.board_to_features board in
  let '(output, cache) := NNUENetwork.forward_with_cache net features in
  pred <- lift (sigmoid (output * of_int SCALE)%num) ;;
  loss <- NNUENetwork.backward cache (target / of_int SCALE)%num lr ;;
  squared <- lift (or_overflow (float_pow2 (pred - target)%num)) ;;
  ret ((batch_loss + squared)%num, S num_samples).

(** [train_nnue], lines 324-346: one epoch over the shuffled positions; it
    returns [total_loss] and [num_samples]. *)
Definition train_epoch (all_positions : list (Board * F)) (batch_size : nat)
           (lr : F) : Py (Network F) (F * nat) :=
  starts <- lift (py_range0 (length all_positions) batch_size) ;;
  foldM (fun '(total_loss, num_samples) i =>
           let batch := slice all_positions i (i + batch_size) in
           r <- foldM (train_position lr) batch (fzero, num_samples) ;;
           let '(batch_loss, num_samples) := r in
           ret ((total_loss + batch_loss)%num, num_samples))
        starts (fzero, 0).

Definition avg_loss (r : F * nat) : F :=
  let '(total_loss, num_samples) := r in
  (total_loss / of_int (Z.of_nat (Nat.max num_samples 1)))%num.

End Script.

(** ** [train_nnue], lines 292-362: the run, given the extracted positions *)

Section Training.
(** [math.exp] and [x ** 2] (which return or raise [OverflowError]), and
    what [random.shuffle] leaves in the list at its call in epoch [k]. *)
Variable math_exp : f32 -> option f32.
Variable float_pow2 : f32 -> option f32.
Variable shuffle : nat -> list (Board * f32) -> list (Board * f32).
Local Open Scope py_scope.

(** The local [net] and the file at [output_file] ([None]: no such file). *)
Definition World : Type := (Network f32 * option (list byte))%type.

(** A method of [net], run in the function. *)
Definition on_net {A} (m : Py (Network f32) A) : Py World A :=
  fun w => let '(net', r) := m (fst w) in ((net', snd w), r).

(** [net.save(output_file)] *)
Definition save_output : Py World unit :=
  fun w => ((fst w, Some (NNUENetwork.save (fst w))), Ok tt).

(** [try: m  except: print(...)]: the bare [except] catches every
    exception; what [m] assigned before it raised stays assigned. *)
Definition try_except_pass {S} (m : Py S unit) : Py S unit :=
  fun s => let '(s', _) := m s in (s', Ok tt).

(** Lines 323-358: one epoch.  The loop carries [all_positions] (shuffled in
    place) and [lr]; [avg_loss] is only printed. *)
Definition run_epoch (batch_size : nat) (st : list (Board * f32) * f32) (epoch : nat)
  : Py World (list (Board * f32) * f32) :=
  let '(all_positions, lr) := st in
  let all_positions := shuffle epoch all_positions in
  r <- on_net (train_epoch math_exp float_pow2 all_positions batch_size lr) ;;
  let lr := if Nat.eqb ((epoch + 1) mod 20) 0
            then (lr * f32_of_scaled 1 (-1))%num else lr in
  (if Nat.eqb ((epoch + 1) mod 10) 0 then save_output else ret tt) ;;;
  ret (all_positions, lr).

(** [train_nnue]: [net = NNUENetwork()] with the draws [w1 w2 w3], the
    attempt to load [output_file], and, unless there is no position, the
    epochs and the final save. *)
Definition train_nnue (w1 w2 : list (list f32)) (w3 : list f32)
           (all_positions : list (Board * f32))
           (epochs : nat) (lr : f32) (batch_size : nat) : Py World unit :=
  assign (fun w => (NNUENetwork.init w1 w2 w3, snd w)) ;;;
  w <- get ;;
  match snd w with
  | Some file => try_except_pass (on_net (NNUENetwork.load file))
  | None => ret tt
  end ;;;
  match all_positions with
  | [] => ret tt
  | _ :: _ =>
      foldM (run_epoch batch_size) (seq 0 epochs) (all_positions, lr) ;;;
      save_output
  end.

End Training.

End train_nnue.

(** * training/train_from_lichess.py *)
Module train_from_lichess.

(** [NNUE_SCALE] *)
Definition NNUE_SCALE : Z := 400.

Module NNUETrainer.

Local Open Scope py_scope.

(** [NNUETrainer.load_weights]. *)
Definition load_weights (file : list byte) : Py (Network f32) unit :=
  let '(b, f) := file_read file (INPUT_SIZE * HIDDEN1_SIZE * 4) in
  a <- lift (rbind (np_frombuffer b) (np_reshape INPUT_SIZE HIDDEN1_SIZE)) ;;
  assign (set_input_weights a) ;;;
  let '(b, f) := file_read f (HIDDEN1_SIZE * 4) in
  a <- lift (np_frombuffer b) ;;
  assign (set_hidden1_bias a) ;;;
  let '(b, f) := file_read f (HIDDEN1_SIZE * HIDDEN2_SIZE * 4) in
  a <- lift (rbind (np_frombuffer b) (np_reshape HIDDEN1_SIZE HIDDEN2_SIZE)) ;;
  assign (set_hidden1_weights a) ;;;
  let '(b, f) := file_read f (HIDDEN2_SIZE * 4) in
  a <- lift (np_frombuffer b) ;;
  assign (set_hidden2_bias a) ;;;
  let '(b, f) := file_read f (HIDDEN2_SIZE * 4) in
  a <- lift (np_frombuffer b) ;;
  assign (set_hidden2_weights a) ;;;
  let '(b, f) := file_read f 4 in
  x <- lift (rbind (np_frombuffer b) np_item0) ;;
  assign (set_output_bias x).

(** [NNUETrainer.save_weights]: the bytes written; the size check after the
    write only prints. *)
Definition save_weights (self : Network f32) : list byte :=
  tobytes2 (nd_data (input_weights self)) ++
  tobytes (nd_data (hidden1_bias self)) ++
  tobytes2 (nd_data (hidden1_weights self)) ++
  tobytes (nd_data (hidden2_bias self)) ++
  tobytes (nd_data (hidden2_weights self)) ++
  tobytes [output_bias self].

Section Numeric.
Context {F : Type} {SF : Scalar F}.
Local Open Scope num_scope.

(** [NNUETrainer.crelu] *)
Definition crelu (x : list F) : list F := np_clip01 x.

(** [NNUETrainer.crelu_derivative] *)
Definition crelu_derivative (x : list F) : list F := open_unit_mask x.

Definition piece_map (t : PieceType) : nat :=
  match t with
  | PAWN => 0 | KNIGHT => 1 | BISHOP => 2 | ROOK => 3 | QUEEN => 4 | KING => 5
  end.

(** [NNUETrainer.board_to_input] *)
Definition board_to_input (board : Board) : list F :=
  fold_left
    (fun input_vec square =>
       match piece_at board square with
       | Some piece =>
           let piece_idx := piece_map (piece_type piece) in
           let piece_idx := match color piece with
                            | BLACK => (piece_idx + 6)%nat
                            | WHITE => piece_idx
                            end in
           let idx := (piece_idx * 64 + square)%nat in
           set_item idx fone input_vec
       | None => input_vec
       end)
    SQUARES (np_zeros INPUT_SIZE).

(** [NNUETrainer.forward] *)
Definition forward (self : Network F) (input_vec : list F)
  : F * list F * list F :=
  let hidden1 :=
    crelu (vadd (np_vecmat input_vec (nd_data (input_weights self)))
                (nd_data (hidden1_bias self))) in
  let hidden2 :=
    crelu (vadd (np_vecmat hidden1 (nd_data (hidden1_weights self)))
                (nd_data (hidden2_bias self))) in
  let output := np_dot hidden2 (nd_data (hidden2_weights self)) + output_bias self in
  (output, hidden1, hidden2).

(** The local variables of [train_batch] that its loop updates. *)
Record Accumulators : Type := mk_Accumulators {
  total_loss : F;
  grad_input_weights : list (list F);
  grad_hidden1_bias : list F;
  grad_hidden1_weights : list (list F);
  grad_hidden2_bias : list F;
  grad_hidden2_weights : list F;
  grad_output_bias : F
}.

(** [np.zeros_like] *)
Definition zeros_like (v : list F) : list F := map (fun _ => fzero) v.
Definition zeros_like2 (m : list (list F)) : list (list F) := map zeros_like m.

(** [train_batch], lines 150-177: the body of the loop over the batch. *)
Definition accumulate (self : Network F) (batch_size : nat)
           (acc : Accumulators) (sample : list F * F) : Accumulators :=
  let '(input_vec, target) := sample in
  let z1 := vadd (np_vecmat input_vec (nd_data (input_weights self)))
                 (nd_data (hidden1_bias self)) in
  let hidden1 := crelu z1 in
  let z2 := vadd (np_vecmat hidden1 (nd_data (hidden1_weights self)))
                 (nd_data (hidden2_bias self)) in
  let hidden2 := crelu z2 in
  let output := np_dot hidden2 (nd_data (hidden2_weights self)) + output_bias self in
  let scaled_target := target / of_int NNUE_SCALE in
  let error := output - scaled_target in
  let d_output := of_int 2 * error / of_int (Z.of_nat batch_size) in
  let d_hidden2 :=
    vmul (smul d_output (nd_data (hidden2_weights self))) (crelu_derivative z2) in
  let d_hidden1 :=
    vmul (np_vecmat_T d_hidden2 (nd_data (hidden1_weights self)))
         (crelu_derivative z1) in
  mk_Accumulators
    (total_loss acc + error * error)
    (madd (grad_input_weights acc) (np_outer input_vec d_hidden1))
    (vadd (grad_hidden1_bias acc) d_hidden1)
    (madd (grad_hidden1_weights acc) (np_outer hidden1 d_hidden2))
    (vadd (grad_hidden2_bias acc) d_hidden2)
    (vadd (grad_hidden2_weights acc) (smul d_output hidden2))
    (grad_output_bias acc + d_output).

(** [NNUETrainer.train_batch]: every attribute is rebound to a new array,
    one after the other.
    With an empty batch the final division is [0.0 / 0]. *)
Definition train_batch (positions : list (list F)) (targets : list F)
           (learning_rate : F) : Py (Network F) F :=
  (self <- get ;;
   let acc0 :=
     mk_Accumulators fzero
       (zeros_like2 (nd_data (input_weights self)))
       (zeros_like (nd_data (hidden1_bias self)))
       (zeros_like2 (nd_data (hidden1_weights self)))
       (zeros_like (nd_data (hidden2_bias self)))
       (zeros_like (nd_data (hidden2_weights self)))
       fzero in
   let batch_size := length positions in
   let acc := fold_left (accumulate self batch_size) (combine positions targets) acc0 in
   assign (fun s => set_input_weights
     (fresh_array (msub (nd_data (input_weights s))
                        (msmul learning_rate (grad_input_weights acc)))) s) ;;;
   assign (fun s => set_hidden1_bias
     (fresh_array (vsub (nd_data (hidden1_bias s))
                        (smul learning_rate (grad_hidden1_bias acc)))) s) ;;;
   assign (fun s => set_hidden1_weights
     (fresh_array (msub (nd_data (hidden1_weights s))
                        (msmul learning_rate (grad_hidden1_weights acc)))) s) ;;;
   assign (fun s => set_hidden2_bias
     (fresh_array (vsub (nd_data (hidden2_bias s))
                        (smul learning_rate (grad_hidden2_bias acc)))) s) ;;;
   assign (fun s => set_hidden2_weights
     (fresh_array (vsub (nd_data (hidden2_weights s))
                        (smul learning_rate (grad_hidden2_weights acc)))) s) ;;;
   assign (fun s => set_output_bias
     (output_bias s - learning_rate * grad_output_bias acc) s) ;;;
   match batch_size with
   | O => lift (Raise ZeroDivisionError)
   | S _ => ret (total_loss acc / of_int (Z.of_nat batch_size))
   end)%py.

End Numeric.
End NNUETrainer.

Section Script.
Context {F : Type} {SF : Scalar F}.
Local Open Scope py_scope.

(** The dictionaries [extract_positions_from_game] builds. *)
Record Position : Type := mk_Position {
  pos_board : Board;
  pos_ply : Z;
  pos_result : F;
  pos_is_bot_turn : bool
}.

(** The blend weight of [calculate_target_eval]:
    [result_weight = min(0.8, ply / 100.0)]. *)
Definition result_weight (ply : Z) : F :=
  py_min (of_int 8 / of_int 10)%num (of_int ply / of_int 100)%num.

(** [calculate_target_eval] *)
Definition calculate_target_eval (position : Position) (material_eval : F) : F :=
  let result := pos_result position in
  let ply := pos_ply position in
  let result_weight := result_weight ply in
  let result_eval := (result * of_int 300)%num in
  ((fone - result_weight) * material_eval + result_weight * result_eval)%num.

(** [simple_material_eval] *)
Definition values (t : PieceType) : Z :=
  match t with
  | PAWN => 100 | KNIGHT => 320 | BISHOP => 330
  | ROOK => 500 | QUEEN => 900 | KING => 0
  end.

Definition simple_material_eval (board : Board) : Z :=
  fold_left
    (fun score square =>
       match piece_at board square with
       | Some piece =>
           let value := values (piece_type piece) in
           match color piece with
           | WHITE => (score + value)%Z
           | BLACK => (score - value)%Z
           end
       | None => score
       end)
    SQUARES 0%Z.

(** [main], lines 392-409: one epoch over the shuffled training data; it
    returns [epoch_loss] and [num_batches]. *)
Definition train_epoch (training_data : list (list F * F)) (batch_size : nat)
           (learning_rate : F) : Py (Network F) (F * nat) :=
  starts <- lift (py_range0 (length training_data) batch_size) ;;
  foldM (fun '(epoch_loss, num_batches) i =>
           let batch := slice training_data i (i + batch_size) in
           if Nat.ltb (length batch) (batch_size / 2)
           then ret (epoch_loss, num_batches)
           else
             let inputs := map fst batch in
             let targets := map snd batch in
             loss <- NNUETrainer.train_batch inputs targets learning_rate ;;
             ret ((epoch_loss + loss)%num, S num_batches))
        starts (fzero, 0).

Definition avg_loss (r : F * nat) : F :=
  let '(epoch_loss, num_batches) := r in
  (epoch_loss / of_int (Z.of_nat (Nat.max num_batches 1)))%num.

End Script.

Arguments Position : clear implicits.

(** ** [extract_positions_from_game], lines 246-276: from the values read
    out of [game_data] (the winner, whether the bot has the white pieces, and
    the moves of [moves_str.split()]) to the positions *)

Section Extraction.
Import String.
Context {F : Type} {SF : Scalar F}.

(** python-chess: the board object of a game in progress, its moves,
    [chess.Board()], [board.parse_san], [board.push], [board.turn], and the
    placement of the pieces that [board.copy()] keeps.  [parse_san] returns a
    move or raises one of three exceptions. *)
Variable GameBoard : Type.
Variable Move : Type.

Inductive SanResult : Type :=
| SanMove (move : Move)
| IllegalMoveError
| InvalidMoveError
| AmbiguousMoveError.

Variable start_board : GameBoard.
Variable parse_san : GameBoard -> String.string -> SanResult.
Variable push : GameBoard -> Move -> GameBoard.
Variable turn : GameBoard -> Color.
Variable copy : GameBoard -> Board.

(** Lines 246-251: the result from the bot's side. *)
Definition bot_score (result : String.string) (is_bot_white : bool) : F :=
  if String.eqb result "white"%string then
    if is_bot_white then of_int 1 else of_int (-1)
  else if String.eqb result "black"%string then
    if is_bot_white then of_int (-1) else of_int 1
  else of_int 0.

(** What the function ends with: the list it returns, or the exception of
    [parse_san] that its [except] clause does not name. *)
Inductive Extracted : Type :=
| Returns (positions : list (Position F))
| RaisesAmbiguousMoveError.

(** Lines 257-274: the loop over [enumerate(moves)], from index [i] on. *)
Fixpoint collect_positions (bot_score : F) (is_bot_white : bool)
         (moves : list String.string) (i : nat) (board : GameBoard)
         (positions : list (Position F)) : Extracted :=
  match moves with
  | [] => Returns positions
  | move_str :: moves' =>
      match parse_san board move_str with
      | SanMove move =>
          let positions :=
            if Nat.leb 20 i
            then positions ++
                 [mk_Position (copy board) (Z.of_nat i) bot_score
                    (Bool.eqb (match turn board with WHITE => true | BLACK => false end)
                              is_bot_white)]
            else positions in
          collect_positions bot_score is_bot_white moves' (S i) (push board move)
                            positions
      | IllegalMoveError | InvalidMoveError => Returns positions
      | AmbiguousMoveError => RaisesAmbiguousMoveError
      end
  end.

(** Lines 246-276. *)
Definition extract_positions_from_game (result : String.string) (is_bot_white : bool)
           (moves : list String.string) : Extracted :=
  collect_positions (bot_score result is_bot_white) is_bot_white moves 0
                    start_board [].

End Extraction.

(** ** [main], lines 388-413: the training, given the training data *)

Section Training.
(** What [random.shuffle] leaves in the list at its call in epoch [k]. *)
Variable shuffle : nat -> list (list f32 * f32) -> list (list f32 * f32).
Local Open Scope py_scope.

(** The local [trainer] and the file at [args.output] ([None]: no such
    file). *)
Definition World : Type := (Network f32 * option (list byte))%type.

(** A method of [trainer], run in the function. *)
Definition on_trainer {A} (m : Py (Network f32) A) : Py World A :=
  fun w => let '(net', r) := m (fst w) in ((net', snd w), r).

(** [trainer.save_weights(args.output)] *)
Definition save_output : Py World unit :=
  fun w => ((fst w, Some (NNUETrainer.save_weights (fst w))), Ok tt).

(** Lines 391-410: one epoch; the loop carries [training_data] (shuffled in
    place), and [avg_loss] is only printed. *)
Definition run_epoch (batch_size : nat) (learning_rate : f32)
           (training_data : list (list f32 * f32)) (epoch : nat)
  : Py World (list (list f32 * f32)) :=
  let training_data := shuffle epoch training_data in
  r <- on_trainer (train_epoch training_data batch_size learning_rate) ;;
  ret training_data.

(** Lines 388-413: the epochs, then the save. *)
Definition main_training (training_data : list (list f32 * f32))
           (epochs batch_size : nat) (learning_rate : f32) : Py World unit :=
  foldM (run_epoch batch_size learning_rate) (seq 0 epochs) training_data ;;;
  save_output.

End Training.

End train_from_lichess.

Unset Implicit Arguments.

(** * Definitions the properties are stated with *)

(** ** The reads of [load] *)

(** The six conversions of [load], on the six chunks the reads return. *)
Definition load_chunks (c1 c2 c3 c4 c5 c6 : list byte) : Py (Network f32) unit :=
  (a <- lift (rbind (np_frombuffer c1) (np_reshape INPUT_SIZE HIDDEN1_SIZE)) ;;
   assign (set_input_weights a) ;;;
   a <- lift (np_frombuffer c2) ;;
   assign (set_hidden1_bias a) ;;;
   a <- lift (rbind (np_frombuffer c3) (np_reshape HIDDEN1_SIZE HIDDEN2_SIZE)) ;;
   assign (set_hidden1_weights a) ;;;
   a <- lift (np_frombuffer c4) ;;
   assign (set_hidden2_bias a) ;;;
   a <- lift (np_frombuffer c5) ;;
   assign (set_hidden2_weights a) ;;;
   x <- lift (rbind (np_frombuffer c6) np_item0) ;;
   assign (set_output_bias x))%py.

(** Where each read starts. *)
Definition off2 : nat := INPUT_SIZE * HIDDEN1_SIZE * 4.
Definition off3 : nat := HIDDEN1_SIZE * 4 + off2.
Definition off4 : nat := HIDDEN1_SIZE * HIDDEN2_SIZE * 4 + off3.
Definition off5 : nat := HIDDEN2_SIZE * 4 + off4.
Definition off6 : nat := HIDDEN2_SIZE * 4 + off5.

(** ** The quantities of one update *)

Section UpdateQuantities.
Context {F : Type} {SF : Scalar F}.
Local Open Scope num_scope.

Definition all_writeable (n : Network F) : Prop :=
  nd_writeable (input_weights n) = true /\
  nd_writeable (hidden1_bias n) = true /\
  nd_writeable (hidden1_weights n) = true /\
  nd_writeable (hidden2_bias n) = true /\
  nd_writeable (hidden2_weights n) = true.

(** The quantities [backward] computes before it updates anything. *)
Definition bw_error (cache : train_nnue.NNUENetwork.Cache) (target : F)
           (self : Network F) : F :=
  np_dot (train_nnue.NNUENetwork.c_hidden2 cache) (nd_data (hidden2_weights self))
  + output_bias self - target.

Definition bw_d_hidden2_pre (cache : train_nnue.NNUENetwork.Cache) (target : F)
           (self : Network F) : list F :=
  vmul (smul (bw_error cache target self) (nd_data (hidden2_weights self)))
       (open_unit_mask (train_nnue.NNUENetwork.c_hidden2_pre cache)).

Definition bw_d_hidden1_pre (cache : train_nnue.NNUENetwork.Cache) (target : F)
           (self : Network F) : list F :=
  vmul (np_vecmat_T (bw_d_hidden2_pre cache target self)
                    (nd_data (hidden1_weights self)))
       (open_unit_mask (train_nnue.NNUENetwork.c_hidden1_pre cache)).

(** The parameters a completed [backward] leaves. *)
Definition bw_updated (cache : train_nnue.NNUENetwork.Cache) (target lr : F)
           (self : Network F) : Network F :=
  mk_Network
    (if Nat.ltb 0 (length (train_nnue.NNUENetwork.c_active_indices cache))
     then fresh_array
            (sub_rows_at (train_nnue.NNUENetwork.c_active_indices cache)
                         (nd_data (input_weights self))
                         (smul lr (bw_d_hidden1_pre cache target self)))
     else input_weights self)
    (fresh_array (vsub (nd_data (hidden1_bias self))
                       (smul lr (bw_d_hidden1_pre cache target self))))
    (fresh_array (msub (nd_data (hidden1_weights self))
                       (msmul lr (np_outer (train_nnue.NNUENetwork.c_hidden1 cache)
                                           (bw_d_hidden2_pre cache target self)))))
    (fresh_array (vsub (nd_data (hidden2_bias self))
                       (smul lr (bw_d_hidden2_pre cache target self))))
    (fresh_array (vsub (nd_data (hidden2_weights self))
                       (smul lr (smul (bw_error cache target self)
                                      (train_nnue.NNUENetwork.c_hidden2 cache)))))
    (output_bias self - lr * bw_error cache target self).

(** One step of the dense product. *)
Definition dense_step (acc : list F) (p : F * list F) : list F :=
  let '(x, row) := p in vadd acc (smul x row).

(** The gradient of the first-layer pre-activation that [train_batch]
    computes for one sample ([d_hidden1], line 174). *)
Definition tb_d_hidden1 (self : Network F) (batch_size : nat)
           (sample : list F * F) : list F :=
  let '(input_vec, target) := sample in
  let z1 := vadd (np_vecmat input_vec (nd_data (input_weights self)))
                 (nd_data (hidden1_bias self)) in
  let hidden1 := train_from_lichess.NNUETrainer.crelu z1 in
  let z2 := vadd (np_vecmat hidden1 (nd_data (hidden1_weights self)))
                 (nd_data (hidden2_bias self)) in
  let hidden2 := train_from_lichess.NNUETrainer.crelu z2 in
  let output := fadd (np_dot hidden2 (nd_data (hidden2_weights self)))
                     (output_bias self) in
  let error := fsub output (fdiv target (of_int train_from_lichess.NNUE_SCALE)) in
  let d_output := fdiv (fmul (of_int 2) error) (of_int (Z.of_nat batch_size)) in
  let d_hidden2 :=
    vmul (smul d_output (nd_data (hidden2_weights self)))
         (train_from_lichess.NNUETrainer.crelu_derivative z2) in
  vmul (np_vecmat_T d_hidden2 (nd_data (hidden1_weights self)))
       (train_from_lichess.NNUETrainer.crelu_derivative z1).

(** The quantities [train_batch] computes for a sample, by their names in
    the source. *)
Definition tb_z1 (self : Network F) (x : list F) : list F :=
  vadd (np_vecmat x (nd_data (input_weights self))) (nd_data (hidden1_bias self)).

Definition tb_hidden1 (self : Network F) (x : list F) : list F :=
  train_from_lichess.NNUETrainer.crelu (tb_z1 self x).

Definition tb_z2 (self : Network F) (x : list F) : list F :=
  vadd (np_vecmat (tb_hidden1 self x) (nd_data (hidden1_weights self)))
       (nd_data (hidden2_bias self)).

Definition tb_hidden2 (self : Network F) (x : list F) : list F :=
  train_from_lichess.NNUETrainer.crelu (tb_z2 self x).

Definition tb_error (self : Network F) (x : list F) (target : F) : F :=
  fsub (fadd (np_dot (tb_hidden2 self x) (nd_data (hidden2_weights self)))
             (output_bias self))
       (fdiv target (of_int train_from_lichess.NNUE_SCALE)).

Definition tb_d_output (self : Network F) (batch_size : nat) (x : list F)
           (target : F) : F :=
  fdiv (fmul (of_int 2) (tb_error self x target)) (of_int (Z.of_nat batch_size)).

Definition tb_d_hidden2 (self : Network F) (batch_size : nat) (x : list F)
           (target : F) : list F :=
  vmul (smul (tb_d_output self batch_size x target) (nd_data (hidden2_weights self)))
       (train_from_lichess.NNUETrainer.crelu_derivative (tb_z2 self x)).

(** The body of the loop over the batch starts in [main]. *)
Definition main_step (training_data : list (list F * F)) (batch_size : nat)
           (learning_rate : F) : F * nat -> nat -> Py (Network F) (F * nat) :=
  fun '(epoch_loss, num_batches) i =>
    let batch := slice training_data i (i + batch_size) in
    if Nat.ltb (length batch) (batch_size / 2)
    then ret (epoch_loss, num_batches)
    else
      bind (train_from_lichess.NNUETrainer.train_batch
              (map fst batch) (map snd batch) learning_rate)
           (fun loss => ret (fadd epoch_loss loss, S num_batches)).

Section WithExp.
Variable math_exp : F -> option F.
Variable float_pow2 : F -> option F.

(** The body of the loop over the batch starts in [train_nnue]. *)
Definition nnue_step (all_positions : list (Board * F)) (batch_size : nat)
           (lr : F) : F * nat -> nat -> Py (Network F) (F * nat) :=
  fun '(total_loss, num_samples) i =>
    let batch := slice all_positions i (i + batch_size) in
    bind (foldM (train_nnue.train_position math_exp float_pow2 lr) batch
                (fzero, num_samples))
         (fun r => let '(batch_loss, num_samples) := r in
                   ret (fadd total_loss batch_loss, num_samples)).

End WithExp.

End UpdateQuantities.

(** ** The blend weight in rational arithmetic *)

Section BlendWeight.
Local Open Scope Qc_scope.

(** [ply / 100.0] in rational arithmetic. *)
Definition ply_fraction (ply : Z) : Qc := Q2Qc (inject_Z ply) / Q2Qc (inject_Z 100).

Definition cap : Qc := Q2Qc (inject_Z 8) / Q2Qc (inject_Z 10).

End BlendWeight.

(** ** The blend weight in float64 *)

(** The literal [0.8], a float64 (3FE999999999999A). *)
Definition cap64 : f64 := fdiv (of_int 8) (of_int 10).

(** [ply / 100.0] in float64. *)
Definition ply_fraction64 (ply : Z) : f64 := fdiv (of_int ply) (of_int 100).

(** The plies Python converts to a float ([ply / 100.0] raises
    [OverflowError] on a larger [int]). *)
Definition float_range (ply : Z) : Prop := (0 <= ply < 2 ^ 1024 - 2 ^ 970)%Z.

(** ** What the loop of [train_nnue] can raise *)



(** ** Boards, parameters and samples of the examples *)

(** The value 0.5 as a float32 (bits 3F000000, least significant byte first). *)
Definition half32 : f32 := F32 x00 x00 x00 x3f.

(** The learning rate 2^-10 and the target 100 (centipawns). *)
Definition lr_small : f32 := f32_of_scaled 1 (-10).

Definition target_100 : f32 := of_int 100.

(** A board with the white king on e1 (square 4) and the black king on e8
    (square 60), and nothing else. *)
Definition kings_board : Board :=
  mk_Board (fun sq => if Nat.eqb sq 4 then Some (mk_Piece KING WHITE)
                      else if Nat.eqb sq 60 then Some (mk_Piece KING BLACK)
                      else None).

(** The two kings on their home squares and a white queen on d1 (square 3);
    the same with a black queen on d8 (square 59) instead. *)
Definition queen_up_board : Board :=
  mk_Board (fun sq => if Nat.eqb sq 4 then Some (mk_Piece KING WHITE)
                      else if Nat.eqb sq 60 then Some (mk_Piece KING BLACK)
                      else if Nat.eqb sq 3 then Some (mk_Piece QUEEN WHITE)
                      else None).

Definition queen_down_board : Board :=
  mk_Board (fun sq => if Nat.eqb sq 4 then Some (mk_Piece KING WHITE)
                      else if Nat.eqb sq 60 then Some (mk_Piece KING BLACK)
                      else if Nat.eqb sq 59 then Some (mk_Piece QUEEN BLACK)
                      else None).

(** An engine whose every call raises. *)
Definition failing_engine : train_nnue.Engine := fun _ => None.

(** A float32 parameter set of the network's shapes: 0.5 in the first entry
    of the first bias, 3 * 2^-27 in the first column of the two rows of the
    kings' features, and a path of weight 1 from the first hidden unit to the
    output; zero elsewhere. *)
Definition rounding_network : Network f32 :=
  mk_Network
    (fresh_array (tabulate2 INPUT_SIZE HIDDEN1_SIZE
       (fun i j => if (Nat.eqb i 324 || Nat.eqb i 764) && Nat.eqb j 0
                   then f32_of_scaled 3 (-27) else fzero)))
    (fresh_array (tabulate HIDDEN1_SIZE
       (fun j => if Nat.eqb j 0 then f32_of_scaled 1 (-1) else fzero)))
    (fresh_array (tabulate2 HIDDEN1_SIZE HIDDEN2_SIZE
       (fun i j => if Nat.eqb i 0 && Nat.eqb j 0 then fone else fzero)))
    (fresh_array (np_zeros HIDDEN2_SIZE))
    (fresh_array (tabulate HIDDEN2_SIZE
       (fun j => if Nat.eqb j 0 then fone else fzero)))
    fzero.

(** Float32 parameters: zero everywhere but for the output bias, which is 1. *)
Definition unit_bias_network : Network f32 :=
  set_output_bias fone (constant_network fzero).


(** A training sample of each script, on the board of the two kings. *)
Definition kings_input_sample : list f32 * f32 :=
  (train_from_lichess.NNUETrainer.board_to_input kings_board, target_100).

Definition kings_position_sample : Board * f32 := (kings_board, half32).

(** ** The encoders, entry by entry *)

(** The channel of a piece: [piece_idx] after the colour adjustment. *)
Definition piece_index (piece : Piece) : nat :=
  let piece_idx := train_nnue.NNUENetwork.piece_map (piece_type piece) in
  match color piece with
  | BLACK => piece_idx + 6
  | WHITE => piece_idx
  end.

(** [our_sq] of [board_to_features]: the square with its rank flipped. *)
Definition our_sq (square : nat) : nat :=
  (7 - square_rank square) * 8 + square_file square.

(** Whether a square holds a piece. *)
Definition occupied (board : Board) (square : nat) : bool :=
  match piece_at board square with
  | Some _ => true
  | None => false
  end.

(** The loop of both encoders, over any list of squares and with the
    square numbering [sq] (the identity in [board_to_input], [our_sq] in
    [board_to_features]). *)
Definition encode_with {F : Type} {SF : Scalar F} (sq : nat -> nat) (board : Board)
           (squares : list nat) (v : list F) : list F :=
  fold_left
    (fun features square =>
       match piece_at board square with
       | Some piece => set_item (piece_index piece * 64 + sq square) fone features
       | None => features
       end)
    squares v.

(** The feature indices the loop sets, in the order of the squares. *)
Definition feature_indices (sq : nat -> nat) (board : Board) (squares : list nat)
  : list nat :=
  flat_map (fun s => match piece_at board s with
                     | Some piece => [piece_index piece * 64 + sq s]
                     | None => []
                     end) squares.

(** ** Shapes, and the batch update *)

(** A matrix of [r] rows of [c] entries. *)
Definition mat_shape {F : Type} (r c : nat) (m : list (list F)) : Prop :=
  length m = r /\ Forall (fun row => length row = c) m.

(** The shapes of the gradient accumulators of [train_batch]. *)
Definition acc_shape {F : Type} {SF : Scalar F}
           (acc : train_from_lichess.NNUETrainer.Accumulators (F := F)) : Prop :=
  mat_shape INPUT_SIZE HIDDEN1_SIZE
            (train_from_lichess.NNUETrainer.grad_input_weights acc) /\
  length (train_from_lichess.NNUETrainer.grad_hidden1_bias acc) = HIDDEN1_SIZE /\
  mat_shape HIDDEN1_SIZE HIDDEN2_SIZE
            (train_from_lichess.NNUETrainer.grad_hidden1_weights acc) /\
  length (train_from_lichess.NNUETrainer.grad_hidden2_bias acc) = HIDDEN2_SIZE /\
  length (train_from_lichess.NNUETrainer.grad_hidden2_weights acc) = HIDDEN2_SIZE.

(** The accumulators [train_batch] starts from and ends its loop with. *)
Definition tb_acc0 {F : Type} {SF : Scalar F} (self : Network F)
  : train_from_lichess.NNUETrainer.Accumulators :=
  train_from_lichess.NNUETrainer.mk_Accumulators fzero
    (train_from_lichess.NNUETrainer.zeros_like2 (nd_data (input_weights self)))
    (train_from_lichess.NNUETrainer.zeros_like (nd_data (hidden1_bias self)))
    (train_from_lichess.NNUETrainer.zeros_like2 (nd_data (hidden1_weights self)))
    (train_from_lichess.NNUETrainer.zeros_like (nd_data (hidden2_bias self)))
    (train_from_lichess.NNUETrainer.zeros_like (nd_data (hidden2_weights self)))
    fzero.

Definition tb_acc {F : Type} {SF : Scalar F} (self : Network F)
           (positions : list (list F)) (targets : list F)
  : train_from_lichess.NNUETrainer.Accumulators :=
  fold_left (train_from_lichess.NNUETrainer.accumulate self (length positions))
            (combine positions targets) (tb_acc0 self).

(** The parameters [train_batch] leaves. *)
Definition tb_updated {F : Type} {SF : Scalar F} (self : Network F)
           (positions : list (list F)) (targets : list F) (learning_rate : F)
  : Network F :=
  let acc := tb_acc self positions targets in
  mk_Network
    (fresh_array (msub (nd_data (input_weights self))
       (msmul learning_rate (train_from_lichess.NNUETrainer.grad_input_weights acc))))
    (fresh_array (vsub (nd_data (hidden1_bias self))
       (smul learning_rate (train_from_lichess.NNUETrainer.grad_hidden1_bias acc))))
    (fresh_array (msub (nd_data (hidden1_weights self))
       (msmul learning_rate (train_from_lichess.NNUETrainer.grad_hidden1_weights acc))))
    (fresh_array (vsub (nd_data (hidden2_bias self))
       (smul learning_rate (train_from_lichess.NNUETrainer.grad_hidden2_bias acc))))
    (fresh_array (vsub (nd_data (hidden2_weights self))
       (smul learning_rate (train_from_lichess.NNUETrainer.grad_hidden2_weights acc))))
    (fsub (output_bias self)
          (fmul learning_rate (train_from_lichess.NNUETrainer.grad_output_bias acc))).

(** ** Epochs and runs *)

(** Two runs of an epoch end alike: in the same parameters, and with the same
    count of samples or the same exception (the loss sums, which depend on
    the order of the additions, apart). *)
Definition same_outcome {F : Type} (x y : Network F * result (F * nat)) : Prop :=
  fst x = fst y /\
  match snd x, snd y with
  | Ok (_, n), Ok (_, m) => n = m
  | Raise e, Raise e' => e = e'
  | _, _ => False
  end.

(** The body of [train_nnue]'s loop over the batches, on the batch itself. *)
Definition nnue_batch {F : Type} {SF : Scalar F} (math_exp float_pow2 : F -> option F)
           (lr : F)
  : F * nat -> list (Board * F) -> Py (Network F) (F * nat) :=
  fun '(total_loss, num_samples) batch =>
    bind (foldM (train_nnue.train_position math_exp float_pow2 lr) batch
                (fzero, num_samples))
         (fun r => let '(batch_loss, num_samples) := r in
                   ret (fadd total_loss batch_loss, num_samples)).


(** ** Boards of the symmetry properties *)

(** The board with the colour of every piece exchanged. *)
Definition swap_colors (board : Board) : Board :=
  mk_Board (fun square =>
              match piece_at board square with
              | Some piece =>
                  Some (mk_Piece (piece_type piece)
                                 match color piece with
                                 | WHITE => BLACK
                                 | BLACK => WHITE
                                 end)
              | None => None
              end).

(** The board without its kings. *)
Definition without_kings (board : Board) : Board :=
  mk_Board (fun square =>
              match piece_at board square with
              | Some piece =>
                  match piece_type piece with
                  | KING => None
                  | _ => Some piece
                  end
              | None => None
              end).

(** * Lemmas and theorems *)

From Stdlib Require Import Ring Lqa.

(** The sizes stay symbolic in the proofs. *)
Lemma INPUT_SIZE_pos : 0 < INPUT_SIZE.
Proof. unfold INPUT_SIZE. lia. Qed.

Lemma HIDDEN1_SIZE_pos : 0 < HIDDEN1_SIZE.
Proof. unfold HIDDEN1_SIZE. lia. Qed.

Opaque INPUT_SIZE HIDDEN1_SIZE HIDDEN2_SIZE.
(** * Weight files: lemmas *)

Lemma tobytes_length (v : list f32) : length (tobytes v) = 4 * length v.
Proof.
  induction v as [|[b0 b1 b2 b3] v IH]; [reflexivity|].
  unfold tobytes in *. cbn [flat_map f32_tobytes app length]. lia.
Qed.

Lemma tobytes_app (v w : list f32) : tobytes (v ++ w) = tobytes v ++ tobytes w.
Proof. apply flat_map_app. Qed.

Lemma tobytes2_concat (m : list (list f32)) : tobytes2 m = tobytes (concat m).
Proof.
  induction m as [|row m IH]; [reflexivity|].
  cbn [concat]. rewrite tobytes_app, <- IH. reflexivity.
Qed.

Lemma frombuffer_tobytes (v : list f32) : frombuffer_data (tobytes v) = Ok v.
Proof.
  induction v as [|[b0 b1 b2 b3] v IH]; [reflexivity|].
  unfold tobytes in *. cbn [flat_map f32_tobytes app frombuffer_data].
  rewrite IH. reflexivity.
Qed.

Lemma frombuffer_whole (k : nat) :
  forall b, length b = 4 * k ->
  exists v, frombuffer_data b = Ok v /\ length v = k.
Proof.
  induction k as [|k IH]; intros b Hb.
  - destruct b; [|discriminate]. exists []. split; reflexivity.
  - destruct b as [|b0 [|b1 [|b2 [|b3 rest]]]]; cbn [length] in Hb; try lia.
    destruct (IH rest) as (v & Hv & Hl); [lia|].
    exists (F32 b0 b1 b2 b3 :: v). cbn [frombuffer_data]. rewrite Hv.
    split; [reflexivity|]. cbn [length]. lia.
Qed.

Lemma frombuffer_ragged (b : list byte) :
  0 < length b < 4 -> frombuffer_data b = Raise ValueError.
Proof.
  destruct b as [|b0 [|b1 [|b2 [|b3 rest]]]]; cbn [length]; intros H;
    try reflexivity; lia.
Qed.

Lemma concat_length_rows {A} (c : nat) (m : list (list A)) :
  Forall (fun row => length row = c) m -> length (concat m) = length m * c.
Proof.
  induction 1 as [|row m Hrow _ IH]; [reflexivity|].
  cbn [concat length]. rewrite length_app, IH, Hrow. lia.
Qed.

Lemma rows_of_concat {A} (c : nat) (m : list (list A)) :
  Forall (fun row => length row = c) m -> rows_of (length m) c (concat m) = m.
Proof.
  induction 1 as [|row m Hrow _ IH]; [reflexivity|].
  cbn [concat length rows_of].
  rewrite firstn_app, skipn_app, Hrow, Nat.sub_diag, firstn_O, skipn_O, app_nil_r.
  rewrite firstn_all2, skipn_all2 by lia. cbn [app]. rewrite IH. reflexivity.
Qed.

Lemma rows_of_length {A} (r c : nat) (v : list A) : length (rows_of r c v) = r.
Proof.
  revert v; induction r as [|r IH]; intros v; cbn [rows_of length]; auto.
Qed.

Lemma rows_of_widths {A} (r c : nat) (v : list A) :
  length v = r * c -> Forall (fun row => length row = c) (rows_of r c v).
Proof.
  revert v; induction r as [|r IH]; intros v Hv; cbn [rows_of]; constructor.
  - rewrite length_firstn. lia.
  - apply IH. rewrite length_skipn. lia.
Qed.

Lemma file_read_app (a rest : list byte) (n : nat) :
  length a = n -> file_read (a ++ rest) n = (a, rest).
Proof.
  intros <-. unfold file_read.
  rewrite firstn_app, firstn_all, Nat.sub_diag, firstn_O, app_nil_r.
  rewrite skipn_app, skipn_all, Nat.sub_diag, skipn_O. reflexivity.
Qed.

Lemma off6_expected : off6 + 4 = expected_size.
Proof. unfold off6, off5, off4, off3, off2, expected_size. lia. Qed.

Lemma load_as_chunks (file : list byte) :
  train_nnue.NNUENetwork.load file =
  load_chunks (firstn (INPUT_SIZE * HIDDEN1_SIZE * 4) file)
              (firstn (HIDDEN1_SIZE * 4) (skipn off2 file))
              (firstn (HIDDEN1_SIZE * HIDDEN2_SIZE * 4) (skipn off3 file))
              (firstn (HIDDEN2_SIZE * 4) (skipn off4 file))
              (firstn (HIDDEN2_SIZE * 4) (skipn off5 file))
              (firstn 4 (skipn off6 file)).
Proof.
  unfold off6, off5, off4, off3, off2.
  rewrite <- !skipn_skipn. reflexivity.
Qed.

Lemma load_weights_is_load (file : list byte) :
  train_from_lichess.NNUETrainer.load_weights file = train_nnue.NNUENetwork.load file.
Proof. reflexivity. Qed.

Lemma save_weights_is_save (n : Network f32) :
  train_from_lichess.NNUETrainer.save_weights n = train_nnue.NNUENetwork.save n.
Proof. reflexivity. Qed.

(** A last chunk of fewer than four bytes makes the load raise, wherever the
    earlier conversions got to. *)
Lemma load_chunks_short_tail (c1 c2 c3 c4 c5 c6 : list byte) (self : Network f32) :
  length c6 < 4 ->
  exists e, snd (load_chunks c1 c2 c3 c4 c5 c6 self) = Raise e.
Proof.
  intros H6.
  assert (Hlast : exists e, rbind (np_frombuffer c6) (@np_item0 f32) = Raise e).
  { destruct c6 as [|b c6].
    - exists IndexError. reflexivity.
    - exists ValueError. unfold np_frombuffer.
      rewrite frombuffer_ragged by (cbn [length] in *; lia). reflexivity. }
  destruct Hlast as (e6 & He6).
  unfold load_chunks, bind, lift, assign. rewrite He6.
  repeat match goal with
  | |- context [rbind ?a ?b] => destruct (rbind a b); cbn [snd]; eauto
  | |- context [np_frombuffer ?a] => destruct (np_frombuffer a); cbn [snd]; eauto
  end.
Qed.

Lemma load_chunks_ok (c1 c2 c3 c4 c5 c6 : list byte)
      (v1 v2 v3 v4 v5 v6 : list f32) (x : f32) (self : Network f32) :
  frombuffer_data c1 = Ok v1 -> length v1 = INPUT_SIZE * HIDDEN1_SIZE ->
  frombuffer_data c2 = Ok v2 ->
  frombuffer_data c3 = Ok v3 -> length v3 = HIDDEN1_SIZE * HIDDEN2_SIZE ->
  frombuffer_data c4 = Ok v4 ->
  frombuffer_data c5 = Ok v5 ->
  frombuffer_data c6 = Ok (x :: v6) ->
  load_chunks c1 c2 c3 c4 c5 c6 self =
  (mk_Network (mk_ndarray (rows_of INPUT_SIZE HIDDEN1_SIZE v1) false)
              (mk_ndarray v2 false)
              (mk_ndarray (rows_of HIDDEN1_SIZE HIDDEN2_SIZE v3) false)
              (mk_ndarray v4 false)
              (mk_ndarray v5 false)
              x,
   Ok tt).
Proof.
  intros H1 L1 H2 H3 L3 H4 H5 H6.
  unfold load_chunks, bind, lift, assign, np_frombuffer, np_reshape, np_item0.
  rewrite H1, H2, H3, H4, H5, H6.
  cbn [rbind nd_data nd_writeable].
  rewrite L1, L3, !Nat.eqb_refl.
  reflexivity.
Qed.

Lemma chunk_length (n m : nat) (l : list byte) :
  m + n <= length l -> length (firstn n (skipn m l)) = n.
Proof. intros H. rewrite length_firstn, length_skipn. lia. Qed.

Lemma chunk_of_prefix {A} (n m k : nat) (l : list A) :
  m + n <= k -> firstn n (skipn m (firstn k l)) = firstn n (skipn m l).
Proof.
  intros H. rewrite skipn_firstn_comm, firstn_firstn.
  f_equal. lia.
Qed.

Lemma chunk_short (n m : nat) (l : list byte) :
  0 < n -> length l < m + n -> length (firstn n (skipn m l)) < n.
Proof. intros Hn H. rewrite length_firstn, length_skipn. lia. Qed.

(** A file of at least [expected_size] bytes loads, whatever follows. *)
Lemma load_long_enough (buf : list byte) (self : Network f32) :
  expected_size <= length buf ->
  exists n, train_nnue.NNUENetwork.load buf self = (n, Ok tt) /\
            shape_ok n /\
            nd_writeable (input_weights n) = false /\
            nd_writeable (hidden1_bias n) = false /\
            nd_writeable (hidden1_weights n) = false /\
            nd_writeable (hidden2_bias n) = false /\
            nd_writeable (hidden2_weights n) = false.
Proof.
  intros Hlen. rewrite <- off6_expected in Hlen.
  rewrite load_as_chunks.
  pose proof Hlen as Hlen'.
  unfold off6, off5, off4, off3 in Hlen'. fold off2 in Hlen'.
  destruct (@frombuffer_whole (INPUT_SIZE * HIDDEN1_SIZE)
              (firstn (INPUT_SIZE * HIDDEN1_SIZE * 4) buf)) as (v1 & E1 & L1).
  { rewrite length_firstn. unfold off2 in Hlen'. lia. }
  destruct (@frombuffer_whole HIDDEN1_SIZE
              (firstn (HIDDEN1_SIZE * 4) (skipn off2 buf))) as (v2 & E2 & L2).
  { rewrite chunk_length; lia. }
  destruct (@frombuffer_whole (HIDDEN1_SIZE * HIDDEN2_SIZE)
              (firstn (HIDDEN1_SIZE * HIDDEN2_SIZE * 4) (skipn off3 buf)))
    as (v3 & E3 & L3).
  { rewrite chunk_length; unfold off3; lia. }
  destruct (@frombuffer_whole HIDDEN2_SIZE
              (firstn (HIDDEN2_SIZE * 4) (skipn off4 buf))) as (v4 & E4 & L4).
  { rewrite chunk_length; unfold off4, off3; lia. }
  destruct (@frombuffer_whole HIDDEN2_SIZE
              (firstn (HIDDEN2_SIZE * 4) (skipn off5 buf))) as (v5 & E5 & L5).
  { rewrite chunk_length; unfold off5, off4, off3; lia. }
  destruct (@frombuffer_whole 1 (firstn 4 (skipn off6 buf))) as (v6 & E6 & L6).
  { rewrite chunk_length; unfold off6, off5, off4, off3; lia. }
  destruct v6 as [|x v6]; [discriminate|].
  eexists. split.
  - exact (load_chunks_ok _ _ _ _ _ _ _ _ _ _ _ _ _ self E1 L1 E2 E3 L3 E4 E5 E6).
  - unfold shape_ok. cbn [input_weights hidden1_bias hidden1_weights
                          hidden2_bias hidden2_weights nd_data nd_writeable].
    repeat split; try assumption; try reflexivity;
      auto using rows_of_length, rows_of_widths.
Qed.

Lemma constant_network_shape {F} (x : F) : shape_ok (constant_network x).
Proof.
  unfold shape_ok, constant_network, fresh_array.
  cbn [input_weights hidden1_bias hidden1_weights hidden2_bias hidden2_weights
       nd_data].
  rewrite !repeat_length.
  repeat split; try reflexivity; apply Forall_forall; intros row Hin;
    apply repeat_spec in Hin; subst row; apply repeat_length.
Qed.

Lemma file_read_all (a : list byte) (n : nat) :
  length a = n -> file_read a n = (a, []).
Proof.
  intros H. rewrite <- (app_nil_r a) at 1. apply file_read_app, H.
Qed.

(** Loading what [save] wrote gives back every value. *)
Lemma load_save (n self : Network f32) :
  shape_ok n ->
  train_nnue.NNUENetwork.load (train_nnue.NNUENetwork.save n) self =
  (mk_Network (mk_ndarray (nd_data (input_weights n)) false)
              (mk_ndarray (nd_data (hidden1_bias n)) false)
              (mk_ndarray (nd_data (hidden1_weights n)) false)
              (mk_ndarray (nd_data (hidden2_bias n)) false)
              (mk_ndarray (nd_data (hidden2_weights n)) false)
              (output_bias n),
   Ok tt).
Proof.
  intros (L1 & W1 & L2 & L3 & W3 & L4 & L5).
  unfold train_nnue.NNUENetwork.load, train_nnue.NNUENetwork.save.
  rewrite file_read_app
    by (rewrite tobytes2_concat, tobytes_length, (concat_length_rows _ _ W1); lia).
  cbv beta iota.
  rewrite file_read_app by (rewrite tobytes_length; lia). cbv beta iota.
  rewrite file_read_app
    by (rewrite tobytes2_concat, tobytes_length, (concat_length_rows _ _ W3); lia).
  cbv beta iota.
  rewrite file_read_app by (rewrite tobytes_length; lia). cbv beta iota.
  rewrite file_read_app by (rewrite tobytes_length; lia). cbv beta iota.
  rewrite file_read_all by (destruct (output_bias n); reflexivity). cbv beta iota.
  unfold bind, lift, assign, np_frombuffer, np_reshape, np_item0.
  rewrite !tobytes2_concat, !frombuffer_tobytes.
  cbn [rbind nd_data nd_writeable].
  rewrite (concat_length_rows _ _ W1), (concat_length_rows _ _ W3), L1, L3, !Nat.eqb_refl.
  rewrite <- L1 at 1. rewrite <- L3 at 1.
  rewrite (rows_of_concat _ _ W1), (rows_of_concat _ _ W3).
  reflexivity.
Qed.

Example expected_size_value : N.of_nat expected_size = 820484%N.
Proof. vm_compute. reflexivity. Qed.

(** * Weight files: the claims *)

Lemma load_short (buf : list byte) (self : Network f32) :
  length buf < expected_size ->
  exists e, snd (train_nnue.NNUENetwork.load buf self) = Raise e.
Proof.
  intros Hshort. rewrite load_as_chunks.
  apply load_chunks_short_tail, chunk_short; [lia|].
  rewrite off6_expected. exact Hshort.
Qed.

Lemma load_prefix (buf : list byte) (self : Network f32) :
  expected_size <= length buf ->
  snd (train_nnue.NNUENetwork.load buf self) = Ok tt /\
  train_nnue.NNUENetwork.load buf self = train_nnue.NNUENetwork.load (firstn expected_size buf) self.
Proof.
  intros Hlong.
  destruct (load_long_enough buf self Hlong) as (n & Hn & _).
  rewrite Hn. cbn [snd]. split; [reflexivity|].
  rewrite load_as_chunks in Hn |- *.
  pose proof off6_expected as HE.
  unfold off6, off5, off4, off3 in HE. fold off2 in HE.
  rewrite <- (skipn_O (firstn expected_size buf)) at 1.
  rewrite !chunk_of_prefix by (unfold off6, off5, off4, off3; fold off2; lia).
  rewrite skipn_O. symmetry. exact Hn.
Qed.

(** C1 (as amended).  Neither loader compares the file length with
    [expected_size].  A buffer shorter than [expected_size] makes the load
    raise (a [ValueError] from [np.frombuffer] or [reshape], or an [IndexError]
    from the final [[0]]), so nothing is zero-padded; a buffer of at least
    [expected_size] bytes loads, and gives exactly what its first
    [expected_size] bytes give: what follows them is ignored. *)
Theorem C1_load_fails_only_when_short (buf : list byte) (self : Network f32) :
  (length buf < expected_size ->
   exists e, snd (train_nnue.NNUENetwork.load buf self) = Raise e /\
             snd (train_from_lichess.NNUETrainer.load_weights buf self) = Raise e) /\
  (expected_size <= length buf ->
   snd (train_nnue.NNUENetwork.load buf self) = Ok tt /\
   snd (train_from_lichess.NNUETrainer.load_weights buf self) = Ok tt /\
   train_nnue.NNUENetwork.load buf self = train_nnue.NNUENetwork.load (firstn expected_size buf) self /\
   train_from_lichess.NNUETrainer.load_weights buf self =
   train_from_lichess.NNUETrainer.load_weights (firstn expected_size buf) self).
Proof.
  split.
  - intros Hshort. destruct (load_short buf self Hshort) as (e & He).
    exists e. split; exact He.
  - intros Hlong. destruct (load_prefix buf self Hlong) as (Hok & Hpre).
    repeat split; assumption.
Qed.

(** C1, as stated, fails: a buffer one byte longer than [expected_size] is
    loaded without any error, by both loaders. *)
Lemma C1_overlong_buffer_loads :
  let buf := repeat x00 (expected_size + 1) in
  length buf <> expected_size /\
  snd (train_nnue.NNUENetwork.load buf (constant_network half32)) = Ok tt /\
  snd (train_from_lichess.NNUETrainer.load_weights buf (constant_network half32)) = Ok tt.
Proof.
  cbv zeta. rewrite repeat_length.
  split; [lia|].
  assert (H : snd (train_nnue.NNUENetwork.load (repeat x00 (expected_size + 1))
                                    (constant_network half32)) = Ok tt).
  { apply load_prefix. rewrite repeat_length. lia. }
  split; exact H.
Qed.

(** C2.  For every parameter set of the network's shapes, loading the bytes
    that [save] / [save_weights] wrote succeeds and gives a parameter set whose
    six parameters are those that were saved, bit for bit. *)
Theorem C2_save_load_round_trip (n self : Network f32) :
  shape_ok n ->
  exists m,
    train_nnue.NNUENetwork.load (train_nnue.NNUENetwork.save n) self = (m, Ok tt) /\
    train_from_lichess.NNUETrainer.load_weights (train_from_lichess.NNUETrainer.save_weights n) self = (m, Ok tt) /\
    same_parameters m n.
Proof.
  intros Hn. eexists. split; [exact (load_save n self Hn)|].
  split; [exact (load_save n self Hn)|]. unfold same_parameters.
  cbn [input_weights hidden1_bias hidden1_weights hidden2_bias hidden2_weights
       output_bias nd_data].
  repeat split.
Qed.

Lemma C2_round_trip_witness :
  shape_ok (constant_network half32) /\
  exists m,
    train_nnue.NNUENetwork.load (train_nnue.NNUENetwork.save (constant_network half32))
                     (constant_network (F32 x00 x00 x00 x00)) = (m, Ok tt) /\
    train_from_lichess.NNUETrainer.load_weights (train_from_lichess.NNUETrainer.save_weights (constant_network half32))
                     (constant_network (F32 x00 x00 x00 x00)) = (m, Ok tt) /\
    same_parameters m (constant_network half32).
Proof.
  split.
  - apply constant_network_shape.
  - apply C2_save_load_round_trip, constant_network_shape.
Defined.

(** * Feature encoders *)

(** C4.  On the board with only the two kings on their home squares the two
    encoders mark different features: [board_to_features] flips the rank
    (a8 = 0: the white king is feature 5*64 + 60, the black king 11*64 + 4),
    [board_to_input] uses the square number as it is (a1 = 0: 5*64 + 4 and
    11*64 + 60). *)
Theorem C4_encoders_disagree_on_kings :
  where_positive
    (train_nnue.NNUENetwork.board_to_features (F := f32) kings_board) = [380; 708] /\
  where_positive
    (train_from_lichess.NNUETrainer.board_to_input (F := f32) kings_board) = [324; 764].
Proof. split; vm_compute; reflexivity. Qed.

(** * Rational arithmetic is exact *)

Lemma Qc_exact : ExactArithmetic Qc.
Proof.
  constructor.
  - constructor; intros; cbn [fzero fone fadd fmul fsub Scalar_Qc]; ring.
  - intros x. cbn [fdiv fone Scalar_Qc]. unfold Qcdiv.
    replace (/ Q2Qc 1)%Qc with (Q2Qc 1) by (apply Qc_is_canon; reflexivity).
    apply Qcmult_1_r.
  - apply Qc_is_canon. reflexivity.
  - apply Qc_is_canon. reflexivity.
  - reflexivity.
  - intros x. cbn [fltb Scalar_Qc]. unfold Qccompare.
    rewrite (proj1 (Qeq_alt x x) (Qeq_refl x)). reflexivity.
  - reflexivity.
Qed.

(** * Sparse accumulation against the dense product *)

Section ZipWith.
Context {F : Type} {SF : Scalar F}.

Lemma zip_with_length (f : F -> F -> F) (v w : list F) :
  length (zip_with f v w) = Nat.min (length v) (length w).
Proof.
  revert w; induction v as [|x v IH]; intros [|y w];
    cbn [zip_with length Nat.min]; auto.
Qed.

Lemma zip_with_comm (f : F -> F -> F) :
  (forall x y, f x y = f y x) ->
  forall v w, zip_with f v w = zip_with f w v.
Proof.
  intros Hf v; induction v as [|x v IH]; intros [|y w]; cbn [zip_with]; auto.
  rewrite Hf, IH. reflexivity.
Qed.

Lemma zip_with_swap (f : F -> F -> F) :
  (forall x y z, f (f x y) z = f (f x z) y) ->
  forall a r b, zip_with f (zip_with f a r) b = zip_with f (zip_with f a b) r.
Proof.
  intros Hf a; induction a as [|x a IH]; intros [|y r] [|z b];
    cbn [zip_with]; auto.
  rewrite Hf, IH. reflexivity.
Qed.

End ZipWith.

Section Exact.
Context {F : Type} {SF : Scalar F} {EA : ExactArithmetic F}.

Add Ring exact_arith_ring : exact_ring.

Lemma fadd_comm (x y : F) : fadd x y = fadd y x.
Proof. ring. Qed.

Lemma fadd_swap (x y z : F) : fadd (fadd x y) z = fadd (fadd x z) y.
Proof. ring. Qed.

Lemma fadd_0_r (x : F) : fadd x fzero = x.
Proof. ring. Qed.

Lemma fadd_0_l (x : F) : fadd fzero x = x.
Proof. ring. Qed.

Lemma fmul_0_l (x : F) : fmul fzero x = fzero.
Proof. ring. Qed.

Lemma fmul_1_l (x : F) : fmul fone x = x.
Proof. ring. Qed.

Lemma fsub_0_r (x : F) : fsub x fzero = x.
Proof. ring. Qed.

Lemma fmul_0_r (x : F) : fmul x fzero = fzero.
Proof. ring. Qed.

Lemma vadd_comm (v w : list F) : vadd v w = vadd w v.
Proof. apply zip_with_comm, fadd_comm. Qed.

Lemma vadd_swap (a r b : list F) : vadd (vadd a r) b = vadd (vadd a b) r.
Proof. apply zip_with_swap, fadd_swap. Qed.

Lemma smul_zero (row : list F) : smul fzero row = np_zeros (length row).
Proof.
  induction row as [|x row IH]; [reflexivity|].
  unfold smul, np_zeros in *. cbn [map length repeat].
  rewrite fmul_0_l, IH. reflexivity.
Qed.

Lemma smul_one (row : list F) : smul fone row = row.
Proof.
  induction row as [|x row IH]; [reflexivity|].
  unfold smul in *. cbn [map]. rewrite fmul_1_l, IH. reflexivity.
Qed.

Lemma vadd_zeros_r (v : list F) : vadd v (np_zeros (length v)) = v.
Proof.
  induction v as [|x v IH]; [reflexivity|].
  unfold vadd, np_zeros in *. cbn [length repeat zip_with].
  rewrite fadd_0_r, IH. reflexivity.
Qed.

Lemma vadd_zeros_l (v : list F) : vadd (np_zeros (length v)) v = v.
Proof. rewrite vadd_comm. apply vadd_zeros_r. Qed.

Lemma dense_fold_shift (l : list (F * list F)) (acc b : list F) :
  vadd (fold_left dense_step l acc) b = fold_left dense_step l (vadd acc b).
Proof.
  revert acc; induction l as [|[x row] l IH]; intros acc; [reflexivity|].
  cbn [fold_left dense_step]. rewrite IH, vadd_swap. reflexivity.
Qed.

Lemma dense_fold_is_add_rows (x : list F) :
  forall (pre suf : list (list F)) (b : list F),
    zero_one x ->
    length x <= length suf ->
    Forall (fun row => length row = length b) suf ->
    fold_left dense_step (combine x suf) b =
    train_nnue.NNUENetwork.add_rows (pre ++ suf)
      (where_positive_from (length pre) x) b.
Proof.
  induction x as [|v x IH]; intros pre suf b Hx Hlen Hw; [reflexivity|].
  destruct suf as [|row suf]; [cbn [length] in Hlen; lia|].
  inversion Hx as [|v' x' Hv Hx']; subst v' x'.
  inversion Hw as [|row' suf' Hrow Hsuf]; subst row' suf'.
  cbn [combine fold_left dense_step where_positive_from].
  assert (Hpre : pre ++ row :: suf = (pre ++ [row]) ++ suf)
    by (rewrite <- app_assoc; reflexivity).
  assert (Hidx : S (length pre) = length (pre ++ [row]))
    by (rewrite length_app; cbn [length]; lia).
  cbn [length] in Hlen.
  destruct Hv as [-> | ->].
  - rewrite exact_lt_irrefl, smul_zero, Hrow, vadd_zeros_r.
    rewrite Hpre, Hidx. apply IH; auto. lia.
  - rewrite exact_zero_lt_one, smul_one.
    unfold train_nnue.NNUENetwork.add_rows. cbn [fold_left].
    rewrite nth_middle.
    fold (train_nnue.NNUENetwork.add_rows (pre ++ row :: suf)
            (where_positive_from (S (length pre)) x) (vadd b row)).
    rewrite Hpre, Hidx. apply IH; auto; [lia|].
    assert (Hb : length (vadd b row) = length b)
      by (unfold vadd; rewrite zip_with_length; lia).
    rewrite Hb. exact Hsuf.
Qed.

End Exact.

Lemma fold_left_invariant {A B} (P : A -> Prop) (f : A -> B -> A) (l : list B) :
  forall a, P a -> (forall a b, P a -> P (f a b)) -> P (fold_left f l a).
Proof.
  induction l as [|b l IH]; intros a Ha Hf; cbn [fold_left]; auto.
Qed.

Section Encoders.
Context {F : Type} {SF : Scalar F}.

Lemma set_item_length (i : nat) (x : F) (v : list F) :
  length (set_item i x v) = length v.
Proof.
  revert i; induction v as [|y v IH]; intros [|i]; cbn [set_item length]; auto.
Qed.

Lemma set_item_zero_one (i : nat) (v : list F) :
  zero_one v -> zero_one (set_item i fone v).
Proof.
  intros Hv; revert i; induction Hv as [|y v Hy Hv IH]; intros [|i];
    cbn [set_item]; constructor; auto. apply IH.
Qed.

Lemma np_zeros_zero_one (n : nat) : zero_one (np_zeros (F := F) n).
Proof.
  unfold zero_one, np_zeros. apply Forall_forall. intros v Hv.
  apply repeat_spec in Hv. auto.
Qed.

(** Both encoders return a 0/1 vector of [INPUT_SIZE] entries. *)
Lemma board_to_input_vector (board : Board) :
  length (train_from_lichess.NNUETrainer.board_to_input (F := F) board) = INPUT_SIZE /\
  zero_one (train_from_lichess.NNUETrainer.board_to_input (F := F) board).
Proof.
  unfold train_from_lichess.NNUETrainer.board_to_input.
  apply fold_left_invariant.
  - split; [apply repeat_length | apply np_zeros_zero_one].
  - intros v sq (Hl & Hz). destruct (piece_at board sq); [|auto].
    split; [rewrite set_item_length; exact Hl | apply set_item_zero_one, Hz].
Qed.

Lemma board_to_features_vector (board : Board) :
  length (train_nnue.NNUENetwork.board_to_features (F := F) board) = INPUT_SIZE /\
  zero_one (train_nnue.NNUENetwork.board_to_features (F := F) board).
Proof.
  unfold train_nnue.NNUENetwork.board_to_features.
  apply fold_left_invariant.
  - split; [apply repeat_length | apply np_zeros_zero_one].
  - intros v sq (Hl & Hz). destruct (piece_at board sq); [|auto].
    split; [rewrite set_item_length; exact Hl | apply set_item_zero_one, Hz].
Qed.

End Encoders.

Section SparseDense.
Context {F : Type} {SF : Scalar F} {EA : ExactArithmetic F}.

(** The first layer: the dense product plus the bias is the bias plus the
    rows at the active indices. *)
Lemma dense_layer1_is_sparse (w : list (list F)) (b x : list F) :
  w <> [] ->
  length x = length w ->
  Forall (fun row => length row = length b) w ->
  zero_one x ->
  vadd (np_vecmat x w) b =
  train_nnue.NNUENetwork.add_rows w (where_positive x) b.
Proof.
  intros Hne Hlen Hw Hx.
  unfold np_vecmat.
  change (fun (acc : list F) '(x0, row) => vadd acc (smul x0 row))
    with (dense_step (F := F)).
  rewrite dense_fold_shift.
  assert (Hcols : ncols w = length b).
  { destruct w as [|row w]; [congruence|]. inversion Hw; assumption. }
  rewrite Hcols, vadd_zeros_l.
  apply (dense_fold_is_add_rows x [] w b); auto. lia.
Qed.

End SparseDense.

(** C3 (as amended).  In exact arithmetic, for every 0/1 feature vector of
    [INPUT_SIZE] entries and every parameter set of the network's shapes,
    the sparse forward pass of [NNUENetwork.forward] returns the output of
    the dense forward pass of [NNUETrainer.forward]. *)
Theorem C3_sparse_forward_is_dense_when_exact
        (F : Type) (SF : Scalar F) (EA : ExactArithmetic F)
        (net : Network F) (x : list F) :
  shape_ok net ->
  length x = INPUT_SIZE ->
  zero_one x ->
  train_nnue.NNUENetwork.forward net x =
  fst (fst (train_from_lichess.NNUETrainer.forward net x)).
Proof.
  intros (L1 & W1 & L2 & L3 & W3 & L4 & L5) Hlen Hx.
  unfold train_nnue.NNUENetwork.forward, train_from_lichess.NNUETrainer.forward,
    train_from_lichess.NNUETrainer.crelu.
  cbn [fst].
  rewrite <- (dense_layer1_is_sparse (nd_data (input_weights net))
                (nd_data (hidden1_bias net)) x).
  - rewrite (vadd_comm (nd_data (hidden2_bias net))). apply fadd_comm.
  - intros Hnil. pose proof INPUT_SIZE_pos as Hpos.
    rewrite Hnil in L1. cbn [length] in L1. lia.
  - congruence.
  - rewrite L2. exact W1.
  - exact Hx.
Qed.

Lemma C3_exact_witness :
  shape_ok (constant_network (Q2Qc (1 # 3))) /\
  train_nnue.NNUENetwork.forward (constant_network (Q2Qc (1 # 3)))
    (train_from_lichess.NNUETrainer.board_to_input kings_board) =
  fst (fst (train_from_lichess.NNUETrainer.forward (constant_network (Q2Qc (1 # 3)))
              (train_from_lichess.NNUETrainer.board_to_input kings_board))).
Proof.
  split.
  - apply constant_network_shape.
  - apply (C3_sparse_forward_is_dense_when_exact Qc Scalar_Qc Qc_exact).
    + apply constant_network_shape.
    + apply board_to_input_vector.
    + apply board_to_input_vector.
Defined.

(** * Float32 values compared by computation *)

Lemma f32_eqb_eq (x y : f32) : f32_eqb x y = true -> x = y.
Proof.
  destruct x as [a0 a1 a2 a3], y as [b0 b1 b2 b3]. cbn [f32_eqb].
  rewrite !andb_true_iff. intros (((H0 & H1) & H2) & H3).
  apply Byte.byte_dec_bl in H0, H1, H2, H3. congruence.
Qed.

Lemma forallb_f32_eq (f g : f32 -> f32) (l : list f32) :
  forallb (fun v => f32_eqb (f v) (g v)) l = true ->
  Forall (fun v => f v = g v) l.
Proof.
  intros H. apply Forall_forall. intros v Hv.
  rewrite forallb_forall in H. apply f32_eqb_eq, H, Hv.
Qed.

(** * Products with blocks of zero rows

    The dense product visits every row; over a block of zero rows it leaves
    the accumulator as it is, as soon as the products and sums with zero
    involved give back what they are given. *)

Section ZeroBlocks.
Context {F : Type} {SF : Scalar F}.

Lemma Forall_repeat {A} (P : A -> Prop) (a : A) (n : nat) :
  P a -> Forall P (repeat a n).
Proof.
  intros Ha. apply Forall_forall. intros b Hb. apply repeat_spec in Hb.
  subst b. exact Ha.
Qed.

Lemma dense_step_zero_row (c : nat) (acc : list F) (x : F) :
  fmul x fzero = fzero ->
  Forall (fun a => fadd a fzero = a) acc ->
  length acc = c ->
  dense_step acc (x, np_zeros c) = acc.
Proof.
  intros Hx Hacc <-. unfold dense_step.
  induction Hacc as [|a acc Ha _ IH]; [reflexivity|].
  unfold vadd, smul, np_zeros in *. cbn [length repeat map zip_with].
  rewrite Hx, Ha, IH. reflexivity.
Qed.

Lemma dense_fold_zero_block (c n : nat) (acc : list F) :
  Forall (fun a => fadd a fzero = a) acc ->
  length acc = c ->
  forall (xs1 xs2 : list F) (w : list (list F)),
    length xs1 = n ->
    Forall (fun x => fmul x fzero = fzero) xs1 ->
    fold_left dense_step (combine (xs1 ++ xs2) (repeat (np_zeros c) n ++ w)) acc =
    fold_left dense_step (combine xs2 w) acc.
Proof.
  intros Hacc Hc. induction n as [|n IH]; intros xs1 xs2 w Hlen Hxs.
  - destruct xs1; [reflexivity | discriminate Hlen].
  - destruct xs1 as [|x xs1]; [discriminate Hlen|].
    inversion Hxs as [|x' xs' Hx Hxs1]; subst x' xs'.
    cbn [repeat app combine fold_left].
    rewrite (dense_step_zero_row c acc x Hx Hacc Hc).
    apply IH; [cbn [length] in Hlen; lia | exact Hxs1].
Qed.

Lemma dense_fold_step (x : F) (xs : list F) (row : list F) (w : list (list F))
      (acc : list F) :
  fold_left dense_step (combine (x :: xs) (row :: w)) acc =
  fold_left dense_step (combine xs w) (vadd acc (smul x row)).
Proof. reflexivity. Qed.

Lemma np_vecmat_as_fold (v : list F) (m : list (list F)) :
  np_vecmat v m = fold_left dense_step (combine v m) (np_zeros (ncols m)).
Proof. reflexivity. Qed.

(** The product with a matrix of zeros. *)
Lemma np_vecmat_zero_matrix (c n : nat) (v : list F) :
  fadd fzero fzero = fzero ->
  0 < n ->
  length v = n ->
  Forall (fun x => fmul x fzero = fzero) v ->
  np_vecmat v (repeat (np_zeros c) n) = np_zeros c.
Proof.
  intros A00 Hn Hlen Hv. rewrite np_vecmat_as_fold.
  assert (Hcols : ncols (repeat (np_zeros (F := F) c) n) = c).
  { destruct n as [|n]; [lia|]. cbn [repeat ncols]. apply repeat_length. }
  rewrite Hcols.
  rewrite <- (app_nil_r v), <- (app_nil_r (repeat (np_zeros c) n)).
  rewrite (dense_fold_zero_block c n (np_zeros c)
             (Forall_repeat _ _ _ A00) (repeat_length _ _) v [] [] Hlen Hv).
  reflexivity.
Qed.

End ZeroBlocks.

Lemma tabulate_length {A} (n : nat) (f : nat -> A) : length (tabulate n f) = n.
Proof. unfold tabulate. rewrite length_map, length_seq. reflexivity. Qed.

Lemma tabulate2_widths {A} (r c : nat) (f : nat -> nat -> A) :
  Forall (fun row => length row = c) (tabulate2 r c f).
Proof.
  unfold tabulate2, tabulate at 1. apply Forall_forall. intros row Hin.
  apply in_map_iff in Hin. destruct Hin as (i & <- & _). apply tabulate_length.
Qed.

Lemma rounding_network_shape : shape_ok rounding_network.
Proof.
  unfold shape_ok, rounding_network, fresh_array.
  cbn [input_weights hidden1_bias hidden1_weights hidden2_bias hidden2_weights
       nd_data].
  unfold tabulate2 at 1 3. rewrite !tabulate_length.
  repeat split; auto using tabulate2_widths, repeat_length.
Qed.

(** A table that is constant over a range of indices is a block. *)
Lemma map_seq_constant {A} (g : nat -> A) (z : A) (n a : nat) :
  (forall i, a <= i < a + n -> g i = z) -> map g (seq a n) = repeat z n.
Proof.
  revert a. induction n as [|n IH]; intros a Hg; [reflexivity|].
  cbn [seq map repeat]. rewrite (Hg a) by lia. f_equal.
  apply IH. intros i Hi. apply Hg. lia.
Qed.

(** The input weights of [rounding_network], block by block: zero rows but
    for the rows 324 and 764, which hold 3 * 2^-27 in their first column. *)
Lemma rounding_input_weights_blocks :
  nd_data (input_weights rounding_network) =
  repeat (np_zeros 256) 324 ++ [f32_of_scaled 3 (-27) :: np_zeros 255] ++
  repeat (np_zeros 256) 439 ++ [f32_of_scaled 3 (-27) :: np_zeros 255] ++
  repeat (np_zeros 256) 3.
Proof.
  unfold rounding_network, fresh_array. cbn [input_weights nd_data].
  unfold tabulate2, tabulate at 1.
  change INPUT_SIZE with (324 + (1 + (439 + (1 + 3)))).
  rewrite !seq_app, !map_app.
  assert (Hzero : forall i, i <> 324 -> i <> 764 ->
            tabulate HIDDEN1_SIZE
              (fun j => if (Nat.eqb i 324 || Nat.eqb i 764) && Nat.eqb j 0
                        then f32_of_scaled 3 (-27) else fzero) =
            np_zeros (F := f32) 256).
  { intros i H1 H2. apply Nat.eqb_neq in H1, H2. rewrite H1, H2.
    cbn [orb andb]. unfold tabulate.
    change HIDDEN1_SIZE with 256. apply map_seq_constant. reflexivity. }
  assert (Hrow : forall i, i = 324 \/ i = 764 ->
            tabulate HIDDEN1_SIZE
              (fun j => if (Nat.eqb i 324 || Nat.eqb i 764) && Nat.eqb j 0
                        then f32_of_scaled 3 (-27) else fzero) =
            f32_of_scaled 3 (-27) :: np_zeros (F := f32) 255).
  { intros i Hi.
    assert (Hb : Nat.eqb i 324 || Nat.eqb i 764 = true).
    { destruct Hi as [-> | ->]; reflexivity. }
    rewrite Hb. reflexivity. }
  apply (f_equal2 (@app (list f32)));
    [apply map_seq_constant; intros i Hi; apply Hzero; lia|].
  apply (f_equal2 (@app (list f32)));
    [cbn [seq map]; apply (f_equal (fun r => [r])), Hrow; left; reflexivity|].
  apply (f_equal2 (@app (list f32)));
    [apply map_seq_constant; intros i Hi; apply Hzero; lia|].
  apply (f_equal2 (@app (list f32)));
    [cbn [seq map]; apply (f_equal (fun r => [r])), Hrow; right; reflexivity|].
  apply map_seq_constant; intros i Hi; apply Hzero; lia.
Qed.

(** The features of the two kings, block by block. *)
Lemma kings_input_blocks :
  train_from_lichess.NNUETrainer.board_to_input (F := f32) kings_board =
  repeat fzero 324 ++ [fone] ++ repeat fzero 439 ++ [fone] ++ repeat fzero 3.
Proof. vm_compute. reflexivity. Qed.

Lemma f32_zero_facts :
  fmul (F := f32) fzero fzero = fzero /\
  fmul (F := f32) fone fzero = fzero /\
  fadd (F := f32) fzero fzero = fzero.
Proof. repeat split. Qed.

(** The dense product of the kings' features with the input weights of
    [rounding_network]: 3*2^-27 + 3*2^-27 = 6*2^-27 in the first column. *)
Lemma rounding_dense_product :
  np_vecmat (train_from_lichess.NNUETrainer.board_to_input kings_board)
            (nd_data (input_weights rounding_network)) =
  f32_of_scaled 6 (-27) :: np_zeros 255.
Proof.
  destruct f32_zero_facts as (H00 & H10 & A00).
  rewrite kings_input_blocks, np_vecmat_as_fold.
  rewrite rounding_input_weights_blocks.
  change (ncols _) with 256.
  rewrite (dense_fold_zero_block 256 324);
    [| apply Forall_repeat, A00 | apply repeat_length | apply repeat_length
     | apply Forall_repeat, H00].
  cbn [app]. rewrite dense_fold_step.
  rewrite (dense_fold_zero_block 256 439);
    [| apply (forallb_f32_eq (fun a => fadd a fzero) (fun a => a));
       vm_compute; reflexivity
     | vm_compute; reflexivity | apply repeat_length | apply Forall_repeat, H00].
  cbn [app]. rewrite dense_fold_step.
  rewrite <- (app_nil_r (repeat fzero 3)), <- (app_nil_r (repeat (np_zeros 256) 3)).
  rewrite (dense_fold_zero_block 256 3);
    [| apply (forallb_f32_eq (fun a => fadd a fzero) (fun a => a));
       vm_compute; reflexivity
     | vm_compute; reflexivity | apply repeat_length | apply Forall_repeat, H00].
  vm_compute. reflexivity.
Qed.

(** C3, as stated, fails in float32: on the features of the two kings the
    sparse pass gives (0.5 + 3*2^-27) + 3*2^-27 = 0.5 (each sum rounds back to
    0.5) and the dense pass gives (3*2^-27 + 3*2^-27) + 0.5, the next float32
    after 0.5; the outputs are 3F000000 and 3F000001. *)
Lemma C3_float32_outputs_differ :
  shape_ok rounding_network /\
  zero_one (train_from_lichess.NNUETrainer.board_to_input (F := f32) kings_board) /\
  train_nnue.NNUENetwork.forward rounding_network
    (train_from_lichess.NNUETrainer.board_to_input kings_board) =
  F32 x00 x00 x00 x3f /\
  fst (fst (train_from_lichess.NNUETrainer.forward rounding_network
              (train_from_lichess.NNUETrainer.board_to_input kings_board))) =
  F32 x01 x00 x00 x3f.
Proof.
  split; [apply rounding_network_shape|].
  split; [apply board_to_input_vector|].
  split; [vm_compute; reflexivity|].
  unfold train_from_lichess.NNUETrainer.forward. cbn [fst].
  rewrite rounding_dense_product.
  vm_compute. reflexivity.
Qed.

(** * The per-sample update *)

Section Backward.
Context {F : Type} {SF : Scalar F}.
Local Open Scope num_scope.

Lemma backward_writeable (cache : train_nnue.NNUENetwork.Cache) (target lr : F)
      (self : Network F) :
  all_writeable self ->
  train_nnue.NNUENetwork.backward cache target lr self =
  (bw_updated cache target lr self,
   Ok (bw_error cache target self * bw_error cache target self)).
Proof.
  destruct self as [[w1 f1] [b1 f2] [w2 f3] [b2 f4] [w3 f5] ob].
  unfold all_writeable.
  cbn [input_weights hidden1_bias hidden1_weights hidden2_bias hidden2_weights
       nd_writeable].
  intros (-> & -> & -> & -> & ->).
  unfold train_nnue.NNUENetwork.backward, bw_updated, bw_d_hidden1_pre,
    bw_d_hidden2_pre, bw_error.
  unfold bind, get, assign, lift, ret, inplace_sub, fresh_array.
  cbn [input_weights hidden1_bias hidden1_weights hidden2_bias hidden2_weights
       output_bias nd_writeable nd_data set_output_bias set_hidden2_weights
       set_hidden2_bias set_hidden1_weights set_hidden1_bias set_input_weights].
  destruct (Nat.ltb 0 (length (train_nnue.NNUENetwork.c_active_indices cache)));
    reflexivity.
Qed.

(** With a read-only [hidden2_weights] the second update raises; by then
    only the scalar [output_bias] has been rebound. *)
Lemma backward_read_only (cache : train_nnue.NNUENetwork.Cache) (target lr : F)
      (self : Network F) :
  nd_writeable (hidden2_weights self) = false ->
  train_nnue.NNUENetwork.backward cache target lr self =
  (set_output_bias (output_bias self - lr * bw_error cache target self) self,
   Raise ValueError).
Proof.
  destruct self as [[w1 f1] [b1 f2] [w2 f3] [b2 f4] [w3 f5] ob].
  cbn [hidden2_weights nd_writeable]. intros ->.
  reflexivity.
Qed.

End Backward.

Lemma load_ok_long (buf : list byte) (self net : Network f32) :
  train_nnue.NNUENetwork.load buf self = (net, Ok tt) ->
  expected_size <= length buf.
Proof.
  intros Hload.
  destruct (Nat.lt_ge_cases (length buf) expected_size) as [Hshort | Hlong];
    [|exact Hlong].
  destruct (load_short buf self Hshort) as (e & He).
  rewrite Hload in He. discriminate He.
Qed.

(** C10.  After a successful [NNUENetwork.load] the five parameter arrays are
    read-only, and [backward], whatever the cache, target and learning rate,
    raises [ValueError] at its first in-place array update
    ([self.hidden2_weights -= ...]): no parameter array is changed (the scalar
    [output_bias], rebound just before, is).  On a network as [__init__]
    builds it [backward] completes. *)
Theorem C10_backward_raises_after_load
        (buf : list byte) (self net : Network f32)
        (cache : train_nnue.NNUENetwork.Cache) (target lr : f32) :
  train_nnue.NNUENetwork.load buf self = (net, Ok tt) ->
  (nd_writeable (input_weights net) = false /\
   nd_writeable (hidden1_bias net) = false /\
   nd_writeable (hidden1_weights net) = false /\
   nd_writeable (hidden2_bias net) = false /\
   nd_writeable (hidden2_weights net) = false) /\
  (exists net',
     train_nnue.NNUENetwork.backward cache target lr net = (net', Raise ValueError) /\
     input_weights net' = input_weights net /\
     hidden1_bias net' = hidden1_bias net /\
     hidden1_weights net' = hidden1_weights net /\
     hidden2_bias net' = hidden2_bias net /\
     hidden2_weights net' = hidden2_weights net) /\
  (forall (w1 w2 : list (list f32)) (w3 : list f32),
   exists net' loss,
     train_nnue.NNUENetwork.backward cache target lr
       (train_nnue.NNUENetwork.init w1 w2 w3) = (net', Ok loss)).
Proof.
  intros Hload.
  destruct (load_long_enough buf self (load_ok_long buf self net Hload))
    as (n & Hn & _ & R1 & R2 & R3 & R4 & R5).
  rewrite Hload in Hn. injection Hn as <-.
  split; [repeat split; assumption|]. split.
  - eexists. split; [apply backward_read_only, R5|].
    repeat split.
  - intros w1 w2 w3. eexists. eexists.
    apply backward_writeable. repeat split.
Qed.

Lemma C10_witness :
  train_nnue.NNUENetwork.load
    (train_nnue.NNUENetwork.save (constant_network half32))
    (constant_network half32) =
  (mk_Network (mk_ndarray (nd_data (input_weights (constant_network half32))) false)
              (mk_ndarray (nd_data (hidden1_bias (constant_network half32))) false)
              (mk_ndarray (nd_data (hidden1_weights (constant_network half32))) false)
              (mk_ndarray (nd_data (hidden2_bias (constant_network half32))) false)
              (mk_ndarray (nd_data (hidden2_weights (constant_network half32))) false)
              half32,
   Ok tt) /\
  exists net',
    train_nnue.NNUENetwork.backward
      (snd (train_nnue.NNUENetwork.forward_with_cache
              (constant_network half32)
              (train_nnue.NNUENetwork.board_to_features kings_board)))
      half32 half32
      (mk_Network (mk_ndarray (nd_data (input_weights (constant_network half32))) false)
              (mk_ndarray (nd_data (hidden1_bias (constant_network half32))) false)
              (mk_ndarray (nd_data (hidden1_weights (constant_network half32))) false)
              (mk_ndarray (nd_data (hidden2_bias (constant_network half32))) false)
              (mk_ndarray (nd_data (hidden2_weights (constant_network half32))) false)
              half32) = (net', Raise ValueError).
Proof.
  pose proof (load_save (constant_network half32) (constant_network half32)
                        (constant_network_shape half32)) as Hload.
  split; [exact Hload|].
  destruct (C10_backward_raises_after_load _ _ _
              (snd (train_nnue.NNUENetwork.forward_with_cache
                      (constant_network half32)
                      (train_nnue.NNUENetwork.board_to_features kings_board)))
              half32 half32 Hload) as (_ & (net' & Hb & _) & _).
  exists net'. exact Hb.
Defined.

(** * Which rows of the input weights an update touches *)

Section Frame.
Context {F : Type} {SF : Scalar F}.

Lemma existsb_eqb_false (k : nat) (idx : list nat) :
  ~ In k idx -> existsb (Nat.eqb k) idx = false.
Proof.
  intros Hk. apply not_true_is_false. intros He.
  apply existsb_exists in He. destruct He as (j & Hj & Hkj).
  apply Nat.eqb_eq in Hkj. subst j. exact (Hk Hj).
Qed.




End Frame.

Section RowAlgebra.
Context {F : Type} {SF : Scalar F}.





Lemma madd_length (a b : list (list F)) :
  length (madd a b) = Nat.min (length a) (length b).
Proof.
  revert b; induction a as [|r a IH]; intros [|q b]; cbn [madd length Nat.min];
    auto.
Qed.

Lemma np_outer_length (x d : list F) : length (np_outer x d) = length x.
Proof. apply length_map. Qed.






End RowAlgebra.

Section BatchFrame.
Context {F : Type} {SF : Scalar F}.

Lemma smul_length (s : F) (v : list F) : length (smul s v) = length v.
Proof. apply length_map. Qed.

Lemma vecmat_fold_length (c : nat) (l : list (F * list F)) :
  forall acc,
    Forall (fun p => length (snd p) = c) l ->
    length acc = c ->
    length (fold_left (fun acc '(x, row) => vadd acc (smul x row)) l acc) = c.
Proof.
  induction l as [|[x row] l IH]; intros acc Hl Hacc; [exact Hacc|].
  inversion Hl as [|p l' Hrow Hl']; subst p l'. cbn [snd] in Hrow.
  cbn [fold_left]. apply IH; [exact Hl'|].
  unfold vadd. rewrite zip_with_length, smul_length. lia.
Qed.

Lemma np_vecmat_length (c : nat) (v : list F) (m : list (list F)) :
  m <> [] ->
  Forall (fun row => length row = c) m ->
  length (np_vecmat v m) = c.
Proof.
  intros Hne Hm. unfold np_vecmat.
  assert (Hc : ncols m = c)
    by (destruct m as [|row m]; [congruence | inversion Hm; assumption]).
  apply vecmat_fold_length; [|rewrite Hc; apply repeat_length].
  apply Forall_forall. intros [x row] Hin. cbn [snd].
  apply in_combine_r in Hin. rewrite Forall_forall in Hm. apply Hm, Hin.
Qed.




End BatchFrame.

Section BatchFrameTheorem.
Context {F : Type} {SF : Scalar F}.



End BatchFrameTheorem.


(** In exact arithmetic the two conditions on the products hold. *)
Lemma exact_zero_products (F : Type) (SF : Scalar F) (EA : ExactArithmetic F)
      (lr : F) (d row : list F) :
  Forall (fun g => fadd fzero (fmul fzero g) = fzero) d /\
  Forall (fun w => fsub w (fmul lr fzero) = w) row.
Proof.
  split; apply Forall_forall; intros v _.
  - rewrite fmul_0_l. apply fadd_0_l.
  - rewrite fmul_0_r. apply fsub_0_r.
Qed.

(** * A batch of one sample against the per-sample update *)

Section Linear.
Context {F : Type} {SF : Scalar F} {EA : ExactArithmetic F}.

Add Ring exact_arith_ring_linear : exact_ring.

Lemma smul_smul (a b : F) (v : list F) : smul a (smul b v) = smul (fmul a b) v.
Proof.
  unfold smul. rewrite map_map. apply map_ext. intros x. ring.
Qed.

Lemma vmul_smul_l (a : F) (v m : list F) : vmul (smul a v) m = smul a (vmul v m).
Proof.
  revert m; induction v as [|x v IH]; intros [|y m]; try reflexivity.
  unfold vmul, smul in *. cbn [map zip_with]. rewrite IH. f_equal. ring.
Qed.

Lemma dot_fold_smul (a : F) (v w : list F) :
  forall acc,
    fold_left (fun acc '(x, y) => fadd acc (fmul x y)) (combine (smul a v) w)
              (fmul a acc) =
    fmul a (fold_left (fun acc '(x, y) => fadd acc (fmul x y)) (combine v w) acc).
Proof.
  revert w; induction v as [|x v IH]; intros [|y w] acc; try reflexivity.
  unfold smul in *. cbn [map combine fold_left].
  rewrite <- IH. f_equal. ring.
Qed.

Lemma np_dot_smul_l (a : F) (v w : list F) :
  np_dot (smul a v) w = fmul a (np_dot v w).
Proof.
  unfold np_dot. rewrite <- dot_fold_smul. f_equal. ring.
Qed.

Lemma np_vecmat_T_smul (a : F) (d : list F) (m : list (list F)) :
  np_vecmat_T (smul a d) m = smul a (np_vecmat_T d m).
Proof.
  unfold np_vecmat_T, smul at 2. rewrite map_map. apply map_ext.
  intros row. apply np_dot_smul_l.
Qed.

Lemma msmul_msmul (a b : F) (m : list (list F)) :
  msmul a (msmul b m) = msmul (fmul a b) m.
Proof.
  unfold msmul. rewrite map_map. apply map_ext. intros row. apply smul_smul.
Qed.

Lemma np_outer_smul_r (a : F) (h d : list F) :
  np_outer h (smul a d) = msmul a (np_outer h d).
Proof.
  unfold np_outer, msmul. rewrite map_map. apply map_ext. intros x.
  unfold smul. rewrite !map_map. apply map_ext. intros y. ring.
Qed.

Lemma vadd_zeros_like (v u : list F) :
  length u = length v ->
  vadd (train_from_lichess.NNUETrainer.zeros_like v) u = u.
Proof.
  revert u; induction v as [|x v IH]; intros [|y u] Hl; try reflexivity;
    try discriminate Hl.
  unfold vadd, train_from_lichess.NNUETrainer.zeros_like in *.
  cbn [map zip_with]. rewrite IH by (cbn [length] in Hl; lia).
  f_equal. ring.
Qed.

Lemma madd_zeros_like2 (m n : list (list F)) :
  Forall2 (fun r q => length q = length r) m n ->
  madd (train_from_lichess.NNUETrainer.zeros_like2 m) n = n.
Proof.
  induction 1 as [|r q m n Hrq _ IH]; [reflexivity|].
  unfold train_from_lichess.NNUETrainer.zeros_like2 in *.
  cbn [map madd]. rewrite IH, vadd_zeros_like by exact Hrq. reflexivity.
Qed.

End Linear.

Section OneSample.
Context {F : Type} {SF : Scalar F}.

Lemma tb_d_hidden1_unfold (self : Network F) (batch_size : nat) (x : list F)
      (target : F) :
  tb_d_hidden1 self batch_size (x, target) =
  vmul (np_vecmat_T (tb_d_hidden2 self batch_size x target)
                    (nd_data (hidden1_weights self)))
       (train_from_lichess.NNUETrainer.crelu_derivative (tb_z1 self x)).
Proof. reflexivity. Qed.

(** [train_batch] on a batch of one sample. *)
Lemma train_batch_one (x : list F) (target lr : F) (self : Network F) :
  train_from_lichess.NNUETrainer.train_batch [x] [target] lr self =
  (mk_Network
     (fresh_array
        (msub (nd_data (input_weights self))
              (msmul lr (madd (train_from_lichess.NNUETrainer.zeros_like2
                                 (nd_data (input_weights self)))
                              (np_outer x (tb_d_hidden1 self 1 (x, target)))))))
     (fresh_array
        (vsub (nd_data (hidden1_bias self))
              (smul lr (vadd (train_from_lichess.NNUETrainer.zeros_like
                                (nd_data (hidden1_bias self)))
                             (tb_d_hidden1 self 1 (x, target))))))
     (fresh_array
        (msub (nd_data (hidden1_weights self))
              (msmul lr (madd (train_from_lichess.NNUETrainer.zeros_like2
                                 (nd_data (hidden1_weights self)))
                              (np_outer (tb_hidden1 self x)
                                        (tb_d_hidden2 self 1 x target))))))
     (fresh_array
        (vsub (nd_data (hidden2_bias self))
              (smul lr (vadd (train_from_lichess.NNUETrainer.zeros_like
                                (nd_data (hidden2_bias self)))
                             (tb_d_hidden2 self 1 x target)))))
     (fresh_array
        (vsub (nd_data (hidden2_weights self))
              (smul lr (vadd (train_from_lichess.NNUETrainer.zeros_like
                                (nd_data (hidden2_weights self)))
                             (smul (tb_d_output self 1 x target)
                                   (tb_hidden2 self x))))))
     (fsub (output_bias self)
           (fmul lr (fadd fzero (tb_d_output self 1 x target)))),
   Ok (fdiv (fadd fzero (fmul (tb_error self x target) (tb_error self x target)))
            (of_int 1))).
Proof.
  destruct self as [[w1 f1] [b1 f2] [w2 f3] [b2 f4] [w3 f5] ob].
  reflexivity.
Qed.

End OneSample.

Section RowUpdate.
Context {F : Type} {SF : Scalar F} {EA : ExactArithmetic F}.

Add Ring exact_arith_ring_rows : exact_ring.

Lemma smul_np_zeros (a : F) (n : nat) : smul a (np_zeros n) = np_zeros n.
Proof.
  induction n as [|n IH]; [reflexivity|].
  unfold smul, np_zeros in *. cbn [repeat map]. rewrite IH. f_equal. ring.
Qed.

Lemma vsub_zeros_r (v : list F) : vsub v (np_zeros (length v)) = v.
Proof.
  induction v as [|x v IH]; [reflexivity|].
  unfold vsub, np_zeros in *. cbn [length repeat zip_with]. rewrite IH.
  f_equal. ring.
Qed.

Lemma where_positive_from_ge (x : list F) :
  forall s i, In i (where_positive_from s x) -> s <= i.
Proof.
  induction x as [|v x IH]; intros s i Hi; [destruct Hi|].
  cbn [where_positive_from] in Hi.
  destruct (fltb fzero v); [destruct Hi as [<- | Hi]; [lia|]|];
    apply IH in Hi; lia.
Qed.

Lemma existsb_where_positive_below (x : list F) (s i : nat) :
  i < s -> existsb (Nat.eqb i) (where_positive_from s x) = false.
Proof.
  intros Hi. apply existsb_eqb_false. intros Hin.
  apply where_positive_from_ge in Hin. lia.
Qed.

(** The dense update of the input weights for one sample, row by row: the
    rows of the active features move, the others do not. *)
Lemma dense_update_rows (lr : F) (d : list F) (m : list (list F)) :
  forall (x : list F) (s : nat),
    length x = length m ->
    zero_one x ->
    Forall (fun r => length r = length d) m ->
    msub m (msmul lr (madd (train_from_lichess.NNUETrainer.zeros_like2 m)
                           (np_outer x d))) =
    map (fun '(i, row) =>
           if existsb (Nat.eqb i) (where_positive_from s x)
           then vsub row (smul lr d) else row)
        (combine (seq s (length m)) m).
Proof.
  induction m as [|r m IH]; intros [|v x] s Hlen Hx Hm; try reflexivity;
    try discriminate Hlen.
  inversion Hx as [|v' x' Hv Hx']; subst v' x'.
  inversion Hm as [|r' m' Hr Hm']; subst r' m'.
  cbn [length] in Hlen.
  unfold train_from_lichess.NNUETrainer.zeros_like2, np_outer, msmul.
  cbn [map madd msub length seq combine where_positive_from].
  fold (train_from_lichess.NNUETrainer.zeros_like2 m).
  fold (np_outer x d). fold (msmul lr (madd (train_from_lichess.NNUETrainer.zeros_like2 m) (np_outer x d))).
  rewrite (IH x (S s)) by (auto; lia).
  fold (smul v d).
  rewrite vadd_zeros_like by (rewrite smul_length; symmetry; exact Hr).
  f_equal.
  - destruct Hv as [-> | ->].
    + rewrite exact_lt_irrefl, smul_zero, smul_np_zeros.
      rewrite existsb_where_positive_below by lia.
      rewrite <- Hr. apply vsub_zeros_r.
    + rewrite exact_zero_lt_one, smul_one. cbn [existsb].
      rewrite Nat.eqb_refl. reflexivity.
  - apply map_ext_in. intros [i row] Hin.
    apply in_combine_l in Hin. apply in_seq in Hin.
    destruct (fltb fzero v); [|reflexivity].
    cbn [existsb]. replace (Nat.eqb i s) with false; [reflexivity|].
    symmetry. apply Nat.eqb_neq. lia.
Qed.

Lemma sub_rows_at_nil (m : list (list F)) (d : list F) : sub_rows_at [] m d = m.
Proof.
  unfold sub_rows_at. cbn [existsb].
  generalize 0. induction m as [|r m IH]; intros s; [reflexivity|].
  cbn [length seq combine map]. rewrite IH. reflexivity.
Qed.

Lemma np_outer_shape (m : list (list F)) :
  forall (h d : list F),
    length h = length m ->
    Forall (fun r => length r = length d) m ->
    Forall2 (fun r q => length q = length r) m (np_outer h d).
Proof.
  induction m as [|r m IH]; intros [|a h] d Hl Hm; try discriminate Hl;
    [constructor|].
  inversion Hm as [|r' m' Hr Hm']; subst r' m'.
  unfold np_outer. cbn [map]. constructor.
  - rewrite length_map. symmetry. exact Hr.
  - apply IH; [cbn [length] in Hl; lia | exact Hm'].
Qed.

End RowUpdate.

Section OneSampleExact.
Context {F : Type} {SF : Scalar F} {EA : ExactArithmetic F}.

Add Ring exact_arith_ring_one : exact_ring.

Variable self : Network F.
Variable x : list F.
Hypothesis Hshape : shape_ok self.
Hypothesis Hlen : length x = INPUT_SIZE.
Hypothesis Hx : zero_one x.

Lemma input_weights_nonempty : nd_data (input_weights self) <> [].
Proof.
  destruct Hshape as (L1 & _). intros Hnil. pose proof INPUT_SIZE_pos.
  rewrite Hnil in L1. cbn [length] in L1. lia.
Qed.

Lemma hidden1_weights_nonempty : nd_data (hidden1_weights self) <> [].
Proof.
  destruct Hshape as (_ & _ & _ & L3 & _). intros Hnil.
  pose proof HIDDEN1_SIZE_pos. rewrite Hnil in L3. cbn [length] in L3. lia.
Qed.

Lemma tb_z1_length : length (tb_z1 self x) = HIDDEN1_SIZE.
Proof.
  destruct Hshape as (L1 & W1 & L2 & _). unfold tb_z1, vadd.
  rewrite zip_with_length, L2.
  rewrite (np_vecmat_length HIDDEN1_SIZE);
    [lia | apply input_weights_nonempty | exact W1].
Qed.

Lemma tb_hidden1_length : length (tb_hidden1 self x) = HIDDEN1_SIZE.
Proof.
  unfold tb_hidden1, train_from_lichess.NNUETrainer.crelu, np_clip01.
  rewrite length_map. apply tb_z1_length.
Qed.

Lemma tb_z2_length : length (tb_z2 self x) = HIDDEN2_SIZE.
Proof.
  destruct Hshape as (_ & _ & _ & L3 & W3 & L4 & _). unfold tb_z2, vadd.
  rewrite zip_with_length, L4.
  rewrite (np_vecmat_length HIDDEN2_SIZE);
    [lia | apply hidden1_weights_nonempty | exact W3].
Qed.

Lemma tb_hidden2_length : length (tb_hidden2 self x) = HIDDEN2_SIZE.
Proof.
  unfold tb_hidden2, train_from_lichess.NNUETrainer.crelu, np_clip01.
  rewrite length_map. apply tb_z2_length.
Qed.

(** What [forward_with_cache] caches is what [train_batch] recomputes. *)
Lemma cache_is_dense :
  snd (train_nnue.NNUENetwork.forward_with_cache self x) =
  train_nnue.NNUENetwork.mk_Cache x (where_positive x) (tb_z1 self x)
    (tb_hidden1 self x) (tb_z2 self x) (tb_hidden2 self x).
Proof.
  destruct Hshape as (L1 & W1 & L2 & _).
  unfold train_nnue.NNUENetwork.forward_with_cache. cbn [snd].
  assert (E1 : train_nnue.NNUENetwork.add_rows (nd_data (input_weights self))
                 (where_positive x) (nd_data (hidden1_bias self)) = tb_z1 self x).
  { symmetry. apply dense_layer1_is_sparse.
    - apply input_weights_nonempty.
    - congruence.
    - rewrite L2. exact W1.
    - exact Hx. }
  rewrite E1.
  fold (train_from_lichess.NNUETrainer.crelu (tb_z1 self x)).
  fold (tb_hidden1 self x).
  rewrite (vadd_comm (nd_data (hidden2_bias self))).
  fold (tb_z2 self x).
  fold (train_from_lichess.NNUETrainer.crelu (tb_z2 self x)).
  reflexivity.
Qed.

Variable target : F.

(** The cache of the per-sample path and its scaled target. *)
Let cache := snd (train_nnue.NNUENetwork.forward_with_cache self x).
Let scaled := fdiv target (of_int train_from_lichess.NNUE_SCALE).

Lemma bw_error_is_tb_error : bw_error cache scaled self = tb_error self x target.
Proof. unfold cache. rewrite cache_is_dense. reflexivity. Qed.

Lemma tb_d_output_one :
  tb_d_output self 1 x target = fmul (of_int 2) (tb_error self x target).
Proof.
  unfold tb_d_output. change (Z.of_nat 1) with 1%Z.
  rewrite exact_of_int_one. apply exact_div_one.
Qed.

Lemma tb_d_hidden2_one :
  tb_d_hidden2 self 1 x target = smul (of_int 2) (bw_d_hidden2_pre cache scaled self).
Proof.
  unfold tb_d_hidden2, bw_d_hidden2_pre.
  rewrite tb_d_output_one, bw_error_is_tb_error.
  unfold cache. rewrite cache_is_dense.
  cbn [train_nnue.NNUENetwork.c_hidden2_pre].
  rewrite <- smul_smul, vmul_smul_l. reflexivity.
Qed.

Lemma tb_d_hidden1_one :
  tb_d_hidden1 self 1 (x, target) =
  smul (of_int 2) (bw_d_hidden1_pre cache scaled self).
Proof.
  rewrite tb_d_hidden1_unfold, tb_d_hidden2_one. unfold bw_d_hidden1_pre.
  rewrite np_vecmat_T_smul, vmul_smul_l.
  f_equal. f_equal. unfold cache. rewrite cache_is_dense. reflexivity.
Qed.

Lemma bw_d_hidden2_pre_length :
  length (bw_d_hidden2_pre cache scaled self) = HIDDEN2_SIZE.
Proof.
  destruct Hshape as (_ & _ & _ & _ & _ & _ & L5).
  unfold bw_d_hidden2_pre, vmul, open_unit_mask.
  rewrite zip_with_length, smul_length, length_map, L5.
  unfold cache. rewrite cache_is_dense.
  cbn [train_nnue.NNUENetwork.c_hidden2_pre]. rewrite tb_z2_length. lia.
Qed.

Lemma bw_d_hidden1_pre_length :
  length (bw_d_hidden1_pre cache scaled self) = HIDDEN1_SIZE.
Proof.
  destruct Hshape as (_ & _ & _ & L3 & _).
  unfold bw_d_hidden1_pre, vmul, open_unit_mask, np_vecmat_T.
  rewrite zip_with_length, !length_map, L3.
  unfold cache. rewrite cache_is_dense.
  cbn [train_nnue.NNUENetwork.c_hidden1_pre]. rewrite tb_z1_length. lia.
Qed.

End OneSampleExact.

Section BatchOfOne.
Context {F : Type} {SF : Scalar F} {EA : ExactArithmetic F}.

Add Ring exact_arith_ring_batch : exact_ring.

Lemma exact_div_one_int (v : F) : fdiv v (of_int 1) = v.
Proof. rewrite exact_of_int_one. apply exact_div_one. Qed.

Lemma widths_as (n : nat) (d : list F) (m : list (list F)) :
  length d = n ->
  Forall (fun r => length r = n) m ->
  Forall (fun r => length r = length d) m.
Proof. intros ->. auto. Qed.

Lemma batch_of_one_parameters (self : Network F) (x : list F) (target lr : F) :
  shape_ok self ->
  length x = INPUT_SIZE ->
  zero_one x ->
  same_parameters
    (fst (train_from_lichess.NNUETrainer.train_batch [x] [target] lr self))
    (bw_updated (snd (train_nnue.NNUENetwork.forward_with_cache self x))
                (fdiv target (of_int train_from_lichess.NNUE_SCALE))
                (fmul (of_int 2) lr) self).
Proof.
  intros Hshape Hlen Hx.
  pose proof Hshape as (L1 & W1 & L2 & L3 & W3 & L4 & L5).
  pose proof (bw_d_hidden1_pre_length self x Hshape Hlen Hx target) as Hd1.
  pose proof (bw_d_hidden2_pre_length self x Hshape Hlen Hx target) as Hd2.
  pose proof (cache_is_dense self x Hshape Hlen Hx) as Hcache.
  rewrite train_batch_one. unfold same_parameters, bw_updated, fresh_array.
  cbn [fst input_weights hidden1_bias hidden1_weights hidden2_bias
       hidden2_weights output_bias nd_data].
  rewrite (tb_d_hidden1_one self x Hshape Hlen Hx target).
  rewrite (tb_d_hidden2_one self x Hshape Hlen Hx target).
  rewrite (tb_d_output_one self x target).
  rewrite <- (bw_error_is_tb_error self x Hshape Hlen Hx target).
  set (cache := snd (train_nnue.NNUENetwork.forward_with_cache self x)) in *.
  set (scaled := fdiv target (of_int train_from_lichess.NNUE_SCALE)) in *.
  assert (Hai : train_nnue.NNUENetwork.c_active_indices cache = where_positive x)
    by (rewrite Hcache; reflexivity).
  assert (Hh1 : train_nnue.NNUENetwork.c_hidden1 cache = tb_hidden1 self x)
    by (rewrite Hcache; reflexivity).
  assert (Hh2 : train_nnue.NNUENetwork.c_hidden2 cache = tb_hidden2 self x)
    by (rewrite Hcache; reflexivity).
  rewrite Hai, Hh1, Hh2. clear Hcache.
  repeat split.
  - rewrite (dense_update_rows lr _ _ x 0);
      [| congruence | exact Hx
       | apply (widths_as HIDDEN1_SIZE);
         [rewrite smul_length; exact Hd1 | exact W1] ].
    fold (where_positive x).
    change (map _ (combine (seq 0 (length (nd_data (input_weights self))))
                           (nd_data (input_weights self))))
      with (sub_rows_at (where_positive x) (nd_data (input_weights self))
                        (smul lr (smul (of_int 2) (bw_d_hidden1_pre cache scaled self)))).
    rewrite smul_smul.
    replace (fmul lr (of_int 2)) with (fmul (of_int 2) lr) by ring.
    destruct (where_positive x) as [|i l].
    + cbn [length Nat.ltb Nat.leb]. apply sub_rows_at_nil.
    + reflexivity.
  - rewrite vadd_zeros_like by (rewrite smul_length; congruence).
    rewrite smul_smul. replace (fmul lr (of_int 2)) with (fmul (of_int 2) lr) by ring.
    reflexivity.
  - rewrite madd_zeros_like2.
    + rewrite np_outer_smul_r, msmul_msmul.
      replace (fmul lr (of_int 2)) with (fmul (of_int 2) lr) by ring.
      reflexivity.
    + apply np_outer_shape.
      * rewrite (tb_hidden1_length self x Hshape Hlen). congruence.
      * apply (widths_as HIDDEN2_SIZE);
          [rewrite smul_length; exact Hd2 | exact W3].
  - rewrite vadd_zeros_like by (rewrite smul_length; congruence).
    rewrite smul_smul. replace (fmul lr (of_int 2)) with (fmul (of_int 2) lr) by ring.
    reflexivity.
  - rewrite vadd_zeros_like
      by (rewrite smul_length, (tb_hidden2_length self x Hshape Hlen); congruence).
    rewrite <- smul_smul, smul_smul.
    replace (fmul lr (of_int 2)) with (fmul (of_int 2) lr) by ring.
    reflexivity.
  - ring.
Qed.

End BatchOfOne.

(** C5 (as amended).  In exact arithmetic, [train_batch] on a batch holding
    the single sample (features, target) with learning rate [lr] leaves the
    parameters that [backward] leaves with the cache of that sample, the
    target [target / NNUE_SCALE] and the learning rate [2 * lr], and both
    return the same loss: [train_batch] scales the target itself and takes
    [2 * error] as the gradient, where [backward] takes [error]. *)
Theorem C5_batch_of_one_is_per_sample_at_doubled_rate
        (F : Type) (SF : Scalar F) (EA : ExactArithmetic F)
        (self : Network F) (x : list F) (target lr : F) :
  shape_ok self ->
  all_writeable self ->
  length x = INPUT_SIZE ->
  zero_one x ->
  exists n_batch n_sample loss,
    train_from_lichess.NNUETrainer.train_batch [x] [target] lr self =
    (n_batch, Ok loss) /\
    train_nnue.NNUENetwork.backward
      (snd (train_nnue.NNUENetwork.forward_with_cache self x))
      (fdiv target (of_int train_from_lichess.NNUE_SCALE))
      (fmul (of_int 2) lr) self = (n_sample, Ok loss) /\
    same_parameters n_batch n_sample.
Proof.
  intros Hshape Hw Hlen Hx.
  pose proof (batch_of_one_parameters self x target lr Hshape Hlen Hx) as Hsame.
  rewrite (backward_writeable _ _ _ self Hw).
  rewrite train_batch_one in Hsame |- *. cbn [fst] in Hsame.
  eexists. eexists. eexists. split; [|split; [reflexivity | exact Hsame]].
  f_equal. f_equal.
  rewrite exact_div_one_int, fadd_0_l.
  rewrite (bw_error_is_tb_error self x Hshape Hlen Hx target). reflexivity.
Qed.

Lemma C5_exact_witness :
  shape_ok (constant_network (Q2Qc (1 # 3))) /\
  exists n_batch n_sample loss,
    train_from_lichess.NNUETrainer.train_batch
      [train_from_lichess.NNUETrainer.board_to_input kings_board]
      [Q2Qc 100] (Q2Qc (1 # 1000)) (constant_network (Q2Qc (1 # 3))) =
    (n_batch, Ok loss) /\
    train_nnue.NNUENetwork.backward
      (snd (train_nnue.NNUENetwork.forward_with_cache
              (constant_network (Q2Qc (1 # 3)))
              (train_from_lichess.NNUETrainer.board_to_input kings_board)))
      (fdiv (Q2Qc 100) (of_int train_from_lichess.NNUE_SCALE))
      (fmul (of_int 2) (Q2Qc (1 # 1000)))
      (constant_network (Q2Qc (1 # 3))) = (n_sample, Ok loss) /\
    same_parameters n_batch n_sample.
Proof.
  split; [apply constant_network_shape|].
  apply (C5_batch_of_one_is_per_sample_at_doubled_rate Qc Scalar_Qc Qc_exact).
  - apply constant_network_shape.
  - repeat split.
  - apply board_to_input_vector.
  - apply board_to_input_vector.
Defined.

Lemma train_batch_one_output_bias {F : Type} {SF : Scalar F}
      (x : list F) (target lr : F) (self : Network F) :
  output_bias (fst (train_from_lichess.NNUETrainer.train_batch
                      [x] [target] lr self)) =
  fsub (output_bias self) (fmul lr (fadd fzero (tb_d_output self 1 x target))).
Proof. rewrite train_batch_one. reflexivity. Qed.

Lemma backward_output_bias {F : Type} {SF : Scalar F}
      (cache : train_nnue.NNUENetwork.Cache) (target lr : F) (self : Network F) :
  all_writeable self ->
  output_bias (fst (train_nnue.NNUENetwork.backward cache target lr self)) =
  fsub (output_bias self) (fmul lr (bw_error cache target self)).
Proof. intros Hw. rewrite (backward_writeable _ _ _ self Hw). reflexivity. Qed.

(** ** Layers with zero weights

    With a zero weight matrix a layer's product is zero whatever the input,
    as soon as the products and sums with zero give zero. *)

Section ZeroLayers.
Context {F : Type} {SF : Scalar F}.
Variable self : Network F.
Variable x : list F.
Hypothesis A00 : fadd (F := F) fzero fzero = fzero.

Lemma tb_z1_zero_weights :
  nd_data (input_weights self) = np_zeros2 INPUT_SIZE HIDDEN1_SIZE ->
  length x = INPUT_SIZE ->
  Forall (fun v => fmul v fzero = fzero) x ->
  tb_z1 self x = vadd (np_zeros HIDDEN1_SIZE) (nd_data (hidden1_bias self)).
Proof.
  intros HW Hlen Hx. unfold np_zeros2 in HW. unfold tb_z1. rewrite HW.
  rewrite (np_vecmat_zero_matrix HIDDEN1_SIZE INPUT_SIZE x A00 INPUT_SIZE_pos Hlen Hx).
  reflexivity.
Qed.

Lemma tb_z2_zero_weights :
  nd_data (hidden1_weights self) = np_zeros2 HIDDEN1_SIZE HIDDEN2_SIZE ->
  tb_hidden1 self x = np_zeros HIDDEN1_SIZE ->
  fmul (F := F) fzero fzero = fzero ->
  tb_z2 self x = vadd (np_zeros HIDDEN2_SIZE) (nd_data (hidden2_bias self)).
Proof.
  intros HW Hh H00. unfold np_zeros2 in HW. unfold tb_z2. rewrite HW, Hh.
  rewrite (np_vecmat_zero_matrix HIDDEN2_SIZE HIDDEN1_SIZE (np_zeros HIDDEN1_SIZE)
             A00 HIDDEN1_SIZE_pos (repeat_length _ _) (Forall_repeat _ _ _ H00)).
  reflexivity.
Qed.

(** The second layer of the sparse pass, by the names of the cache. *)
Lemma cache_hidden2 (features : list F) :
  train_nnue.NNUENetwork.c_hidden2
    (snd (train_nnue.NNUENetwork.forward_with_cache self features)) =
  np_clip01
    (vadd (nd_data (hidden2_bias self))
          (np_vecmat
             (np_clip01 (train_nnue.NNUENetwork.add_rows
                           (nd_data (input_weights self))
                           (where_positive features)
                           (nd_data (hidden1_bias self))))
             (nd_data (hidden1_weights self)))).
Proof. reflexivity. Qed.

End ZeroLayers.

Lemma kings_input_zero_products :
  Forall (fun v : f32 => fmul v fzero = fzero)
         (train_from_lichess.NNUETrainer.board_to_input kings_board).
Proof.
  apply (forallb_f32_eq (fun v => fmul v fzero) (fun _ => fzero)).
  vm_compute. reflexivity.
Qed.

(** Both passes through [unit_bias_network] find zero in the second hidden
    layer. *)
Lemma unit_bias_dense_hidden2 :
  tb_hidden2 unit_bias_network
             (train_from_lichess.NNUETrainer.board_to_input kings_board) =
  np_zeros HIDDEN2_SIZE.
Proof.
  destruct f32_zero_facts as (H00 & _ & A00).
  assert (Hz1 : tb_hidden1 unit_bias_network
                  (train_from_lichess.NNUETrainer.board_to_input kings_board) =
                np_zeros HIDDEN1_SIZE).
  { unfold tb_hidden1.
    rewrite (tb_z1_zero_weights unit_bias_network _ A00 eq_refl
               (proj1 (board_to_input_vector kings_board))
               kings_input_zero_products).
    vm_compute. reflexivity. }
  unfold tb_hidden2.
  rewrite (tb_z2_zero_weights unit_bias_network _ A00 eq_refl Hz1 H00).
  vm_compute. reflexivity.
Qed.

Lemma unit_bias_sparse_hidden2 :
  train_nnue.NNUENetwork.c_hidden2
    (snd (train_nnue.NNUENetwork.forward_with_cache unit_bias_network
            (train_from_lichess.NNUETrainer.board_to_input kings_board))) =
  np_zeros HIDDEN2_SIZE.
Proof.
  destruct f32_zero_facts as (H00 & _ & A00).
  rewrite cache_hidden2.
  assert (Hh : np_clip01 (train_nnue.NNUENetwork.add_rows
                            (nd_data (input_weights unit_bias_network))
                            (where_positive
                               (train_from_lichess.NNUETrainer.board_to_input
                                  (F := f32) kings_board))
                            (nd_data (hidden1_bias unit_bias_network))) =
               np_zeros HIDDEN1_SIZE) by (vm_compute; reflexivity).
  rewrite Hh.
  change (nd_data (hidden1_weights unit_bias_network))
    with (repeat (np_zeros (F := f32) HIDDEN2_SIZE) HIDDEN1_SIZE).
  rewrite (np_vecmat_zero_matrix HIDDEN2_SIZE HIDDEN1_SIZE (np_zeros HIDDEN1_SIZE)
             A00 HIDDEN1_SIZE_pos (repeat_length _ _)
             (Forall_repeat _ _ _ H00)).
  vm_compute. reflexivity.
Qed.

(** C5, as stated, fails.  From [unit_bias_network], on the features of the
    two kings with learning rate 1 (every value below is exact in float32):
    with target 0 the batch of one moves the output bias to 1 - 2*1 = -1 and
    the per-sample update to 1 - 1 = 0; with target 400 the batch of one, which
    divides the target by 400, leaves it at 1 and the per-sample update moves
    it to 1 - (1 - 400) = 400. *)
Lemma C5_batch_of_one_differs :
  shape_ok unit_bias_network /\
  output_bias (fst (train_from_lichess.NNUETrainer.train_batch
                      [train_from_lichess.NNUETrainer.board_to_input kings_board]
                      [fzero] fone unit_bias_network)) = F32 x00 x00 x80 xbf /\
  output_bias (fst (train_nnue.NNUENetwork.backward
                      (snd (train_nnue.NNUENetwork.forward_with_cache
                              unit_bias_network
                              (train_from_lichess.NNUETrainer.board_to_input kings_board)))
                      fzero fone unit_bias_network)) = F32 x00 x00 x00 x00 /\
  output_bias (fst (train_from_lichess.NNUETrainer.train_batch
                      [train_from_lichess.NNUETrainer.board_to_input kings_board]
                      [of_int 400] fone unit_bias_network)) = F32 x00 x00 x80 x3f /\
  output_bias (fst (train_nnue.NNUENetwork.backward
                      (snd (train_nnue.NNUENetwork.forward_with_cache
                              unit_bias_network
                              (train_from_lichess.NNUETrainer.board_to_input kings_board)))
                      (of_int 400) fone unit_bias_network)) = F32 x00 x00 xc8 x43.
Proof.
  assert (Hw : all_writeable unit_bias_network) by (repeat split).
  split; [apply (constant_network_shape (F32 x00 x00 x00 x00))|].
  rewrite !train_batch_one_output_bias, !(backward_output_bias _ _ _ _ Hw).
  unfold tb_d_output, tb_error, bw_error.
  rewrite unit_bias_dense_hidden2, unit_bias_sparse_hidden2.
  split; [vm_compute; reflexivity|].
  split; [vm_compute; reflexivity|].
  split; vm_compute; reflexivity.
Qed.

(** * Float32 instances *)






(** * Binary64 arithmetic: the order of magnitude of a rounded result *)

Section Binary64.
Local Open Scope Z_scope.

Lemma digits2_pos_size (p : positive) : digits2_pos p = Pos.size p.
Proof. induction p as [p IH | p IH |]; cbn [digits2_pos Pos.size]; congruence. Qed.

Lemma Zdigits2_log2 (p : positive) : Zdigits2 (Zpos p) = Z.log2 (Zpos p) + 1.
Proof.
  cbn [Zdigits2]. rewrite digits2_pos_size.
  destruct p; cbn [Z.log2 Pos.size]; lia.
Qed.

Lemma shr_1_m (r : shr_record) : 0 <= shr_m r -> shr_m (shr_1 r) = shr_m r / 2.
Proof.
  destruct r as [m r s]. cbn [shr_m]. intros Hm.
  destruct m as [|[p|p|]|p]; cbn [shr_1 shr_m]; try lia; try reflexivity.
  - apply (Z.div_unique _ _ _ 1); lia.
  - apply (Z.div_unique _ _ _ 0); lia.
Qed.

Lemma iter_shr_m (p : positive) :
  forall r, 0 <= shr_m r -> shr_m (SpecFloat.iter_pos shr_1 p r) = shr_m r / 2 ^ Zpos p.
Proof.
  induction p as [p IH | p IH |]; intros r Hr; cbn [SpecFloat.iter_pos].
  - assert (H1 : 0 <= shr_m (shr_1 r)).
    { rewrite shr_1_m by exact Hr. apply Z.div_pos; lia. }
    assert (H2 : 0 <= shr_m (SpecFloat.iter_pos shr_1 p (shr_1 r))).
    { rewrite IH by exact H1. apply Z.div_pos; [exact H1 | apply Z.pow_pos_nonneg; lia]. }
    rewrite (IH _ H2), (IH _ H1), shr_1_m by exact Hr.
    assert (Hp : 0 < 2 ^ Zpos p) by (apply Z.pow_pos_nonneg; lia).
    rewrite !Z.div_div by lia. f_equal.
    replace (Zpos p~1) with (1 + Zpos p + Zpos p) by lia.
    rewrite !Z.pow_add_r by lia. change (2 ^ 1) with 2. lia.
  - assert (H1 : 0 <= shr_m (SpecFloat.iter_pos shr_1 p r)).
    { rewrite IH by exact Hr. apply Z.div_pos; [exact Hr | apply Z.pow_pos_nonneg; lia]. }
    rewrite (IH _ H1), (IH _ Hr).
    assert (Hp : 0 < 2 ^ Zpos p) by (apply Z.pow_pos_nonneg; lia).
    rewrite Z.div_div by lia. f_equal.
    replace (Zpos p~0) with (Zpos p + Zpos p) by lia.
    rewrite Z.pow_add_r by lia. reflexivity.
  - rewrite shr_1_m by exact Hr. reflexivity.
Qed.

Lemma shr_m_of_loc (m : Z) (l : location) : shr_m (shr_record_of_loc m l) = m.
Proof. destruct l as [|[]]; reflexivity. Qed.

(** The first step of a rounding: the mantissa stays positive, the exponent
    does not decrease, and the magnitude (the binary logarithm of the
    mantissa plus the exponent) is kept. *)
Lemma shr_fexp_pos (m e : Z) (l : location) :
  0 < m -> -1074 <= e ->
  exists rec e',
    shr_fexp prec64 emax64 m e l = (rec, e') /\
    0 < shr_m rec /\ e <= e' /\ Z.log2 (shr_m rec) + e' = Z.log2 m + e.
Proof.
  intros Hm He. destruct m as [|p|p]; try lia.
  unfold shr_fexp, shr. rewrite Zdigits2_log2.
  pose proof (Z.log2_nonneg (Zpos p)) as Hl.
  remember (fexp prec64 emax64 (Z.log2 (Zpos p) + 1 + e) - e) as n eqn:En.
  assert (Hn : n = Z.max (Z.log2 (Zpos p) - 52) (-1074 - e)).
  { subst n. unfold fexp, emin, prec64, emax64. lia. }
  clear En.
  destruct n as [|k|k].
  - eexists. eexists. split; [reflexivity|]. rewrite shr_m_of_loc. lia.
  - eexists. eexists. split; [reflexivity|].
    rewrite iter_shr_m by (rewrite shr_m_of_loc; lia).
    rewrite shr_m_of_loc.
    assert (Hk : Zpos k <= Z.log2 (Zpos p)) by lia.
    rewrite <- Z.shiftr_div_pow2 by lia.
    assert (Hlog : Z.log2 (Z.shiftr (Zpos p) (Zpos k)) = Z.log2 (Zpos p) - Zpos k).
    { rewrite Z.log2_shiftr by lia. lia. }
    split; [|split; [lia | lia]].
    rewrite Z.shiftr_div_pow2 by lia.
    apply Z.div_str_pos. split; [apply Z.pow_pos_nonneg; lia|].
    apply Z.log2_le_pow2; lia.
  - eexists. eexists. split; [reflexivity|]. rewrite shr_m_of_loc. lia.
Qed.

Lemma round_nearest_even_ge (m : Z) (l : location) :
  m <= round_nearest_even m l <= m + 1.
Proof.
  unfold round_nearest_even. destruct l as [|[]]; try lia.
  destruct (Z.even m); lia.
Qed.

(** A rounding of a positive mantissa gives an infinity or a finite number
    of the same sign, of an exponent and a magnitude that are not smaller. *)
Lemma binary_round_aux_pos (sx : bool) (mx ex : Z) (lx : location) :
  0 < mx -> -1074 <= ex ->
  binary_round_aux prec64 emax64 sx mx ex lx = S754_infinity sx \/
  exists m e,
    binary_round_aux prec64 emax64 sx mx ex lx = S754_finite sx m e /\
    ex <= e /\ Z.log2 mx + ex <= Z.log2 (Zpos m) + e.
Proof.
  intros Hm He. unfold binary_round_aux.
  destruct (shr_fexp_pos mx ex lx Hm He) as (r1 & e1 & -> & Hr1 & He1 & Hs1).
  pose proof (round_nearest_even_ge (shr_m r1) (loc_of_shr_record r1)) as Hround.
  set (m2 := round_nearest_even (shr_m r1) (loc_of_shr_record r1)) in *.
  destruct (shr_fexp_pos m2 e1 loc_Exact ltac:(lia) ltac:(lia))
    as (r2 & e2 & -> & Hr2 & He2 & Hs2).
  destruct (shr_m r2) as [|m|m] eqn:Em; try lia.
  destruct (Z.leb e2 (emax64 - prec64)); [right | left; reflexivity].
  exists m, e2. split; [reflexivity|]. split; [lia|].
  pose proof (Z.log2_le_mono (shr_m r1) m2 ltac:(lia)). lia.
Qed.

(** The conversion of an [int] of at least 128. *)
Lemma of_int_large (q : Z) :
  128 <= q ->
  of_int (F := f64) q = S754_infinity false \/
  exists m e, of_int (F := f64) q = S754_finite false m e /\
              -52 <= e /\ 7 <= Z.log2 (Zpos m) + e.
Proof.
  intros Hq. destruct q as [|p|p]; try lia.
  cbn [of_int Scalar_f64 binary_normalize]. unfold binary_round, shl_align.
  pose proof (Z.log2_le_mono 128 (Zpos p) Hq) as Hl.
  change (Z.log2 128) with 7 in Hl.
  change (Zpos (digits2_pos p)) with (Zdigits2 (Zpos p)). rewrite Zdigits2_log2.
  remember (fexp prec64 emax64 (Z.log2 (Zpos p) + 1 + 0) - 0) as n eqn:En.
  assert (Hn : n = Z.log2 (Zpos p) - 52).
  { subst n. unfold fexp, emin, prec64, emax64. lia. }
  assert (Hf : fexp prec64 emax64 (Z.log2 (Zpos p) + 1 + 0) = n) by lia.
  clear En. rewrite Hf.
  destruct n as [|k|k].
  - destruct (binary_round_aux_pos false (Zpos p) 0 loc_Exact) as [H | (m & e & H & H1 & H2)];
      try lia; [left; exact H | right].
    exists m, e. split; [exact H | lia].
  - destruct (binary_round_aux_pos false (Zpos p) 0 loc_Exact) as [H | (m & e & H & H1 & H2)];
      try lia; [left; exact H | right].
    exists m, e. split; [exact H | lia].
  - change (Pos.iter xO p k) with (shift_pos k p).
    assert (Hs : Zpos (shift_pos k p) = Zpos p * 2 ^ Zpos k).
    { rewrite shift_pos_correct. change (Z.pow_pos 2 k) with (2 ^ Zpos k). lia. }
    assert (Hlog : Z.log2 (Zpos (shift_pos k p)) = Zpos k + Z.log2 (Zpos p)).
    { rewrite Hs. apply Z.log2_mul_pow2; lia. }
    destruct (binary_round_aux_pos false (Zpos (shift_pos k p)) (Zneg k) loc_Exact)
      as [H | (m & e & H & H1 & H2)]; try lia; [left; exact H | right].
    exists m, e. split; [exact H | lia].
Qed.

Lemma c100_value : of_int (F := f64) 100 = S754_finite false 7036874417766400 (-46).
Proof. vm_compute. reflexivity. Qed.

(** Dividing a number of at least 128 by 100. *)
Lemma div_100_large (m1 : positive) (e1 : Z) :
  -52 <= e1 -> 7 <= Z.log2 (Zpos m1) + e1 ->
  SFdiv prec64 emax64 (S754_finite false m1 e1)
        (S754_finite false 7036874417766400 (-46)) = S754_infinity false \/
  exists m e,
    SFdiv prec64 emax64 (S754_finite false m1 e1)
          (S754_finite false 7036874417766400 (-46)) = S754_finite false m e /\
    -52 <= e.
Proof.
  intros He1 Hmag. cbn [SFdiv xorb]. unfold SFdiv_core_binary.
  rewrite Zdigits2_log2.
  change (Zdigits2 (Zpos 7036874417766400)) with 53.
  pose proof (Z.log2_nonneg (Zpos m1)) as Hl.
  remember (Z.min (fexp prec64 emax64 (Z.log2 (Zpos m1) + 1 + e1 - (53 + -46)))
                  (e1 - -46)) as e' eqn:Ee.
  assert (He' : e' = Z.min (Z.log2 (Zpos m1) + e1 - 59) (e1 + 46)).
  { subst e'. unfold fexp, emin, prec64, emax64. lia. }
  clear Ee.
  remember (e1 - -46 - e') as s eqn:Es.
  assert (Hs : 0 <= s) by lia.
  set (m' := match s with
             | 0 => Zpos m1
             | Zpos _ => Z.shiftl (Zpos m1) s
             | Zneg _ => 0
             end).
  assert (Hm' : m' = Zpos m1 * 2 ^ s).
  { unfold m'. destruct s as [|k|k]; try lia.
    apply Z.shiftl_mul_pow2. lia. }
  assert (Hbig : 2 ^ 105 <= m').
  { rewrite Hm'. apply Z.log2_le_pow2.
    - apply Z.mul_pos_pos; [lia | apply Z.pow_pos_nonneg; lia].
    - rewrite Z.log2_mul_pow2 by lia. lia. }
  clearbody m'.
  pose proof (Z.div_str_pos m' 7036874417766400) as Hq.
  unfold Z.div in Hq.
  destruct (Z.div_eucl m' 7036874417766400) as [q r].
  assert (Hq' : 0 < q).
  { apply Hq. split; [lia|]. change (2 ^ 105) with 40564819207303340847894502572032 in Hbig. lia. }
  destruct (binary_round_aux_pos false q e' (new_location 7036874417766400 r))
    as [H | (m & e & H & H1 & H2)]; try lia; [left; exact H | right].
  exists m, e. split; [exact H | lia].
Qed.

Lemma SFltb_asym (x y : spec_float) : SFltb x y = true -> SFltb y x = false.
Proof.
  unfold SFltb, SFcompare.
  destruct x as [sx | sx | | sx mx ex], y as [sy | sy | | sy my ey];
    try destruct sx; try destruct sy; try discriminate; try reflexivity.
  - rewrite (Z.compare_antisym ex ey).
    destruct (ex ?= ey); cbn [CompOpp]; try discriminate; try reflexivity.
    rewrite (ZC4 my mx).
    destruct (Pos.compare_cont Eq mx my); cbn [CompOpp];
      try discriminate; reflexivity.
  - rewrite (Z.compare_antisym ex ey).
    destruct (ex ?= ey); cbn [CompOpp]; try discriminate; try reflexivity.
    rewrite (ZC4 my mx).
    destruct (Pos.compare_cont Eq mx my); cbn [CompOpp];
      try discriminate; reflexivity.
Qed.

End Binary64.

(** * The target of a position (train_from_lichess.py) *)

Section Labels.
Local Open Scope Qc_scope.

Lemma fltb_Qc_lt (x y : Qc) : fltb x y = true <-> x < y.
Proof.
  cbn [fltb Scalar_Qc]. unfold Qclt, Qccompare. rewrite Qlt_alt.
  destruct (x ?= y)%Q; split; intros H; try reflexivity; discriminate H.
Qed.

Lemma fltb_Qc_ge (x y : Qc) : fltb x y = false <-> y <= x.
Proof.
  split; intros H.
  - apply Qcnot_lt_le. intros Hlt. apply fltb_Qc_lt in Hlt. congruence.
  - apply not_true_is_false. intros Hlt. apply fltb_Qc_lt in Hlt.
    exact (Qcle_not_lt _ _ H Hlt).
Qed.

Lemma result_weight_min (ply : Z) :
  (train_from_lichess.result_weight ply = ply_fraction ply /\ ply_fraction ply < cap) \/
  (train_from_lichess.result_weight ply = cap /\ cap <= ply_fraction ply).
Proof.
  unfold train_from_lichess.result_weight, py_min.
  fold (ply_fraction ply). change (of_int 8 / of_int 10)%num with cap.
  change (of_int ply / of_int 100)%num with (ply_fraction ply).
  destruct (fltb (ply_fraction ply) cap) eqn:E.
  - left. split; [reflexivity | apply fltb_Qc_lt, E].
  - right. split; [reflexivity | apply fltb_Qc_ge, E].
Qed.

Lemma ply_fraction_mono (p q : Z) : (p <= q)%Z -> ply_fraction p <= ply_fraction q.
Proof.
  intros Hpq. unfold ply_fraction, Qcdiv.
  apply Qcmult_le_compat_r.
  - unfold Qcle. cbn [this Q2Qc]. rewrite !Qred_correct.
    rewrite <- Zle_Qle. exact Hpq.
  - unfold Qcle. vm_compute. discriminate.
Qed.

Lemma result_weight_capped (ply : Z) : train_from_lichess.result_weight ply <= cap.
Proof.
  destruct (result_weight_min ply) as [(-> & H) | (-> & _)].
  - apply Qclt_le_weak, H.
  - apply Qcle_refl.
Qed.

Lemma result_weight_mono (p q : Z) :
  (p <= q)%Z ->
  train_from_lichess.result_weight p <= train_from_lichess.result_weight q.
Proof.
  intros Hpq. pose proof (ply_fraction_mono p q Hpq) as Hf.
  destruct (result_weight_min p) as [(-> & Hp) | (-> & Hp)];
    destruct (result_weight_min q) as [(-> & Hq) | (-> & Hq)].
  - exact Hf.
  - apply Qclt_le_weak, Hp.
  - apply (Qcle_trans _ _ _ Hp Hf).
  - apply Qcle_refl.
Qed.

Example cap_is_four_fifths : cap = Q2Qc (4 # 5).
Proof. apply Qc_is_canon. reflexivity. Qed.

End Labels.

(** ** The blend weight in float64 *)

Section Labels64.
Local Open Scope Z_scope.

Lemma cap64_bits : cap64 = S754_finite false 7205759403792794 (-53).
Proof. vm_compute. reflexivity. Qed.

Lemma result_weight64_unfold (ply : Z) :
  train_from_lichess.result_weight (F := f64) ply =
  if SFltb (ply_fraction64 ply) cap64 then ply_fraction64 ply else cap64.
Proof. reflexivity. Qed.

(** From ply 128 on the fraction is at least 1, and the weight is the cap. *)
Lemma ply_fraction64_large (ply : Z) :
  128 <= ply -> SFltb (ply_fraction64 ply) cap64 = false.
Proof.
  intros Hq. unfold ply_fraction64. cbn [fdiv Scalar_f64].
  rewrite c100_value, cap64_bits.
  destruct (of_int_large ply Hq) as [-> | (m1 & e1 & -> & He1 & Hm1)];
    [reflexivity|].
  destruct (div_100_large m1 e1 He1 Hm1) as [-> | (m & e & -> & He)];
    [reflexivity|].
  unfold SFltb, SFcompare.
  destruct (Z.compare_spec e (-53)); try lia; reflexivity.
Qed.

(** Below ply 128, by computation: the fraction is below the cap exactly up
    to ply 79, and up to there it does not decrease. *)
Lemma ply_fraction64_table :
  (let l := map (fun n => ply_fraction64 (Z.of_nat n)) (seq 0 128) in
   forallb (fun i =>
              Bool.eqb (SFltb (nth i l S754_nan) cap64) (Nat.ltb i 80) &&
              forallb (fun j => negb (SFltb (nth j l S754_nan) (nth i l S754_nan)))
                      (seq i (80 - i)))
           (seq 0 128)) = true.
Proof. vm_compute. reflexivity. Qed.

Lemma nth_fractions (i : nat) :
  (i < 128)%nat ->
  nth i (map (fun n => ply_fraction64 (Z.of_nat n)) (seq 0 128)) S754_nan =
  ply_fraction64 (Z.of_nat i).
Proof.
  intros Hi.
  rewrite (nth_indep _ S754_nan (ply_fraction64 (Z.of_nat 0)))
    by (rewrite length_map, length_seq; exact Hi).
  rewrite (map_nth (fun n => ply_fraction64 (Z.of_nat n))), seq_nth by exact Hi.
  reflexivity.
Qed.

Lemma ply_fraction64_small (i : nat) :
  (i < 128)%nat ->
  SFltb (ply_fraction64 (Z.of_nat i)) cap64 = Nat.ltb i 80 /\
  forall j, (i <= j < 80)%nat ->
            SFltb (ply_fraction64 (Z.of_nat j)) (ply_fraction64 (Z.of_nat i)) = false.
Proof.
  intros Hi. pose proof ply_fraction64_table as T. cbv zeta in T.
  rewrite forallb_forall in T.
  specialize (T i ltac:(apply in_seq; lia)).
  apply andb_prop in T. destruct T as (T1 & T2).
  rewrite (nth_fractions i Hi) in T1, T2. split.
  - apply eqb_prop in T1. exact T1.
  - intros j Hj. rewrite forallb_forall in T2.
    specialize (T2 j ltac:(apply in_seq; lia)).
    rewrite (nth_fractions j ltac:(lia)) in T2.
    apply negb_true_iff in T2. exact T2.
Qed.

(** The weight: the fraction up to ply 79, the cap from ply 80 on. *)
Lemma result_weight64_cases (ply : Z) :
  0 <= ply ->
  (ply < 80 ->
   train_from_lichess.result_weight (F := f64) ply = ply_fraction64 ply /\
   SFltb (ply_fraction64 ply) cap64 = true) /\
  (80 <= ply -> train_from_lichess.result_weight (F := f64) ply = cap64).
Proof.
  intros H0. rewrite result_weight64_unfold. split.
  - intros Hlt.
    destruct (ply_fraction64_small (Z.to_nat ply) ltac:(lia)) as (T & _).
    rewrite Z2Nat.id in T by exact H0.
    replace (Nat.ltb (Z.to_nat ply) 80) with true in T
      by (symmetry; apply Nat.ltb_lt; lia).
    rewrite T. split; reflexivity.
  - intros Hge. destruct (Z_lt_le_dec ply 128) as [Hs | Hl].
    + destruct (ply_fraction64_small (Z.to_nat ply) ltac:(lia)) as (T & _).
      rewrite Z2Nat.id in T by exact H0.
      replace (Nat.ltb (Z.to_nat ply) 80) with false in T
        by (symmetry; apply Nat.ltb_ge; lia).
      rewrite T. reflexivity.
    + rewrite (ply_fraction64_large ply Hl). reflexivity.
Qed.

Lemma result_weight64_capped (ply : Z) :
  SFltb cap64 (train_from_lichess.result_weight (F := f64) ply) = false.
Proof.
  rewrite result_weight64_unfold.
  destruct (SFltb (ply_fraction64 ply) cap64) eqn:E.
  - apply SFltb_asym, E.
  - rewrite cap64_bits. reflexivity.
Qed.

Lemma result_weight64_mono (p q : Z) :
  0 <= p <= q ->
  SFltb (train_from_lichess.result_weight (F := f64) q)
        (train_from_lichess.result_weight (F := f64) p) = false.
Proof.
  intros (H0 & Hpq). destruct (Z_lt_le_dec q 80) as [Hq | Hq].
  - destruct (result_weight64_cases p H0) as (Hp' & _).
    destruct (result_weight64_cases q ltac:(lia)) as (Hq' & _).
    rewrite (proj1 (Hp' ltac:(lia))), (proj1 (Hq' Hq)).
    destruct (ply_fraction64_small (Z.to_nat p) ltac:(lia)) as (_ & T).
    specialize (T (Z.to_nat q) ltac:(lia)).
    rewrite !Z2Nat.id in T by lia. exact T.
  - destruct (result_weight64_cases q ltac:(lia)) as (_ & Hq').
    rewrite (Hq' Hq). apply result_weight64_capped.
Qed.

(** Rounding shows in the target: at ply 7 with result 1 and material 0 the
    exact value is 21, and the float64 value is the next float
    (21.000000000000004). *)
Example target_at_ply_7 :
  train_from_lichess.calculate_target_eval (F := f64)
    (train_from_lichess.mk_Position kings_board 7 fone true) fzero =
  S754_finite false 5910974510923777 (-48) /\
  of_int (F := f64) 21 = S754_finite false 5910974510923776 (-48).
Proof. split; vm_compute; reflexivity. Qed.

End Labels64.

(** C6.  [calculate_target_eval] returns
    [(1 - w) * material_eval + w * (result * 300)] with
    [w = min(0.8, ply / 100.0)].  In the float64 arithmetic the code runs
    in, for every ply that is not negative and converts to a float: [w] is
    [ply / 100.0] up to ply 79 and 0.8 from ply 80 on, it never exceeds 0.8,
    and it does not decrease when [ply] grows.  The same holds in exact
    rational arithmetic, where [w] is [ply / 100] below the cap and the cap
    from there on. *)
Theorem C6_target_is_capped_blend :
  (forall (position : train_from_lichess.Position f64) (material_eval : f64),
     let ply := train_from_lichess.pos_ply position in
     let w := train_from_lichess.result_weight (F := f64) ply in
     float_range ply ->
     train_from_lichess.calculate_target_eval position material_eval =
     fadd (fmul (fsub fone w) material_eval)
          (fmul w (fmul (train_from_lichess.pos_result position) (of_int 300))) /\
     ((ply < 80)%Z -> w = ply_fraction64 ply /\ fltb w cap64 = true) /\
     ((80 <= ply)%Z -> w = cap64) /\
     fltb cap64 w = false /\
     (forall later : Z,
        float_range later -> (ply <= later)%Z ->
        fltb (train_from_lichess.result_weight (F := f64) later) w = false)) /\
  (forall (position : train_from_lichess.Position Qc) (material_eval : Qc),
     let ply := train_from_lichess.pos_ply position in
     let w := train_from_lichess.result_weight (F := Qc) ply in
     train_from_lichess.calculate_target_eval position material_eval =
     ((Q2Qc 1 - w) * material_eval
      + w * (train_from_lichess.pos_result position * Q2Qc (inject_Z 300)))%Qc /\
     ((w = ply_fraction ply /\ (ply_fraction ply < cap)%Qc) \/
      (w = cap /\ (cap <= ply_fraction ply)%Qc)) /\
     (w <= cap)%Qc /\
     (forall later : Z,
        (ply <= later)%Z ->
        (w <= train_from_lichess.result_weight (F := Qc) later)%Qc)).
Proof.
  split.
  - intros position material_eval ply w (H0 & _).
    split; [reflexivity|].
    destruct (result_weight64_cases ply H0) as (Hlow & Hhigh).
    split.
    { intros Hlt. destruct (Hlow Hlt) as (E1 & E2). subst w.
      split; [exact E1|]. rewrite E1. exact E2. }
    split; [exact Hhigh|].
    split; [apply result_weight64_capped|].
    intros later _ Hl. apply result_weight64_mono. split; assumption.
  - intros position material_eval ply w.
    split; [reflexivity|].
    split; [apply result_weight_min|].
    split; [apply result_weight_capped|].
    intros later Hl. apply result_weight_mono, Hl.
Qed.

Lemma C6_witness :
  float_range 30 /\ float_range 90 /\
  train_from_lichess.result_weight (F := f64) 30 = ply_fraction64 30 /\
  fltb (train_from_lichess.result_weight (F := f64) 90)
       (train_from_lichess.result_weight (F := f64) 30) = false.
Proof.
  assert (H30 : float_range 30) by (unfold float_range; split; [lia | reflexivity]).
  assert (H90 : float_range 90) by (unfold float_range; split; [lia | reflexivity]).
  split; [exact H30|]. split; [exact H90|].
  destruct (proj1 C6_target_is_capped_blend
              (train_from_lichess.mk_Position kings_board 30 fone true) fzero H30)
    as (_ & Hlow & _ & _ & Hmono).
  cbn [train_from_lichess.pos_ply] in Hlow, Hmono.
  split; [exact (proj1 (Hlow eq_refl)) | apply (Hmono 90%Z H90); discriminate].
Defined.

(** * The target when the engine fails (train_nnue.py) *)

(** C7 (as amended).  When [engine.analyse] raises, the bare [except]
    catches it and the target of the position is [result_score], the score of
    the game's result, whatever the board: the material evaluation is not
    consulted. *)
Theorem C7_failed_evaluation_gives_result_score
        (F : Type) (SF : Scalar F) (math_exp : F -> option F)
        (analyse : train_nnue.Engine) (board : Board) (i n_moves : nat)
        (result_score : F) :
  analyse board = None ->
  train_nnue.position_target math_exp (Some analyse) board i n_moves result_score
  = Ok result_score.
Proof.
  intros Hfail. unfold train_nnue.position_target. rewrite Hfail. reflexivity.
Qed.

Lemma Ok_injective {A : Type} (a b : A) : Ok a = Ok b -> a = b.
Proof. intros H. injection H. exact (fun E => E). Qed.

Lemma C7_witness :
  failing_engine queen_up_board = None /\
  train_nnue.position_target (fun x : Qc => Some x) (Some failing_engine)
    queen_up_board 10 40 (Q2Qc 1) = Ok (Q2Qc 1).
Proof.
  split; [reflexivity|].
  apply C7_failed_evaluation_gives_result_score. reflexivity.
Defined.

Section FallbackValue.
Local Open Scope Qc_scope.

Lemma Qc_one_plus_pos_nonzero (e : Qc) : 0 < e -> Q2Qc 1 + e <> 0.
Proof.
  intros He Hz. unfold Qclt in He. apply (f_equal this) in Hz.
  cbn [this Qcplus Q2Qc] in Hz, He.
  assert (H : (Qred (Qred 1 + e) == Qred 0)%Q) by (rewrite Hz; reflexivity).
  rewrite !Qred_correct in H. rewrite Qred_correct in He.
  lra.
Qed.

Lemma Qc_inv_nonzero (a : Qc) : a <> 0 -> / a <> 0.
Proof.
  intros Ha Hinv. pose proof (Qcmult_inv_r a Ha) as H.
  rewrite Hinv in H. rewrite Qcmult_0_r in H. discriminate H.
Qed.

(** With a positive exponential the sigmoid, when [math.exp] returns, is not
    zero. *)
Lemma sigmoid_nonzero (math_exp : Qc -> option Qc) (x s : Qc) :
  (forall y e, math_exp y = Some e -> 0 < e) ->
  train_nnue.sigmoid math_exp x = Ok s -> s <> 0.
Proof.
  intros Hexp. unfold train_nnue.sigmoid.
  destruct (math_exp _) as [e|] eqn:He; cbn [or_overflow rbind]; [|discriminate].
  intros [= <-].
  cbn [fone fzero fadd fsub fmul fdiv of_int Scalar_Qc].
  unfold Qcdiv at 1. rewrite Qcmult_1_l.
  apply Qc_inv_nonzero, Qc_one_plus_pos_nonzero, (Hexp _ _ He).
Qed.

End FallbackValue.

(** C7, as stated, fails.  With an engine that raises and the result 0-1
    ([result_score] 0) the target is 0 both on a board where White is a
    queen up (material +1025) and on one where White is a queen down
    (material -1025); and it is not the target the material branch computes
    for the same position, whatever stands for [math.exp], provided the
    values it returns are positive. *)
Lemma C7_fallback_is_not_material :
  train_nnue.simple_material_eval queen_up_board = 1025%Z /\
  train_nnue.simple_material_eval queen_down_board = (-1025)%Z /\
  (forall math_exp : Qc -> option Qc,
     train_nnue.position_target math_exp (Some failing_engine)
       queen_up_board 10 40 (Q2Qc 0) = Ok (Q2Qc 0) /\
     train_nnue.position_target math_exp (Some failing_engine)
       queen_down_board 10 40 (Q2Qc 0) = Ok (Q2Qc 0) /\
     ((forall y e, math_exp y = Some e -> (Q2Qc 0 < e)%Qc) ->
      train_nnue.position_target math_exp None queen_up_board 10 40 (Q2Qc 0) <>
      train_nnue.position_target math_exp (Some failing_engine)
        queen_up_board 10 40 (Q2Qc 0))).
Proof.
  split; [reflexivity|]. split; [reflexivity|].
  intros math_exp. split; [reflexivity|]. split; [reflexivity|].
  intros Hexp.
  change (train_nnue.position_target math_exp (Some failing_engine)
            queen_up_board 10 40 (Q2Qc 0)) with (Ok (Q2Qc 0)).
  unfold train_nnue.position_target.
  destruct (train_nnue.sigmoid math_exp
              (of_int (train_nnue.simple_material_eval queen_up_board)))
    as [s|err] eqn:Es; cbn [rbind]; [|discriminate].
  assert (Hs : s <> Q2Qc 0) by (apply (sigmoid_nonzero _ _ _ Hexp Es)).
  assert (Hp : py_min (fdiv (of_int (Z.of_nat 10)) (of_int (Z.of_nat 40)))
                      (fone (F := Qc)) = Q2Qc (1 # 4)).
  { unfold py_min.
    replace (fltb fone (fdiv (of_int (Z.of_nat 10)) (of_int (Z.of_nat 40))))
      with false by (vm_compute; reflexivity).
    apply Qc_is_canon. reflexivity. }
  rewrite Hp. cbn [fone fzero fadd fsub fmul Scalar_Qc].
  rewrite Qcmult_0_r, Qcplus_0_r. intros H. apply Ok_injective in H.
  apply Qcmult_integral in H. destruct H as [H | H]; [|exact (Hs H)].
  apply (f_equal this) in H. vm_compute in H. discriminate H.
Qed.

(** * Batches of an epoch *)

Section Loops.
Context {St A B : Type}.

Lemma foldM_app (f : B -> A -> Py St B) (l1 l2 : list A) :
  forall b s, foldM f (l1 ++ l2) b s = bind (foldM f l1 b) (foldM f l2) s.
Proof.
  induction l1 as [|a l1 IH]; intros b s; [reflexivity|].
  cbn [app foldM]. unfold bind.
  destruct (f b a s) as [s' [b' | e]]; [|reflexivity].
  rewrite IH. reflexivity.
Qed.

Lemma foldM_ext_in (f g : B -> A -> Py St B) (l : list A) :
  (forall a, In a l -> forall b s, f b a s = g b a s) ->
  forall b s, foldM f l b s = foldM g l b s.
Proof.
  induction l as [|a l IH]; intros Hfg b s; [reflexivity|].
  cbn [foldM]. unfold bind. rewrite (Hfg a (or_introl eq_refl)).
  destruct (g b a s) as [s' [b' | e]]; [|reflexivity].
  apply IH. intros a' Ha'. apply Hfg. right. exact Ha'.
Qed.

End Loops.

Section Batches.
Context {A : Type}.

Lemma div_full (k bs : nat) : 0 < bs -> (k * bs + bs - 1) / bs = k.
Proof.
  intros Hbs. symmetry. apply (Nat.div_unique _ _ _ (bs - 1)); [lia|]. lia.
Qed.

Lemma div_partial (k bs t : nat) : 0 < t < bs -> (k * bs + t + bs - 1) / bs = S k.
Proof.
  intros Ht. symmetry. apply (Nat.div_unique _ _ _ (t - 1)); [lia|]. lia.
Qed.

Lemma range_full (k bs : nat) :
  0 < bs -> py_range0 (k * bs) bs = Ok (map (fun j => j * bs) (seq 0 k)).
Proof.
  intros Hbs. unfold py_range0. destruct bs as [|bs']; [lia|].
  rewrite div_full by lia. reflexivity.
Qed.

Lemma range_partial (k bs t : nat) :
  0 < t < bs ->
  py_range0 (k * bs + t) bs = Ok (map (fun j => j * bs) (seq 0 k) ++ [k * bs]).
Proof.
  intros Ht. unfold py_range0. destruct bs as [|bs']; [lia|].
  rewrite div_partial by lia.
  rewrite seq_S, map_app. reflexivity.
Qed.



End Batches.

Section MainEpoch.
Context {F : Type} {SF : Scalar F}.

Lemma main_epoch_unfold (training_data : list (list F * F)) (batch_size : nat)
      (learning_rate : F) :
  train_from_lichess.train_epoch training_data batch_size learning_rate =
  bind (lift (py_range0 (length training_data) batch_size))
       (fun starts =>
          foldM (main_step training_data batch_size learning_rate) starts (fzero, 0)).
Proof. reflexivity. Qed.

Lemma main_epoch_run (training_data : list (list F * F)) (batch_size : nat)
      (learning_rate : F) (net : Network F) :
  train_from_lichess.train_epoch training_data batch_size learning_rate net =
  match py_range0 (length training_data) batch_size with
  | Ok starts =>
      foldM (main_step training_data batch_size learning_rate) starts (fzero, 0) net
  | Raise e => (net, Raise e)
  end.
Proof. reflexivity. Qed.


End MainEpoch.

Section NnueStep.
Context {F : Type} {SF : Scalar F}.
Variable math_exp : F -> option F.
Variable float_pow2 : F -> option F.

End NnueStep.

Section NnueEpoch.
Context {F : Type} {SF : Scalar F}.
Variable math_exp : F -> option F.
Variable float_pow2 : F -> option F.






Lemma nnue_epoch_run (all_positions : list (Board * F)) (batch_size : nat)
      (lr : F) (net : Network F) :
  train_nnue.train_epoch math_exp float_pow2 all_positions batch_size lr net =
  match py_range0 (length all_positions) batch_size with
  | Ok starts =>
      foldM (nnue_step math_exp float_pow2 all_positions batch_size lr) starts
            (fzero, 0) net
  | Raise e => (net, Raise e)
  end.
Proof. reflexivity. Qed.


End NnueEpoch.

Section EpochTotals.
Context {F : Type} {SF : Scalar F}.






End EpochTotals.





(** * Weight files: what is written, what a load leaves *)

Lemma list_by_fours {A} (P : list A -> Prop) :
  P [] -> (forall a, P [a]) -> (forall a b, P [a; b]) -> (forall a b c, P [a; b; c]) ->
  (forall a b c d l, P l -> P (a :: b :: c :: d :: l)) ->
  forall l, P l.
Proof.
  intros H0 H1 H2 H3 H4.
  fix IH 1. intros [|a [|b [|c [|d l]]]];
    [exact H0 | apply H1 | apply H2 | apply H3 | apply H4, IH].
Qed.

Lemma frombuffer_bytes (b : list byte) :
  forall v, frombuffer_data b = Ok v -> tobytes v = b /\ length b = 4 * length v.
Proof.
  induction b as [|a|a b|a b c|b0 b1 b2 b3 rest IH] using list_by_fours;
    intros v Hv; cbn [frombuffer_data] in Hv; try discriminate Hv.
  - injection Hv as <-. split; reflexivity.
  - destruct (frombuffer_data rest) as [w|e] eqn:Hw; cbn [rbind] in Hv;
      [|discriminate Hv].
    injection Hv as <-.
    destruct (IH w eq_refl) as (Hb & Hl).
    unfold tobytes in *. cbn [flat_map f32_tobytes app length].
    rewrite Hb. split; [reflexivity | lia].
Qed.

(** [np.frombuffer] accepts exactly the buffers of whole elements. *)
Lemma frombuffer_spec (b : list byte) :
  (length b mod 4 = 0 /\
   exists v, frombuffer_data b = Ok v /\ length b = 4 * length v) \/
  (length b mod 4 <> 0 /\ frombuffer_data b = Raise ValueError).
Proof.
  induction b as [|a|a b|a b c|b0 b1 b2 b3 rest IH] using list_by_fours.
  - left. split; [reflexivity|]. exists []. split; reflexivity.
  - right. split; [discriminate | reflexivity].
  - right. split; [discriminate | reflexivity].
  - right. split; [discriminate | reflexivity].
  - cbn [frombuffer_data length].
    replace (S (S (S (S (length rest))))) with (length rest + 1 * 4) by lia.
    rewrite Nat.Div0.mod_add.
    destruct IH as [(Hm & v & Hv & Hl) | (Hm & Hr)].
    + left. split; [exact Hm|]. exists (F32 b0 b1 b2 b3 :: v). rewrite Hv.
      split; [reflexivity | cbn [length]; lia].
    + right. split; [exact Hm|]. rewrite Hr. reflexivity.
Qed.

Lemma concat_rows_of {A} (r c : nat) (v : list A) :
  length v = r * c -> concat (rows_of r c v) = v.
Proof.
  revert v; induction r as [|r IH]; intros v Hv; cbn [rows_of concat].
  - destruct v; [reflexivity | discriminate Hv].
  - rewrite IH by (rewrite length_skipn; lia). apply firstn_skipn.
Qed.

Lemma firstn_plus {A} (m n : nat) (l : list A) :
  firstn (n + m) l = firstn m l ++ firstn n (skipn m l).
Proof.
  revert l; induction m as [|m IH]; intros l.
  - rewrite Nat.add_0_r. reflexivity.
  - destruct l as [|a l]; [rewrite skipn_nil, !firstn_nil; reflexivity|].
    rewrite Nat.add_succ_r. cbn [firstn skipn app]. rewrite IH. reflexivity.
Qed.

(** A file of at least [expected_size] bytes: the arrays a load leaves, and
    the bytes they were read from. *)
Lemma load_decodes (buf : list byte) (self : Network f32) :
  expected_size <= length buf ->
  exists n,
    train_nnue.NNUENetwork.load buf self = (n, Ok tt) /\
    shape_ok n /\
    tobytes2 (nd_data (input_weights n)) = firstn (INPUT_SIZE * HIDDEN1_SIZE * 4) buf /\
    tobytes (nd_data (hidden1_bias n)) = firstn (HIDDEN1_SIZE * 4) (skipn off2 buf) /\
    tobytes2 (nd_data (hidden1_weights n)) =
      firstn (HIDDEN1_SIZE * HIDDEN2_SIZE * 4) (skipn off3 buf) /\
    tobytes (nd_data (hidden2_bias n)) = firstn (HIDDEN2_SIZE * 4) (skipn off4 buf) /\
    tobytes (nd_data (hidden2_weights n)) = firstn (HIDDEN2_SIZE * 4) (skipn off5 buf) /\
    tobytes [output_bias n] = firstn 4 (skipn off6 buf).
Proof.
  intros Hlen. rewrite <- off6_expected in Hlen.
  rewrite load_as_chunks.
  pose proof Hlen as Hlen'.
  unfold off6, off5, off4, off3 in Hlen'. fold off2 in Hlen'.
  destruct (@frombuffer_whole (INPUT_SIZE * HIDDEN1_SIZE)
              (firstn (INPUT_SIZE * HIDDEN1_SIZE * 4) buf)) as (v1 & E1 & L1).
  { rewrite length_firstn. unfold off2 in Hlen'. lia. }
  destruct (@frombuffer_whole HIDDEN1_SIZE
              (firstn (HIDDEN1_SIZE * 4) (skipn off2 buf))) as (v2 & E2 & L2).
  { rewrite chunk_length; lia. }
  destruct (@frombuffer_whole (HIDDEN1_SIZE * HIDDEN2_SIZE)
              (firstn (HIDDEN1_SIZE * HIDDEN2_SIZE * 4) (skipn off3 buf)))
    as (v3 & E3 & L3).
  { rewrite chunk_length; unfold off3; lia. }
  destruct (@frombuffer_whole HIDDEN2_SIZE
              (firstn (HIDDEN2_SIZE * 4) (skipn off4 buf))) as (v4 & E4 & L4).
  { rewrite chunk_length; unfold off4, off3; lia. }
  destruct (@frombuffer_whole HIDDEN2_SIZE
              (firstn (HIDDEN2_SIZE * 4) (skipn off5 buf))) as (v5 & E5 & L5).
  { rewrite chunk_length; unfold off5, off4, off3; lia. }
  destruct (@frombuffer_whole 1 (firstn 4 (skipn off6 buf))) as (v6 & E6 & L6).
  { rewrite chunk_length; unfold off6, off5, off4, off3; lia. }
  destruct v6 as [|x [|y v6]]; try discriminate L6.
  eexists. split.
  - exact (load_chunks_ok _ _ _ _ _ _ _ _ _ _ _ _ _ self E1 L1 E2 E3 L3 E4 E5 E6).
  - cbn [input_weights hidden1_bias hidden1_weights hidden2_bias hidden2_weights
         output_bias nd_data].
    split.
    { unfold shape_ok.
      cbn [input_weights hidden1_bias hidden1_weights hidden2_bias
           hidden2_weights nd_data].
      repeat split; try assumption; auto using rows_of_length, rows_of_widths. }
    rewrite !tobytes2_concat, !concat_rows_of by assumption.
    repeat split; apply frombuffer_bytes; assumption.
Qed.

(** The six chunks, one after the other, are the head of the file. *)
Lemma chunks_are_prefix (buf : list byte) :
  firstn (INPUT_SIZE * HIDDEN1_SIZE * 4) buf ++
  firstn (HIDDEN1_SIZE * 4) (skipn off2 buf) ++
  firstn (HIDDEN1_SIZE * HIDDEN2_SIZE * 4) (skipn off3 buf) ++
  firstn (HIDDEN2_SIZE * 4) (skipn off4 buf) ++
  firstn (HIDDEN2_SIZE * 4) (skipn off5 buf) ++
  firstn 4 (skipn off6 buf) =
  firstn expected_size buf.
Proof.
  set (c2 := firstn (HIDDEN1_SIZE * 4) (skipn off2 buf)).
  set (c3 := firstn (HIDDEN1_SIZE * HIDDEN2_SIZE * 4) (skipn off3 buf)).
  set (c4 := firstn (HIDDEN2_SIZE * 4) (skipn off4 buf)).
  set (c5 := firstn (HIDDEN2_SIZE * 4) (skipn off5 buf)).
  set (c6 := firstn 4 (skipn off6 buf)).
  rewrite <- off6_expected.
  rewrite (Nat.add_comm off6 4), firstn_plus. fold c6.
  unfold off6. rewrite firstn_plus. fold c5.
  unfold off5. rewrite firstn_plus. fold c4.
  unfold off4. rewrite firstn_plus. fold c3.
  unfold off3. rewrite firstn_plus. fold c2.
  unfold off2.
  rewrite <- !app_assoc. reflexivity.
Qed.

Lemma load_ok_is_long (buf : list byte) (self n : Network f32) :
  train_nnue.NNUENetwork.load buf self = (n, Ok tt) -> expected_size <= length buf.
Proof.
  intros Hload.
  destruct (Nat.lt_ge_cases (length buf) expected_size) as [Hshort|Hlong];
    [|exact Hlong].
  destruct (load_short buf self Hshort) as (e & He).
  rewrite Hload in He. discriminate He.
Qed.

(** What [save] and [save_weights] write is [expected_size] bytes long. *)
Lemma save_length_both (n : Network f32) :
  shape_ok n ->
  length (train_from_lichess.NNUETrainer.save_weights n) = expected_size /\
  length (train_nnue.NNUENetwork.save n) = expected_size.
Proof.
  intros (L1 & W1 & L2 & L3 & W3 & L4 & L5).
  assert (H : length (train_nnue.NNUENetwork.save n) = expected_size).
  { unfold train_nnue.NNUENetwork.save, expected_size.
    rewrite !length_app, !tobytes2_concat, !tobytes_length.
    rewrite (concat_length_rows _ _ W1), (concat_length_rows _ _ W3).
    rewrite L1, L2, L3, L4, L5. cbn [length]. lia. }
  split; exact H.
Qed.

(** X1.  A parameter set of the network's shapes is written as exactly
    [expected_size] bytes by [save] and by [save_weights]: the size check at
    the end of [save_weights] finds the size it expects. *)
Theorem X1_saved_file_has_expected_size (n : Network f32) :
  shape_ok n ->
  length (train_nnue.NNUENetwork.save n) = expected_size /\
  length (train_from_lichess.NNUETrainer.save_weights n) = expected_size.
Proof.
  intros Hn. destruct (save_length_both n Hn) as (H1 & H2). split; assumption.
Qed.

Lemma X1_witness :
  shape_ok (constant_network half32) /\
  length (train_nnue.NNUENetwork.save (constant_network half32)) = expected_size /\
  length (train_from_lichess.NNUETrainer.save_weights (constant_network half32)) =
  expected_size.
Proof.
  split; [apply constant_network_shape|].
  apply X1_saved_file_has_expected_size, constant_network_shape.
Defined.

(** X2.  Loading a file of at least [expected_size] bytes and saving the
    result writes back the first [expected_size] bytes of the file, byte for
    byte (no value is normalised on the way, not-a-number payloads
    included). *)
Theorem X2_load_then_save_gives_the_bytes_back (buf : list byte) (self : Network f32) :
  expected_size <= length buf ->
  exists n,
    train_nnue.NNUENetwork.load buf self = (n, Ok tt) /\
    train_from_lichess.NNUETrainer.load_weights buf self = (n, Ok tt) /\
    train_nnue.NNUENetwork.save n = firstn expected_size buf /\
    train_from_lichess.NNUETrainer.save_weights n = firstn expected_size buf.
Proof.
  intros Hlen.
  destruct (load_decodes buf self Hlen)
    as (n & Hload & _ & H1 & H2 & H3 & H4 & H5 & H6).
  exists n. split; [exact Hload|]. split; [exact Hload|].
  assert (H : train_nnue.NNUENetwork.save n = firstn expected_size buf).
  { unfold train_nnue.NNUENetwork.save.
    rewrite H1, H2, H3, H4, H5, H6. apply chunks_are_prefix. }
  split; exact H.
Qed.

Lemma X2_witness :
  expected_size <= length (repeat x01 (expected_size + 3)) /\
  exists n,
    train_nnue.NNUENetwork.load (repeat x01 (expected_size + 3))
                                (constant_network half32) = (n, Ok tt) /\
    train_from_lichess.NNUETrainer.load_weights (repeat x01 (expected_size + 3))
                                (constant_network half32) = (n, Ok tt) /\
    train_nnue.NNUENetwork.save n =
      firstn expected_size (repeat x01 (expected_size + 3)) /\
    train_from_lichess.NNUETrainer.save_weights n =
      firstn expected_size (repeat x01 (expected_size + 3)).
Proof.
  assert (H : expected_size <= length (repeat x01 (expected_size + 3))).
  { rewrite repeat_length. lia. }
  split; [exact H|].
  apply X2_load_then_save_gives_the_bytes_back, H.
Defined.

(** X3.  A load that succeeds replaces all six parameters: the parameter set
    it leaves has the network's shapes and is the same whatever the object
    held before. *)
Theorem X3_load_result_depends_on_the_file_alone
        (buf : list byte) (self other n : Network f32) :
  train_nnue.NNUENetwork.load buf self = (n, Ok tt) ->
  shape_ok n /\
  train_nnue.NNUENetwork.load buf other = (n, Ok tt) /\
  train_from_lichess.NNUETrainer.load_weights buf other = (n, Ok tt).
Proof.
  intros Hload. pose proof (load_ok_is_long buf self n Hload) as Hlen.
  destruct (load_decodes buf self Hlen)
    as (n1 & Hload1 & Hshape1 & H1 & H2 & H3 & H4 & H5 & H6).
  rewrite Hload in Hload1. injection Hload1 as <-.
  split; [exact Hshape1|].
  assert (H : train_nnue.NNUENetwork.load buf other = (n, Ok tt)).
  { rewrite load_as_chunks in Hload |- *.
    destruct (load_long_enough buf other Hlen) as (m & Hm & _).
    rewrite load_as_chunks in Hm. rewrite Hm. f_equal.
    revert Hload Hm.
    unfold load_chunks, bind, lift, assign.
    repeat match goal with
    | |- context [rbind ?a ?b] =>
        destruct (rbind a b); cbn [snd fst]; try discriminate
    | |- context [np_frombuffer ?a] =>
        destruct (np_frombuffer a); cbn [snd fst]; try discriminate
    end.
    cbn. intros E1 E2. injection E1 as <-. injection E2 as <-. reflexivity. }
  split; exact H.
Qed.

Lemma X3_witness :
  train_nnue.NNUENetwork.load (train_nnue.NNUENetwork.save (constant_network half32))
    (constant_network (F32 x00 x00 x00 x00)) =
  (mk_Network (mk_ndarray (nd_data (input_weights (constant_network half32))) false)
              (mk_ndarray (nd_data (hidden1_bias (constant_network half32))) false)
              (mk_ndarray (nd_data (hidden1_weights (constant_network half32))) false)
              (mk_ndarray (nd_data (hidden2_bias (constant_network half32))) false)
              (mk_ndarray (nd_data (hidden2_weights (constant_network half32))) false)
              (output_bias (constant_network half32)),
   Ok tt) /\
  shape_ok
    (mk_Network (mk_ndarray (nd_data (input_weights (constant_network half32))) false)
              (mk_ndarray (nd_data (hidden1_bias (constant_network half32))) false)
              (mk_ndarray (nd_data (hidden1_weights (constant_network half32))) false)
              (mk_ndarray (nd_data (hidden2_bias (constant_network half32))) false)
              (mk_ndarray (nd_data (hidden2_weights (constant_network half32))) false)
              (output_bias (constant_network half32))).
Proof.
  pose proof (load_save (constant_network half32)
                (constant_network (F32 x00 x00 x00 x00))
                (constant_network_shape half32)) as Hload.
  split; [exact Hload|].
  exact (proj1 (X3_load_result_depends_on_the_file_alone _ _
                  (constant_network half32) _ Hload)).
Defined.

(** ** Loads that fail *)

Lemma HIDDEN2_SIZE_pos : 0 < HIDDEN2_SIZE.
Proof. apply Nat.ltb_lt. vm_compute. reflexivity. Qed.

(** [np.frombuffer], by the length of the buffer. *)
Lemma frombuffer_cases (b : list byte) :
  (exists v, frombuffer_data b = Ok v /\ length b = 4 * length v) \/
  ((forall k, length b <> 4 * k) /\ frombuffer_data b = Raise ValueError).
Proof.
  destruct (frombuffer_spec b) as [(_ & v & Hv & Hl) | (Hm & Hr)].
  - left. exists v. split; assumption.
  - right. split; [|exact Hr]. intros k Hk. apply Hm.
    rewrite Hk, Nat.mul_comm. apply Nat.Div0.mod_mul.
Qed.

(** A first chunk that is too short stops the load before any assignment. *)
Lemma load_chunks_first_short (c1 c2 c3 c4 c5 c6 : list byte) (self : Network f32) :
  length c1 < INPUT_SIZE * HIDDEN1_SIZE * 4 ->
  load_chunks c1 c2 c3 c4 c5 c6 self = (self, Raise ValueError).
Proof.
  intros H1. unfold load_chunks, bind, lift, np_frombuffer, np_reshape.
  destruct (frombuffer_cases c1) as [(v & Hv & Hl) | (_ & Hr)].
  - rewrite Hv. cbn [rbind nd_data].
    destruct (Nat.eqb_spec (length v) (INPUT_SIZE * HIDDEN1_SIZE)) as [E|_];
      [lia | reflexivity].
  - rewrite Hr. reflexivity.
Qed.

(** Once the first chunk is converted, the input weights stay as read,
    however the load ends. *)
Lemma load_chunks_first_read (c1 c2 c3 c4 c5 c6 : list byte) (v1 : list f32)
      (self : Network f32) :
  frombuffer_data c1 = Ok v1 ->
  length v1 = INPUT_SIZE * HIDDEN1_SIZE ->
  input_weights (fst (load_chunks c1 c2 c3 c4 c5 c6 self)) =
  mk_ndarray (rows_of INPUT_SIZE HIDDEN1_SIZE v1) false.
Proof.
  intros H1 L1. unfold load_chunks, bind, lift, assign, np_frombuffer at 1, np_reshape at 1.
  rewrite H1. cbn [rbind nd_data nd_writeable]. rewrite L1, Nat.eqb_refl.
  repeat match goal with
  | |- context [rbind ?a ?b] => destruct (rbind a b); cbn [fst]
  | |- context [np_frombuffer ?a] => destruct (np_frombuffer a); cbn [fst]
  end; reflexivity.
Qed.

(** X4.  A load that fails is not undone.  A file shorter than the input
    weights raises [ValueError] and leaves the object as it was; a longer
    file that is still shorter than [expected_size] raises as well, but by
    then the object's input weights have been replaced by the read-only array
    read from the head of the file. *)
Theorem X4_failed_load_keeps_what_it_read (buf : list byte) (self : Network f32) :
  (length buf < INPUT_SIZE * HIDDEN1_SIZE * 4 ->
   train_nnue.NNUENetwork.load buf self = (self, Raise ValueError) /\
   train_from_lichess.NNUETrainer.load_weights buf self = (self, Raise ValueError)) /\
  (INPUT_SIZE * HIDDEN1_SIZE * 4 <= length buf < expected_size ->
   exists net' e,
     train_nnue.NNUENetwork.load buf self = (net', Raise e) /\
     train_from_lichess.NNUETrainer.load_weights buf self = (net', Raise e) /\
     nd_writeable (input_weights net') = false /\
     tobytes2 (nd_data (input_weights net')) =
     firstn (INPUT_SIZE * HIDDEN1_SIZE * 4) buf).
Proof.
  split.
  - intros Hshort.
    assert (H : train_nnue.NNUENetwork.load buf self = (self, Raise ValueError)).
    { rewrite load_as_chunks. apply load_chunks_first_short.
      rewrite length_firstn. lia. }
    split; exact H.
  - intros (Hlong & Hshort).
    destruct (load_short buf self Hshort) as (e & He).
    destruct (@frombuffer_whole (INPUT_SIZE * HIDDEN1_SIZE)
                (firstn (INPUT_SIZE * HIDDEN1_SIZE * 4) buf)) as (v1 & E1 & L1).
    { rewrite length_firstn. lia. }
    pose proof (load_chunks_first_read
                  (firstn (INPUT_SIZE * HIDDEN1_SIZE * 4) buf)
                  (firstn (HIDDEN1_SIZE * 4) (skipn off2 buf))
                  (firstn (HIDDEN1_SIZE * HIDDEN2_SIZE * 4) (skipn off3 buf))
                  (firstn (HIDDEN2_SIZE * 4) (skipn off4 buf))
                  (firstn (HIDDEN2_SIZE * 4) (skipn off5 buf))
                  (firstn 4 (skipn off6 buf)) v1 self E1 L1) as Hw.
    rewrite <- load_as_chunks in Hw.
    destruct (train_nnue.NNUENetwork.load buf self) as [net' r] eqn:Hload.
    cbn [fst snd] in Hw, He. subst r.
    exists net', e.
    assert (Hload' : train_from_lichess.NNUETrainer.load_weights buf self =
                     (net', Raise e)) by exact Hload.
    split; [reflexivity|]. split; [exact Hload'|].
    rewrite Hw. cbn [nd_writeable nd_data]. split; [reflexivity|].
    rewrite tobytes2_concat, concat_rows_of by exact L1.
    apply frombuffer_bytes, E1.
Qed.

Lemma X4_witness :
  (length (repeat x00 3) < INPUT_SIZE * HIDDEN1_SIZE * 4 /\
   train_nnue.NNUENetwork.load (repeat x00 3) (constant_network half32) =
   (constant_network half32, Raise ValueError)) /\
  (INPUT_SIZE * HIDDEN1_SIZE * 4 <=
   length (repeat x00 (INPUT_SIZE * HIDDEN1_SIZE * 4)) < expected_size /\
   exists net' e,
     train_nnue.NNUENetwork.load (repeat x00 (INPUT_SIZE * HIDDEN1_SIZE * 4))
                                 (constant_network half32) = (net', Raise e) /\
     train_from_lichess.NNUETrainer.load_weights
       (repeat x00 (INPUT_SIZE * HIDDEN1_SIZE * 4))
       (constant_network half32) = (net', Raise e) /\
     nd_writeable (input_weights net') = false /\
     tobytes2 (nd_data (input_weights net')) =
     firstn (INPUT_SIZE * HIDDEN1_SIZE * 4)
            (repeat x00 (INPUT_SIZE * HIDDEN1_SIZE * 4))).
Proof.
  assert (H1 : length (repeat x00 3) < INPUT_SIZE * HIDDEN1_SIZE * 4).
  { pose proof (Nat.mul_pos_pos _ _ INPUT_SIZE_pos HIDDEN1_SIZE_pos).
    cbn [repeat length]. lia. }
  assert (H2 : INPUT_SIZE * HIDDEN1_SIZE * 4 <=
               length (repeat x00 (INPUT_SIZE * HIDDEN1_SIZE * 4)) < expected_size).
  { rewrite repeat_length. unfold expected_size. lia. }
  split.
  - split; [exact H1|].
    exact (proj1 (proj1 (X4_failed_load_keeps_what_it_read _ _) H1)).
  - split; [exact H2|].
    exact (proj2 (X4_failed_load_keeps_what_it_read _ _) H2).
Defined.

Lemma mod4_cases (n : nat) :
  (n mod 4 = 0 /\ exists k, n = 4 * k) \/ (n mod 4 <> 0 /\ forall k, n <> 4 * k).
Proof.
  destruct (Nat.eq_dec (n mod 4) 0) as [E|E].
  - left. split; [exact E|]. exists (n / 4).
    pose proof (Nat.div_mod_eq n 4). lia.
  - right. split; [exact E|]. intros k Hk. apply E.
    rewrite Hk, Nat.mul_comm. apply Nat.Div0.mod_mul.
Qed.

(** How a load ends, by the conversions of its six chunks. *)
Lemma load_chunks_end (c1 c2 c3 c4 c5 c6 : list byte) (self : Network f32) :
  snd (load_chunks c1 c2 c3 c4 c5 c6 self) =
  match frombuffer_data c1 with
  | Raise e => Raise e
  | Ok v1 =>
    if Nat.eqb (length v1) (INPUT_SIZE * HIDDEN1_SIZE) then
      match frombuffer_data c2 with
      | Raise e => Raise e
      | Ok _ =>
        match frombuffer_data c3 with
        | Raise e => Raise e
        | Ok v3 =>
          if Nat.eqb (length v3) (HIDDEN1_SIZE * HIDDEN2_SIZE) then
            match frombuffer_data c4 with
            | Raise e => Raise e
            | Ok _ =>
              match frombuffer_data c5 with
              | Raise e => Raise e
              | Ok _ =>
                match frombuffer_data c6 with
                | Raise e => Raise e
                | Ok [] => Raise IndexError
                | Ok (_ :: _) => Ok tt
                end
              end
            end
          else Raise ValueError
        end
      end
    else Raise ValueError
  end.
Proof.
  unfold load_chunks, bind, lift, assign, np_frombuffer, np_reshape, np_item0.
  destruct (frombuffer_data c1) as [v1|e]; [|reflexivity]. cbn [rbind nd_data].
  destruct (Nat.eqb (length v1) (INPUT_SIZE * HIDDEN1_SIZE)); [|reflexivity].
  destruct (frombuffer_data c2) as [v2|e]; [|reflexivity]. cbn [rbind nd_data].
  destruct (frombuffer_data c3) as [v3|e]; [|reflexivity]. cbn [rbind nd_data].
  destruct (Nat.eqb (length v3) (HIDDEN1_SIZE * HIDDEN2_SIZE)); [|reflexivity].
  destruct (frombuffer_data c4) as [v4|e]; [|reflexivity]. cbn [rbind nd_data].
  destruct (frombuffer_data c5) as [v5|e]; [|reflexivity]. cbn [rbind nd_data].
  destruct (frombuffer_data c6) as [[|x v6]|e]; reflexivity.
Qed.

Lemma chunk_length_cases (n off : nat) (l : list byte) :
  (off + n <= length l /\ length (firstn n (skipn off l)) = n) \/
  (length l < off + n /\ off + length (firstn n (skipn off l)) = length l) \/
  (length l < off /\ length (firstn n (skipn off l)) = 0).
Proof. rewrite length_firstn, length_skipn. lia. Qed.

Ltac chunk n off v buf :=
  let E := fresh "E" in let Lv := fresh "Lv" in
  let N := fresh "N" in let R := fresh "R" in
  let G := fresh "G" in let LL := fresh "LL" in
  destruct (frombuffer_cases (firstn n (skipn off buf))) as [(v & E & Lv) | (N & R)];
  [rewrite E; clear E | rewrite R; clear R];
  destruct (chunk_length_cases n off buf) as [(G & LL) | [(G & LL) | (G & LL)]].

Ltac chunk_odd n off o v buf Hq :=
  let E := fresh "E" in let Lv := fresh "Lv" in
  let N := fresh "N" in let R := fresh "R" in
  let G := fresh "G" in let LL := fresh "LL" in
  destruct (frombuffer_cases (firstn n (skipn off buf))) as [(v & E & Lv) | (N & R)];
  [rewrite E; clear E; pose proof (Hq (o + length v)) | rewrite R; clear R];
  destruct (chunk_length_cases n off buf) as [(G & LL) | [(G & LL) | (G & LL)]].

Ltac instances ts :=
  repeat match goal with
  | N : forall k : nat, _ <> 4 * k |- _ =>
      let rec go l := lazymatch l with
                      | nil => idtac
                      | cons ?t ?l' => pose proof (N t); go l'
                      end in
      go ts; clear N
  end.

Ltac decide_kind :=
  lazymatch goal with
  | |- Raise _ = Raise (if ?a && ?b then _ else _) =>
      let Ha := fresh "Ha" in let Hb := fresh "Hb" in
      destruct a eqn:Ha; destruct b eqn:Hb; cbn [andb];
      try reflexivity; exfalso;
      try apply Nat.leb_le in Ha; try apply Nat.leb_gt in Ha;
      try apply Nat.leb_le in Hb; try apply Nat.leb_gt in Hb
  | |- Raise _ = Raise ValueError => try reflexivity; exfalso
  | |- _ => exfalso
  end.

Ltac close ts := try solve [instances ts; decide_kind; lia].

Ltac step_eqb :=
  lazymatch goal with
  | |- (if Nat.eqb ?a ?b then _ else _) = _ => destruct (Nat.eqb_spec a b)
  | |- _ => idtac
  end.

(** The exception of a load from a truncated file. *)
Lemma load_short_error (buf : list byte) (self : Network f32) :
  length buf < expected_size ->
  snd (train_nnue.NNUENetwork.load buf self) =
  Raise (if ((INPUT_SIZE * HIDDEN1_SIZE + HIDDEN1_SIZE + HIDDEN1_SIZE * HIDDEN2_SIZE) * 4
               <=? length buf) &&
            (length buf + 4 <=? expected_size) &&
            (length buf mod 4 =? 0)
         then IndexError else ValueError).
Proof.
  intros Hshort. rewrite load_as_chunks, load_chunks_end.
  pose proof (Nat.mul_pos_pos _ _ INPUT_SIZE_pos HIDDEN1_SIZE_pos) as PA.
  pose proof (Nat.mul_pos_pos _ _ HIDDEN1_SIZE_pos HIDDEN2_SIZE_pos) as PC.
  pose proof HIDDEN1_SIZE_pos as PB. pose proof HIDDEN2_SIZE_pos as PD.
  unfold expected_size in *. unfold off6, off5, off4, off3, off2.
  change (firstn (INPUT_SIZE * HIDDEN1_SIZE * 4) buf)
    with (firstn (INPUT_SIZE * HIDDEN1_SIZE * 4) (skipn 0 buf)).
  remember (INPUT_SIZE * HIDDEN1_SIZE) as A eqn:EA.
  remember (HIDDEN1_SIZE * HIDDEN2_SIZE) as C eqn:EC.
  remember HIDDEN1_SIZE as B eqn:EB. remember HIDDEN2_SIZE as D eqn:ED.
  clear EA EC EB ED.
  destruct (mod4_cases (length buf)) as [(M & q & Hq) | (M & Hq)].
  - rewrite (proj2 (Nat.eqb_eq _ _) M), andb_true_r. clear M.
    chunk (A * 4) 0 v1 buf; close (A :: q :: nil).
    step_eqb; close (@nil nat).
    chunk (B * 4) (A * 4) v2 buf; close (B :: (q - A) :: nil).
    all: chunk (C * 4) (B * 4 + A * 4) v3 buf; close (C :: (q - A - B) :: nil).
    all: step_eqb; close (@nil nat).
    all: chunk (D * 4) (C * 4 + (B * 4 + A * 4)) v4 buf;
      close (D :: (q - A - B - C) :: nil).
    all: chunk (D * 4) (D * 4 + (C * 4 + (B * 4 + A * 4))) v5 buf;
      close (D :: (q - A - B - C - D) :: nil).
    all: chunk 4 (D * 4 + (D * 4 + (C * 4 + (B * 4 + A * 4)))) v6 buf;
      close (1 :: (q - A - B - C - D - D) :: nil).
    all: destruct v6 as [|x v6]; cbn [length] in *; close (@nil nat).
  - rewrite (proj2 (Nat.eqb_neq _ _) M), andb_false_r. clear M.
    chunk_odd (A * 4) 0 0 v1 buf Hq; close (@nil nat).
    step_eqb; close (@nil nat).
    chunk_odd (B * 4) (A * 4) A v2 buf Hq; close (@nil nat).
    all: chunk_odd (C * 4) (B * 4 + A * 4) (A + B) v3 buf Hq; close (@nil nat).
    all: step_eqb; close (@nil nat).
    all: chunk_odd (D * 4) (C * 4 + (B * 4 + A * 4)) (A + B + C) v4 buf Hq;
      close (@nil nat).
    all: chunk_odd (D * 4) (D * 4 + (C * 4 + (B * 4 + A * 4))) (A + B + C + D) v5 buf Hq;
      close (@nil nat).
    all: chunk_odd 4 (D * 4 + (D * 4 + (C * 4 + (B * 4 + A * 4))))
                   (A + B + C + D + D) v6 buf Hq;
      close (@nil nat).
    all: destruct v6 as [|x v6]; cbn [length] in *; close (@nil nat).
Qed.

(** X5.  Which exception a truncated file raises.  A file shorter than
    [expected_size] raises [IndexError] (from the final [[0]] on an empty
    array) exactly when it ends on an element boundary at or after the end of
    the second weight matrix and before the output bias: the two short
    vectors are then read as shorter arrays without complaint.  Every other
    truncated file raises [ValueError]. *)
Theorem X5_truncated_file_exception (buf : list byte) (self : Network f32) :
  length buf < expected_size ->
  snd (train_nnue.NNUENetwork.load buf self) =
  Raise (if ((INPUT_SIZE * HIDDEN1_SIZE + HIDDEN1_SIZE + HIDDEN1_SIZE * HIDDEN2_SIZE) * 4
               <=? length buf) &&
            (length buf + 4 <=? expected_size) &&
            (length buf mod 4 =? 0)
         then IndexError else ValueError) /\
  snd (train_from_lichess.NNUETrainer.load_weights buf self) =
  snd (train_nnue.NNUENetwork.load buf self).
Proof.
  intros Hshort. split; [apply load_short_error, Hshort | reflexivity].
Qed.

Lemma X5_witness :
  length (repeat x00 (expected_size - 4)) < expected_size /\
  snd (train_nnue.NNUENetwork.load (repeat x00 (expected_size - 4))
                                   (constant_network half32)) =
  Raise (if ((INPUT_SIZE * HIDDEN1_SIZE + HIDDEN1_SIZE + HIDDEN1_SIZE * HIDDEN2_SIZE) * 4
               <=? length (repeat x00 (expected_size - 4))) &&
            (length (repeat x00 (expected_size - 4)) + 4 <=? expected_size) &&
            (length (repeat x00 (expected_size - 4)) mod 4 =? 0)
         then IndexError else ValueError).
Proof.
  assert (H : length (repeat x00 (expected_size - 4)) < expected_size).
  { rewrite repeat_length. unfold expected_size. lia. }
  split; [exact H|].
  exact (proj1 (X5_truncated_file_exception _ (constant_network half32) H)).
Defined.

(** * The feature encoders *)

Lemma INPUT_SIZE_value : INPUT_SIZE = 12 * 64.
Proof. vm_compute. reflexivity. Qed.

Lemma piece_index_bound (piece : Piece) : piece_index piece < 12.
Proof. destruct piece as [[] []]; cbn; lia. Qed.

Lemma our_sq_facts :
  forallb (fun s => (our_sq s <? 64) && (our_sq (our_sq s) =? s)) (seq 0 64) = true.
Proof. vm_compute. reflexivity. Qed.

Lemma our_sq_bound (s : nat) : s < 64 -> our_sq s < 64.
Proof.
  intros Hs. pose proof our_sq_facts as H. rewrite forallb_forall in H.
  specialize (H s). rewrite in_seq, andb_true_iff, Nat.ltb_lt in H.
  apply H. lia.
Qed.

Lemma our_sq_involutive (s : nat) : s < 64 -> our_sq (our_sq s) = s.
Proof.
  intros Hs. pose proof our_sq_facts as H. rewrite forallb_forall in H.
  specialize (H s). rewrite in_seq, andb_true_iff, Nat.eqb_eq in H.
  apply H. lia.
Qed.

Lemma our_sq_injective (s t : nat) : s < 64 -> t < 64 -> our_sq s = our_sq t -> s = t.
Proof.
  intros Hs Ht E. rewrite <- (our_sq_involutive s Hs), <- (our_sq_involutive t Ht), E.
  reflexivity.
Qed.

Section EncoderLemmas.
Context {F : Type} {SF : Scalar F}.

Lemma board_to_input_encode (board : Board) :
  train_from_lichess.NNUETrainer.board_to_input (F := F) board =
  encode_with (fun s => s) board SQUARES (np_zeros INPUT_SIZE).
Proof.
  unfold train_from_lichess.NNUETrainer.board_to_input, encode_with, piece_index.
  unfold train_from_lichess.NNUETrainer.piece_map, train_nnue.NNUENetwork.piece_map.
  reflexivity.
Qed.

Lemma board_to_features_encode (board : Board) :
  train_nnue.NNUENetwork.board_to_features (F := F) board =
  encode_with our_sq board SQUARES (np_zeros INPUT_SIZE).
Proof.
  unfold train_nnue.NNUENetwork.board_to_features, encode_with, piece_index, our_sq.
  reflexivity.
Qed.

Lemma nth_set_item (i j : nat) (x d : F) (v : list F) :
  i < length v ->
  nth j (set_item i x v) d = if Nat.eqb i j then x else nth j v d.
Proof.
  revert i j; induction v as [|y v IH]; intros i j Hi; [cbn [length] in Hi; lia|].
  destruct i as [|i], j as [|j]; cbn [set_item nth Nat.eqb]; try reflexivity.
  apply IH. cbn [length] in Hi. lia.
Qed.

Lemma encode_with_length (sq : nat -> nat) (board : Board) (squares : list nat)
      (v : list F) :
  length (encode_with sq board squares v) = length v.
Proof.
  revert v; induction squares as [|s l IH]; intros v; [reflexivity|].
  unfold encode_with in *. cbn [fold_left]. rewrite IH.
  destruct (piece_at board s); [apply set_item_length | reflexivity].
Qed.

(** Entry [i] after the loop: one if the loop set it, as before otherwise. *)
Lemma encode_with_nth (sq : nat -> nat) (board : Board) (squares : list nat) :
  (forall s, In s squares -> sq s < 64) ->
  forall (v : list F) (i : nat),
    length v = INPUT_SIZE ->
    nth i (encode_with sq board squares v) fzero =
    if existsb (Nat.eqb i) (feature_indices sq board squares)
    then fone else nth i v fzero.
Proof.
  induction squares as [|s l IH]; intros Hsq v i Hv; [reflexivity|].
  unfold encode_with in *. cbn [fold_left feature_indices flat_map].
  rewrite existsb_app.
  destruct (piece_at board s) as [piece|] eqn:Hp.
  - rewrite IH; [|intros t Ht; apply Hsq; right; exact Ht
                 |rewrite set_item_length; exact Hv].
    cbn [existsb]. rewrite orb_false_r.
    rewrite nth_set_item.
    + rewrite (Nat.eqb_sym i).
      destruct (Nat.eqb (piece_index piece * 64 + sq s) i); cbn [orb];
        [destruct (existsb _ _); reflexivity | reflexivity].
    + rewrite Hv, INPUT_SIZE_value.
      pose proof (piece_index_bound piece).
      pose proof (Hsq s (or_introl eq_refl)). lia.
  - cbn [existsb orb]. apply IH; [intros t Ht; apply Hsq; right; exact Ht | exact Hv].
Qed.

Lemma In_feature_indices (sq : nat -> nat) (board : Board) (squares : list nat)
      (i : nat) :
  In i (feature_indices sq board squares) <->
  exists s piece, In s squares /\ piece_at board s = Some piece /\
                  i = piece_index piece * 64 + sq s.
Proof.
  unfold feature_indices. rewrite in_flat_map. split.
  - intros (s & Hs & Hi). destruct (piece_at board s) as [piece|] eqn:Hp;
      [|destruct Hi].
    destruct Hi as [<- | []]. exists s, piece. auto.
  - intros (s & piece & Hs & Hp & ->). exists s. split; [exact Hs|].
    rewrite Hp. left. reflexivity.
Qed.

(** With an injective numbering of the squares below 64, feature
    [p * 64 + sq s] is set exactly when square [s] holds a piece of
    channel [p]. *)
Lemma marked_iff (sq : nat -> nat) (board : Board) (p s : nat) :
  (forall t, t < 64 -> sq t < 64) ->
  (forall t u, t < 64 -> u < 64 -> sq t = sq u -> t = u) ->
  s < 64 ->
  existsb (Nat.eqb (p * 64 + sq s)) (feature_indices sq board SQUARES) =
  match piece_at board s with
  | Some piece => Nat.eqb (piece_index piece) p
  | None => false
  end.
Proof.
  intros Hb Hinj Hs.
  apply eq_true_iff_eq. rewrite existsb_exists. split.
  - intros (i & Hi & E). apply Nat.eqb_eq in E. subst i.
    apply In_feature_indices in Hi. destruct Hi as (t & piece & Ht & Hp & E).
    unfold SQUARES in Ht. apply in_seq in Ht.
    pose proof (Hb s Hs). pose proof (Hb t ltac:(lia)).
    assert (sq t = sq s /\ piece_index piece = p) as (E1 & E2) by lia.
    apply Hinj in E1; [|lia|lia]. subst t. rewrite Hp. apply Nat.eqb_eq, E2.
  - intros H. destruct (piece_at board s) as [piece|] eqn:Hp; [|discriminate H].
    apply Nat.eqb_eq in H. exists (p * 64 + sq s). split; [|apply Nat.eqb_refl].
    apply In_feature_indices. exists s, piece. subst p.
    split; [unfold SQUARES; apply in_seq; lia | auto].
Qed.

Lemma encoder_entry (sq : nat -> nat) (board : Board) (p s : nat) :
  (forall t, t < 64 -> sq t < 64) ->
  (forall t u, t < 64 -> u < 64 -> sq t = sq u -> t = u) ->
  s < 64 ->
  nth (p * 64 + sq s) (encode_with sq board SQUARES (np_zeros (F := F) INPUT_SIZE)) fzero =
  match piece_at board s with
  | Some piece => if Nat.eqb (piece_index piece) p then fone else fzero
  | None => fzero
  end.
Proof.
  intros Hb Hinj Hs.
  rewrite encode_with_nth;
    [|intros t Ht; apply Hb; unfold SQUARES in Ht; apply in_seq in Ht; lia
     |apply repeat_length].
  rewrite (marked_iff sq board p s Hb Hinj Hs).
  unfold np_zeros. rewrite nth_repeat.
  destruct (piece_at board s); reflexivity.
Qed.

Lemma board_to_input_entry (board : Board) (p s : nat) :
  s < 64 ->
  nth (p * 64 + s) (train_from_lichess.NNUETrainer.board_to_input (F := F) board) fzero =
  match piece_at board s with
  | Some piece => if Nat.eqb (piece_index piece) p then fone else fzero
  | None => fzero
  end.
Proof.
  intros Hs. rewrite board_to_input_encode.
  apply (encoder_entry (fun t => t)); auto.
Qed.

Lemma board_to_features_entry (board : Board) (p s : nat) :
  s < 64 ->
  nth (p * 64 + our_sq s) (train_nnue.NNUENetwork.board_to_features (F := F) board) fzero =
  match piece_at board s with
  | Some piece => if Nat.eqb (piece_index piece) p then fone else fzero
  | None => fzero
  end.
Proof.
  intros Hs. rewrite board_to_features_encode.
  apply (encoder_entry our_sq); auto using our_sq_bound, our_sq_injective.
Qed.

(** ** The active indices *)

Lemma where_positive_from_map (h : nat -> F) (n k : nat) :
  where_positive_from k (map h (seq k n)) =
  filter (fun i => fltb fzero (h i)) (seq k n).
Proof.
  revert k; induction n as [|n IH]; intros k; [reflexivity|].
  cbn [seq map where_positive_from filter]. rewrite IH.
  destruct (fltb fzero (h k)); reflexivity.
Qed.

Lemma filter_eqb_seq (a n k : nat) :
  length (filter (Nat.eqb a) (seq k n)) =
  if (k <=? a) && (a <? k + n) then 1 else 0.
Proof.
  revert k; induction n as [|n IH]; intros k.
  - cbn [seq filter length].
    destruct (Nat.leb_spec k a), (Nat.ltb_spec a (k + 0)); cbn [andb];
      try reflexivity; lia.
  - cbn [seq filter]. destruct (Nat.eqb_spec a k) as [->|Hne]; cbn [length];
      rewrite IH.
    + destruct (Nat.leb_spec (S k) k), (Nat.ltb_spec k (S k + n)),
        (Nat.leb_spec k k), (Nat.ltb_spec k (k + S n)); cbn [andb];
        try reflexivity; lia.
    + destruct (Nat.leb_spec (S k) a), (Nat.ltb_spec a (S k + n)),
        (Nat.leb_spec k a), (Nat.ltb_spec a (k + S n)); cbn [andb];
        try reflexivity; lia.
Qed.

Lemma filter_orb_length {A} (p q : A -> bool) (l : list A) :
  (forall a, In a l -> p a = true -> q a = false) ->
  length (filter (fun a => p a || q a) l) =
  length (filter p l) + length (filter q l).
Proof.
  induction l as [|a l IH]; intros H; [reflexivity|].
  cbn [filter]. pose proof (H a (or_introl eq_refl)) as Ha.
  destruct (p a); cbn [orb length].
  - rewrite Ha by reflexivity. rewrite IH by (intros b Hb; apply H; right; exact Hb).
    lia.
  - destruct (q a); cbn [length];
      rewrite IH by (intros b Hb; apply H; right; exact Hb); lia.
Qed.

(** Distinct indices below [n] are found once each in [0 .. n-1]. *)
Lemma filter_members_length (idxs : list nat) (n : nat) :
  NoDup idxs -> (forall i, In i idxs -> i < n) ->
  length (filter (fun i => existsb (Nat.eqb i) idxs) (seq 0 n)) = length idxs.
Proof.
  induction 1 as [|a idxs Ha Hnd IH]; intros Hlt.
  - cbn [existsb]. induction (seq 0 n); [reflexivity | exact IHl].
  - cbn [existsb length].
    rewrite (filter_ext _ (fun i => Nat.eqb a i || existsb (Nat.eqb i) idxs))
      by (intros i; rewrite (Nat.eqb_sym i a); reflexivity).
    rewrite filter_orb_length.
    + rewrite filter_eqb_seq, IH by (intros i Hi; apply Hlt; right; exact Hi).
      pose proof (Hlt a (or_introl eq_refl)).
      destruct (Nat.leb_spec 0 a), (Nat.ltb_spec a (0 + n)); cbn [andb]; lia.
    + intros i _ E. apply Nat.eqb_eq in E. subst i.
      destruct (existsb (Nat.eqb a) idxs) eqn:Hex; [|reflexivity].
      apply existsb_exists in Hex. destruct Hex as (j & Hj & E).
      apply Nat.eqb_eq in E. subst j. contradiction.
Qed.

Lemma feature_indices_length (sq : nat -> nat) (board : Board) (squares : list nat) :
  length (feature_indices sq board squares) = length (filter (occupied board) squares).
Proof.
  induction squares as [|s l IH]; [reflexivity|].
  unfold feature_indices, occupied in *. cbn [flat_map filter].
  destruct (piece_at board s); cbn [app length]; rewrite IH; reflexivity.
Qed.

Lemma feature_indices_NoDup (sq : nat -> nat) (board : Board) (squares : list nat) :
  (forall t, t < 64 -> sq t < 64) ->
  (forall t u, t < 64 -> u < 64 -> sq t = sq u -> t = u) ->
  NoDup squares -> (forall s, In s squares -> s < 64) ->
  NoDup (feature_indices sq board squares).
Proof.
  intros Hb Hinj. induction 1 as [|s l Hs Hnd IH]; intros Hlt; [constructor|].
  unfold feature_indices in *. cbn [flat_map].
  destruct (piece_at board s) as [piece|] eqn:Hp; cbn [app];
    [|apply IH; intros t Ht; apply Hlt; right; exact Ht].
  constructor; [|apply IH; intros t Ht; apply Hlt; right; exact Ht].
  intros Hin. apply (In_feature_indices sq board l) in Hin.
  destruct Hin as (t & q & Ht & Hq & E).
  pose proof (Hlt s (or_introl eq_refl)) as Hs64.
  pose proof (Hlt t (or_intror Ht)) as Ht64.
  pose proof (Hb s Hs64). pose proof (Hb t Ht64).
  assert (sq s = sq t) as E1 by lia.
  apply Hinj in E1; [|assumption|assumption]. subst t. contradiction.
Qed.

Lemma encoder_active (sq : nat -> nat) (board : Board) :
  (forall t, t < 64 -> sq t < 64) ->
  (forall t u, t < 64 -> u < 64 -> sq t = sq u -> t = u) ->
  fltb (F := F) fzero fone = true ->
  fltb (F := F) fzero fzero = false ->
  where_positive (encode_with sq board SQUARES (np_zeros (F := F) INPUT_SIZE)) =
  filter (fun i => existsb (Nat.eqb i) (feature_indices sq board SQUARES))
         (seq 0 INPUT_SIZE) /\
  length (where_positive (encode_with sq board SQUARES (np_zeros (F := F) INPUT_SIZE))) =
  length (filter (occupied board) SQUARES).
Proof.
  intros Hb Hinj H01 H00.
  assert (Hsq : forall s, In s SQUARES -> sq s < 64).
  { intros s Hs. unfold SQUARES in Hs. apply in_seq in Hs. apply Hb. lia. }
  assert (Hvec : encode_with sq board SQUARES (np_zeros (F := F) INPUT_SIZE) =
                 map (fun i => if existsb (Nat.eqb i) (feature_indices sq board SQUARES)
                               then fone else fzero) (seq 0 INPUT_SIZE)).
  { apply (nth_ext _ _ fzero fzero).
    - rewrite encode_with_length, length_map, length_seq. apply repeat_length.
    - intros i Hi. rewrite encode_with_length in Hi.
      unfold np_zeros in Hi. rewrite repeat_length in Hi.
      rewrite (encode_with_nth sq board SQUARES Hsq) by apply repeat_length.
      unfold np_zeros. rewrite nth_repeat.
      rewrite (nth_indep _ fzero
                 (if existsb (Nat.eqb 0) (feature_indices sq board SQUARES)
                  then fone else fzero))
        by (rewrite length_map, length_seq; exact Hi).
      rewrite (map_nth (fun i => if existsb (Nat.eqb i) (feature_indices sq board SQUARES)
                                 then fone else fzero) (seq 0 INPUT_SIZE) 0 i).
      rewrite seq_nth by exact Hi. reflexivity. }
  assert (Hact : where_positive (encode_with sq board SQUARES (np_zeros (F := F) INPUT_SIZE)) =
                 filter (fun i => existsb (Nat.eqb i) (feature_indices sq board SQUARES))
                        (seq 0 INPUT_SIZE)).
  { rewrite Hvec. unfold where_positive. rewrite where_positive_from_map.
    apply filter_ext. intros i.
    destruct (existsb (Nat.eqb i) (feature_indices sq board SQUARES)); assumption. }
  split; [exact Hact|].
  rewrite Hact, filter_members_length.
  - apply feature_indices_length.
  - apply feature_indices_NoDup; auto.
    + unfold SQUARES. apply seq_NoDup.
    + intros s Hs. unfold SQUARES in Hs. apply in_seq in Hs. lia.
  - intros i Hi. apply In_feature_indices in Hi.
    destruct Hi as (s & piece & Hs & _ & ->).
    rewrite INPUT_SIZE_value. pose proof (piece_index_bound piece).
    pose proof (Hsq s Hs). lia.
Qed.

End EncoderLemmas.

(** X6.  What the encoders mark.  For every board, square [s] below 64 and
    channel [p], entry [p * 64 + s] of [board_to_input], and entry
    [p * 64 + our_sq s] of [board_to_features], is 1 when square [s] holds a
    piece of channel [p] (piece type 0..5, plus 6 for black) and 0 otherwise:
    the board can be read back from the vector, entry by entry. *)
Theorem X6_encoders_mark_the_pieces
        (F : Type) (SF : Scalar F) (board : Board) (p s : nat) :
  s < 64 ->
  nth (p * 64 + s) (train_from_lichess.NNUETrainer.board_to_input (F := F) board) fzero =
  match piece_at board s with
  | Some piece => if Nat.eqb (piece_index piece) p then fone else fzero
  | None => fzero
  end /\
  nth (p * 64 + our_sq s) (train_nnue.NNUENetwork.board_to_features (F := F) board) fzero =
  match piece_at board s with
  | Some piece => if Nat.eqb (piece_index piece) p then fone else fzero
  | None => fzero
  end.
Proof.
  intros Hs. split; [apply board_to_input_entry | apply board_to_features_entry];
    exact Hs.
Qed.

Lemma X6_witness :
  4 < 64 /\
  nth (5 * 64 + 4)
      (train_from_lichess.NNUETrainer.board_to_input (F := f32) kings_board) fzero =
  match piece_at kings_board 4 with
  | Some piece => if Nat.eqb (piece_index piece) 5 then fone else fzero
  | None => fzero
  end /\
  nth (5 * 64 + our_sq 4)
      (train_nnue.NNUENetwork.board_to_features (F := f32) kings_board) fzero =
  match piece_at kings_board 4 with
  | Some piece => if Nat.eqb (piece_index piece) 5 then fone else fzero
  | None => fzero
  end.
Proof.
  assert (H : 4 < 64) by lia.
  split; [exact H|].
  exact (X6_encoders_mark_the_pieces f32 Scalar_f32 kings_board 5 4 H).
Defined.

(** X7.  The two encoders differ by a vertical flip of the board, and by
    nothing else: for every board, channel [p] and square [s] below 64, entry
    [p * 64 + s] of [board_to_features] is entry [p * 64 + our_sq s] of
    [board_to_input], where [our_sq s = (7 - rank) * 8 + file] is the square
    mirrored across the middle of the board. *)
Theorem X7_encoders_differ_by_a_rank_flip
        (F : Type) (SF : Scalar F) (board : Board) (p s : nat) :
  s < 64 ->
  nth (p * 64 + s) (train_nnue.NNUENetwork.board_to_features (F := F) board) fzero =
  nth (p * 64 + our_sq s)
      (train_from_lichess.NNUETrainer.board_to_input (F := F) board) fzero.
Proof.
  intros Hs.
  rewrite <- (our_sq_involutive s Hs) at 1.
  rewrite (board_to_features_entry board p (our_sq s) (our_sq_bound s Hs)).
  rewrite (board_to_input_entry board p (our_sq s) (our_sq_bound s Hs)).
  reflexivity.
Qed.

Lemma X7_witness :
  60 < 64 /\
  nth (5 * 64 + 60)
      (train_nnue.NNUENetwork.board_to_features (F := f32) kings_board) fzero =
  nth (5 * 64 + our_sq 60)
      (train_from_lichess.NNUETrainer.board_to_input (F := f32) kings_board) fzero.
Proof.
  assert (H : 60 < 64) by lia.
  split; [exact H|].
  exact (X7_encoders_differ_by_a_rank_flip f32 Scalar_f32 kings_board 5 60 H).
Defined.

(** X8.  The number of active features is the number of pieces.  As soon as
    [0 < 1] and not [0 < 0] in the arithmetic (as in float32), the indices
    [np.where(features > 0)] finds in the vector of either encoder are as many
    as the occupied squares of the board, whatever the board: at most 64, and
    none for the empty board. *)
Theorem X8_as_many_active_features_as_pieces
        (F : Type) (SF : Scalar F) (board : Board) :
  fltb (F := F) fzero fone = true ->
  fltb (F := F) fzero fzero = false ->
  length (where_positive
            (train_from_lichess.NNUETrainer.board_to_input (F := F) board)) =
  length (filter (occupied board) SQUARES) /\
  length (where_positive
            (train_nnue.NNUENetwork.board_to_features (F := F) board)) =
  length (filter (occupied board) SQUARES) /\
  length (filter (occupied board) SQUARES) <= 64.
Proof.
  intros H01 H00. split; [|split].
  - rewrite board_to_input_encode.
    apply (encoder_active (fun t => t)); auto.
  - rewrite board_to_features_encode.
    apply (encoder_active our_sq); auto using our_sq_bound, our_sq_injective.
  - pose proof (filter_length_le (occupied board) SQUARES) as H.
    unfold SQUARES in H at 2. rewrite length_seq in H. exact H.
Qed.

Lemma X8_witness :
  fltb (F := f32) fzero fone = true /\
  fltb (F := f32) fzero fzero = false /\
  length (where_positive
            (train_from_lichess.NNUETrainer.board_to_input (F := f32) kings_board)) =
  length (filter (occupied kings_board) SQUARES) /\
  length (where_positive
            (train_nnue.NNUENetwork.board_to_features (F := f32) kings_board)) =
  length (filter (occupied kings_board) SQUARES) /\
  length (filter (occupied kings_board) SQUARES) <= 64.
Proof.
  split; [reflexivity|]. split; [reflexivity|].
  apply (X8_as_many_active_features_as_pieces f32 Scalar_f32 kings_board);
    reflexivity.
Defined.

(** * The activation *)

Section Clip.
Context {F : Type} {SF : Scalar F}.

(** What the arithmetic has to say about the two bounds. *)
Hypothesis nan_zero : fisnan (F := F) fzero = false.
Hypothesis nan_one : fisnan (F := F) fone = false.
Hypothesis lt_zero_zero : fltb (F := F) fzero fzero = false.
Hypothesis lt_one_one : fltb (F := F) fone fone = false.
Hypothesis lt_one_zero : fltb (F := F) fone fzero = false.

Lemma clip01_nan (x : F) : fisnan x = true -> clip01 x = x.
Proof. intros H. unfold clip01. rewrite H. reflexivity. Qed.

Lemma clip01_range (x : F) :
  fisnan x = false ->
  fltb (clip01 x) fzero = false /\ fltb fone (clip01 x) = false /\
  fisnan (clip01 x) = false.
Proof.
  intros H. unfold clip01. rewrite H.
  destruct (fltb x fzero) eqn:H0.
  - rewrite lt_one_zero. auto.
  - destruct (fltb fone x) eqn:H1; auto.
Qed.

Lemma clip01_idempotent (x : F) : clip01 (clip01 x) = clip01 x.
Proof.
  destruct (fisnan x) eqn:H; [rewrite !(clip01_nan x H); reflexivity|].
  destruct (clip01_range x H) as (H0 & H1 & Hn).
  unfold clip01 at 1. rewrite Hn, H0, H1. reflexivity.
Qed.

Lemma crelu_range (v : list F) :
  Forall (fun x => fisnan x = false) v ->
  Forall (fun y => fltb y fzero = false /\ fltb fone y = false /\ fisnan y = false)
         (train_from_lichess.NNUETrainer.crelu v).
Proof.
  unfold train_from_lichess.NNUETrainer.crelu, np_clip01.
  induction 1 as [|x v Hx _ IH]; cbn [map]; constructor;
    [apply clip01_range, Hx | exact IH].
Qed.

Lemma crelu_idempotent (v : list F) :
  train_from_lichess.NNUETrainer.crelu (train_from_lichess.NNUETrainer.crelu v) =
  train_from_lichess.NNUETrainer.crelu v.
Proof.
  unfold train_from_lichess.NNUETrainer.crelu, np_clip01. rewrite map_map.
  apply map_ext. intros x. apply clip01_idempotent.
Qed.

End Clip.

(** X9.  The clipped activation.  Whenever zero and one are numbers (not
    NaN) with neither [0 < 0], [1 < 1] nor [1 < 0], as in float32 and in exact
    arithmetic: [crelu] maps a vector without NaN to a vector of the same
    length without NaN in which no entry is below 0 or above 1, and applying
    it twice is applying it once, on every vector (a NaN entry stays a
    NaN). *)
Theorem X9_crelu_clips_into_the_unit_interval
        (F : Type) (SF : Scalar F) (v : list F) :
  fisnan (F := F) fzero = false ->
  fisnan (F := F) fone = false ->
  fltb (F := F) fzero fzero = false ->
  fltb (F := F) fone fone = false ->
  fltb (F := F) fone fzero = false ->
  (Forall (fun x => fisnan x = false) v ->
   Forall (fun y => fltb y fzero = false /\ fltb fone y = false /\ fisnan y = false)
          (train_from_lichess.NNUETrainer.crelu v)) /\
  length (train_from_lichess.NNUETrainer.crelu v) = length v /\
  train_from_lichess.NNUETrainer.crelu (train_from_lichess.NNUETrainer.crelu v) =
  train_from_lichess.NNUETrainer.crelu v.
Proof.
  intros N0 N1 L00 L11 L10. split; [|split].
  - apply crelu_range; assumption.
  - apply length_map.
  - apply crelu_idempotent; assumption.
Qed.

Lemma X9_witness :
  fisnan (F := f32) fzero = false /\
  fisnan (F := f32) fone = false /\
  fltb (F := f32) fzero fzero = false /\
  fltb (F := f32) fone fone = false /\
  fltb (F := f32) fone fzero = false /\
  (Forall (fun x => fisnan x = false) [of_int 2; of_int (-3); half32] ->
   Forall (fun y => fltb y fzero = false /\ fltb fone y = false /\ fisnan y = false)
          (train_from_lichess.NNUETrainer.crelu [of_int 2; of_int (-3); half32])) /\
  length (train_from_lichess.NNUETrainer.crelu [of_int 2; of_int (-3); half32]) =
  length [of_int 2; of_int (-3); half32] /\
  train_from_lichess.NNUETrainer.crelu
    (train_from_lichess.NNUETrainer.crelu [of_int 2; of_int (-3); half32]) =
  train_from_lichess.NNUETrainer.crelu [of_int 2; of_int (-3); half32].
Proof.
  repeat (split; [reflexivity|]).
  apply (X9_crelu_clips_into_the_unit_interval f32 Scalar_f32); reflexivity.
Defined.

(** * Shapes through an update *)

Section Shapes.
Context {F : Type} {SF : Scalar F}.

Lemma msub_shape (r c : nat) (a b : list (list F)) :
  mat_shape r c a -> mat_shape r c b -> mat_shape r c (msub a b).
Proof.
  intros (La & Wa) (Lb & Wb). subst r. revert b Lb Wb.
  induction Wa as [|row a Hrow Wa IH]; intros [|q b] Lb Wb;
    try discriminate Lb; [split; [reflexivity | constructor]|].
  inversion Wb as [|q' b' Hq Wb']; subst q' b'.
  destruct (IH b ltac:(cbn [length] in Lb; lia) Wb') as (L & W).
  split; cbn [msub length]; [lia|]. constructor; [|exact W].
  unfold vsub. rewrite zip_with_length. lia.
Qed.

Lemma madd_shape (r c : nat) (a b : list (list F)) :
  mat_shape r c a -> mat_shape r c b -> mat_shape r c (madd a b).
Proof.
  intros (La & Wa) (Lb & Wb). subst r. revert b Lb Wb.
  induction Wa as [|row a Hrow Wa IH]; intros [|q b] Lb Wb;
    try discriminate Lb; [split; [reflexivity | constructor]|].
  inversion Wb as [|q' b' Hq Wb']; subst q' b'.
  destruct (IH b ltac:(cbn [length] in Lb; lia) Wb') as (L & W).
  split; cbn [madd length]; [lia|]. constructor; [|exact W].
  unfold vadd. rewrite zip_with_length. lia.
Qed.

Lemma msmul_shape (r c : nat) (s : F) (m : list (list F)) :
  mat_shape r c m -> mat_shape r c (msmul s m).
Proof.
  intros (L & W). split; unfold msmul; [rewrite length_map; exact L|].
  apply Forall_map. revert W. apply Forall_impl. intros row Hrow.
  rewrite smul_length. exact Hrow.
Qed.

Lemma np_outer_mat_shape (x d : list F) :
  mat_shape (length x) (length d) (np_outer x d).
Proof.
  split; unfold np_outer; [apply length_map|].
  apply Forall_map, Forall_forall. intros a _. apply length_map.
Qed.

Lemma zeros_like2_shape (r c : nat) (m : list (list F)) :
  mat_shape r c m -> mat_shape r c (train_from_lichess.NNUETrainer.zeros_like2 m).
Proof.
  intros (L & W). unfold train_from_lichess.NNUETrainer.zeros_like2.
  split; [rewrite length_map; exact L|].
  apply Forall_map. revert W. apply Forall_impl. intros row Hrow.
  unfold train_from_lichess.NNUETrainer.zeros_like. rewrite length_map. exact Hrow.
Qed.

Lemma sub_rows_at_shape (r c : nat) (idx : list nat) (m : list (list F)) (d : list F) :
  mat_shape r c m -> length d = c -> mat_shape r c (sub_rows_at idx m d).
Proof.
  intros (L & W) Hd. unfold sub_rows_at. split.
  - rewrite length_map, length_combine, length_seq. lia.
  - apply Forall_map, Forall_forall. intros [i row] Hin.
    apply in_combine_r in Hin. rewrite Forall_forall in W.
    destruct (existsb (Nat.eqb i) idx); [|apply W, Hin].
    unfold vsub. rewrite zip_with_length, (W row Hin). lia.
Qed.

Lemma where_positive_from_bound (x : list F) :
  forall s i, In i (where_positive_from s x) -> i < s + length x.
Proof.
  induction x as [|v x IH]; intros s i Hi; [destruct Hi|].
  cbn [where_positive_from] in Hi. cbn [length].
  destruct (fltb fzero v); [destruct Hi as [<- | Hi]; [lia|]|];
    apply IH in Hi; lia.
Qed.

Lemma add_rows_length (c : nat) (w : list (list F)) (idx : list nat) :
  Forall (fun row => length row = c) w ->
  (forall i, In i idx -> i < length w) ->
  forall h, length h = c ->
  length (train_nnue.NNUENetwork.add_rows w idx h) = c.
Proof.
  intros W. unfold train_nnue.NNUENetwork.add_rows.
  induction idx as [|i idx IH]; intros Hidx h Hh; [exact Hh|].
  cbn [fold_left]. apply IH; [intros j Hj; apply Hidx; right; exact Hj|].
  unfold vadd. rewrite zip_with_length, Hh.
  rewrite Forall_forall in W.
  rewrite (W (nth i w [])) by (apply nth_In, Hidx; left; reflexivity). lia.
Qed.

Lemma nonempty_of_length {A} (n : nat) (l : list A) : 0 < n -> length l = n -> l <> [].
Proof. intros Hn Hl ->. cbn [length] in Hl. lia. Qed.

(** The lengths of what [forward_with_cache] caches. *)
Lemma cache_lengths (self : Network F) (features : list F) :
  shape_ok self ->
  length features = INPUT_SIZE ->
  let cache := snd (train_nnue.NNUENetwork.forward_with_cache self features) in
  length (train_nnue.NNUENetwork.c_hidden1_pre cache) = HIDDEN1_SIZE /\
  length (train_nnue.NNUENetwork.c_hidden1 cache) = HIDDEN1_SIZE /\
  length (train_nnue.NNUENetwork.c_hidden2_pre cache) = HIDDEN2_SIZE /\
  length (train_nnue.NNUENetwork.c_hidden2 cache) = HIDDEN2_SIZE.
Proof.
  intros (L1 & W1 & L2 & L3 & W3 & L4 & L5) Hlen.
  unfold train_nnue.NNUENetwork.forward_with_cache.
  cbn [snd train_nnue.NNUENetwork.c_hidden1_pre train_nnue.NNUENetwork.c_hidden1
       train_nnue.NNUENetwork.c_hidden2_pre train_nnue.NNUENetwork.c_hidden2].
  assert (H1 : length (train_nnue.NNUENetwork.add_rows
                         (nd_data (input_weights self)) (where_positive features)
                         (nd_data (hidden1_bias self))) = HIDDEN1_SIZE).
  { apply add_rows_length; [exact W1 | | exact L2].
    intros i Hi. apply where_positive_from_bound in Hi. lia. }
  assert (H2 : length (vadd (nd_data (hidden2_bias self))
                 (np_vecmat
                    (np_clip01 (train_nnue.NNUENetwork.add_rows
                                  (nd_data (input_weights self))
                                  (where_positive features)
                                  (nd_data (hidden1_bias self))))
                    (nd_data (hidden1_weights self)))) = HIDDEN2_SIZE).
  { unfold vadd. rewrite zip_with_length, L4.
    rewrite (np_vecmat_length HIDDEN2_SIZE);
      [lia | exact (nonempty_of_length _ _ HIDDEN1_SIZE_pos L3) | exact W3]. }
  unfold np_clip01. rewrite !length_map. auto.
Qed.

(** [backward] on writeable parameters of the right shapes. *)
Lemma bw_updated_shape (self : Network F) (features : list F) (target lr : F) :
  shape_ok self ->
  all_writeable self ->
  length features = INPUT_SIZE ->
  shape_ok (bw_updated (snd (train_nnue.NNUENetwork.forward_with_cache self features))
                       target lr self) /\
  all_writeable (bw_updated (snd (train_nnue.NNUENetwork.forward_with_cache self features))
                            target lr self).
Proof.
  intros Hshape Hw Hlen.
  destruct (cache_lengths self features Hshape Hlen) as (C1 & C2 & C3 & C4).
  destruct Hshape as (L1 & W1 & L2 & L3 & W3 & L4 & L5).
  set (cache := snd (train_nnue.NNUENetwork.forward_with_cache self features)) in *.
  assert (D2 : length (bw_d_hidden2_pre cache target self) = HIDDEN2_SIZE).
  { unfold bw_d_hidden2_pre, vmul, open_unit_mask.
    rewrite zip_with_length, smul_length, length_map, L5, C3. lia. }
  assert (D1 : length (bw_d_hidden1_pre cache target self) = HIDDEN1_SIZE).
  { unfold bw_d_hidden1_pre, vmul, open_unit_mask, np_vecmat_T.
    rewrite zip_with_length, !length_map, L3, C1. lia. }
  split.
  - unfold shape_ok, bw_updated.
    cbn [input_weights hidden1_bias hidden1_weights hidden2_bias hidden2_weights].
    assert (S1 : mat_shape INPUT_SIZE HIDDEN1_SIZE
                   (nd_data (if Nat.ltb 0 (length (train_nnue.NNUENetwork.c_active_indices cache))
                             then fresh_array
                                    (sub_rows_at (train_nnue.NNUENetwork.c_active_indices cache)
                                       (nd_data (input_weights self))
                                       (smul lr (bw_d_hidden1_pre cache target self)))
                             else input_weights self))).
    { destruct (Nat.ltb 0 (length (train_nnue.NNUENetwork.c_active_indices cache)));
        [|split; assumption].
      cbn [fresh_array nd_data]. apply sub_rows_at_shape; [split; assumption|].
      rewrite smul_length. exact D1. }
    assert (S3 : mat_shape HIDDEN1_SIZE HIDDEN2_SIZE
                   (msub (nd_data (hidden1_weights self))
                         (msmul lr (np_outer (train_nnue.NNUENetwork.c_hidden1 cache)
                                             (bw_d_hidden2_pre cache target self))))).
    { apply msub_shape; [split; assumption|]. apply msmul_shape.
      rewrite <- C2 at 1. rewrite <- D2 at 1. apply np_outer_mat_shape. }
    destruct S1 as (S1a & S1b). destruct S3 as (S3a & S3b).
    cbn [fresh_array nd_data].
    repeat split; try assumption;
      unfold vsub; rewrite zip_with_length, ?smul_length; lia.
  - destruct Hw as (Hw1 & Hw2 & Hw3 & Hw4 & Hw5).
    unfold all_writeable, bw_updated.
    cbn [input_weights hidden1_bias hidden1_weights hidden2_bias hidden2_weights
         fresh_array nd_writeable].
    repeat split.
    destruct (Nat.ltb 0 (length (train_nnue.NNUENetwork.c_active_indices cache)));
      [reflexivity | exact Hw1].
Qed.

End Shapes.

(** X10.  One training step of [train_nnue] can always be followed by
    another: on writeable parameters of the network's shapes and a feature
    vector of [INPUT_SIZE] entries, [forward_with_cache] followed by [backward]
    returns a loss without raising, and leaves parameters that are again
    writeable and of the network's shapes, whatever the values. *)
Theorem X10_backward_keeps_shapes_and_flags
        (F : Type) (SF : Scalar F) (self : Network F) (features : list F)
        (target lr : F) :
  shape_ok self ->
  all_writeable self ->
  length features = INPUT_SIZE ->
  exists net' loss,
    train_nnue.NNUENetwork.backward
      (snd (train_nnue.NNUENetwork.forward_with_cache self features))
      target lr self = (net', Ok loss) /\
    shape_ok net' /\ all_writeable net'.
Proof.
  intros Hshape Hw Hlen.
  rewrite (backward_writeable _ _ _ self Hw).
  eexists. eexists. split; [reflexivity|].
  apply bw_updated_shape; assumption.
Qed.

Lemma X10_witness :
  shape_ok (constant_network half32) /\
  all_writeable (constant_network half32) /\
  length (train_nnue.NNUENetwork.board_to_features (F := f32) kings_board) = INPUT_SIZE /\
  exists net' loss,
    train_nnue.NNUENetwork.backward
      (snd (train_nnue.NNUENetwork.forward_with_cache
              (constant_network half32)
              (train_nnue.NNUENetwork.board_to_features kings_board)))
      target_100 lr_small (constant_network half32) = (net', Ok loss) /\
    shape_ok net' /\ all_writeable net'.
Proof.
  assert (H1 : shape_ok (constant_network half32)) by apply constant_network_shape.
  assert (H2 : all_writeable (constant_network half32)) by (repeat split).
  assert (H3 : length (train_nnue.NNUENetwork.board_to_features (F := f32) kings_board)
               = INPUT_SIZE) by apply board_to_features_vector.
  split; [exact H1|]. split; [exact H2|]. split; [exact H3|].
  exact (X10_backward_keeps_shapes_and_flags f32 Scalar_f32 _ _ target_100 lr_small
           H1 H2 H3).
Defined.

(** ** The batch update *)

Section BatchShapes.
Context {F : Type} {SF : Scalar F}.

Lemma train_batch_run (positions : list (list F)) (targets : list F)
      (learning_rate : F) (self : Network F) :
  train_from_lichess.NNUETrainer.train_batch positions targets learning_rate self =
  (tb_updated self positions targets learning_rate,
   match length positions with
   | O => Raise ZeroDivisionError
   | S _ => Ok (fdiv (train_from_lichess.NNUETrainer.total_loss
                        (tb_acc self positions targets))
                     (of_int (Z.of_nat (length positions))))
   end).
Proof.
  destruct self as [[w1 f1] [b1 f2] [w2 f3] [b2 f4] [w3 f5] ob].
  unfold train_from_lichess.NNUETrainer.train_batch, tb_updated, tb_acc, tb_acc0.
  unfold bind, get, assign, lift, ret.
  cbn [fst input_weights hidden1_bias hidden1_weights hidden2_bias hidden2_weights
       output_bias set_output_bias set_hidden2_weights set_hidden2_bias
       set_hidden1_weights set_hidden1_bias set_input_weights fresh_array nd_data].
  destruct (length positions); reflexivity.
Qed.

Lemma zeros_like_length (v : list F) :
  length (train_from_lichess.NNUETrainer.zeros_like v) = length v.
Proof. apply length_map. Qed.

Lemma accumulate_shape (self : Network F) (batch_size : nat)
      (acc : train_from_lichess.NNUETrainer.Accumulators) (sample : list F * F) :
  shape_ok self ->
  length (fst sample) = INPUT_SIZE ->
  acc_shape acc ->
  acc_shape (train_from_lichess.NNUETrainer.accumulate self batch_size acc sample).
Proof.
  intros (L1 & W1 & L2 & L3 & W3 & L4 & L5) Hx (A1 & A2 & A3 & A4 & A5).
  destruct sample as [x t]. cbn [fst] in Hx.
  assert (Z1 : length (vadd (np_vecmat x (nd_data (input_weights self)))
                            (nd_data (hidden1_bias self))) = HIDDEN1_SIZE).
  { unfold vadd. rewrite zip_with_length, L2.
    rewrite (np_vecmat_length HIDDEN1_SIZE);
      [lia | exact (nonempty_of_length _ _ INPUT_SIZE_pos L1) | exact W1]. }
  assert (Z2 : length
            (vadd (np_vecmat
                     (train_from_lichess.NNUETrainer.crelu
                        (vadd (np_vecmat x (nd_data (input_weights self)))
                              (nd_data (hidden1_bias self))))
                     (nd_data (hidden1_weights self)))
                  (nd_data (hidden2_bias self))) = HIDDEN2_SIZE).
  { unfold vadd at 1. rewrite zip_with_length, L4.
    rewrite (np_vecmat_length HIDDEN2_SIZE);
      [lia | exact (nonempty_of_length _ _ HIDDEN1_SIZE_pos L3) | exact W3]. }
  unfold acc_shape, train_from_lichess.NNUETrainer.accumulate.
  cbn [train_from_lichess.NNUETrainer.grad_input_weights
       train_from_lichess.NNUETrainer.grad_hidden1_bias
       train_from_lichess.NNUETrainer.grad_hidden1_weights
       train_from_lichess.NNUETrainer.grad_hidden2_bias
       train_from_lichess.NNUETrainer.grad_hidden2_weights].
  set (z1 := vadd (np_vecmat x (nd_data (input_weights self)))
                  (nd_data (hidden1_bias self))) in *.
  set (z2 := vadd (np_vecmat (train_from_lichess.NNUETrainer.crelu z1)
                             (nd_data (hidden1_weights self)))
                  (nd_data (hidden2_bias self))) in *.
  set (d_output := fdiv _ _).
  assert (D2 : length (vmul (smul d_output (nd_data (hidden2_weights self)))
                            (train_from_lichess.NNUETrainer.crelu_derivative z2))
               = HIDDEN2_SIZE).
  { unfold vmul, train_from_lichess.NNUETrainer.crelu_derivative, open_unit_mask.
    rewrite zip_with_length, smul_length, length_map, L5, Z2. lia. }
  set (d_hidden2 := vmul (smul d_output (nd_data (hidden2_weights self)))
                         (train_from_lichess.NNUETrainer.crelu_derivative z2)) in *.
  assert (D1 : length (vmul (np_vecmat_T d_hidden2 (nd_data (hidden1_weights self)))
                            (train_from_lichess.NNUETrainer.crelu_derivative z1))
               = HIDDEN1_SIZE).
  { unfold vmul, train_from_lichess.NNUETrainer.crelu_derivative, open_unit_mask,
      np_vecmat_T.
    rewrite zip_with_length, !length_map, L3, Z1. lia. }
  set (d_hidden1 := vmul (np_vecmat_T d_hidden2 (nd_data (hidden1_weights self)))
                         (train_from_lichess.NNUETrainer.crelu_derivative z1)) in *.
  assert (H1 : length (train_from_lichess.NNUETrainer.crelu z1) = HIDDEN1_SIZE).
  { unfold train_from_lichess.NNUETrainer.crelu, np_clip01.
    rewrite length_map. exact Z1. }
  assert (H2 : length (train_from_lichess.NNUETrainer.crelu z2) = HIDDEN2_SIZE).
  { unfold train_from_lichess.NNUETrainer.crelu, np_clip01.
    rewrite length_map. exact Z2. }
  split; [|split; [|split; [|split]]].
  - apply madd_shape; [exact A1|].
    rewrite <- Hx at 1. rewrite <- D1 at 1. apply np_outer_mat_shape.
  - unfold vadd. rewrite zip_with_length, A2, D1. lia.
  - apply madd_shape; [exact A3|].
    rewrite <- H1 at 1. rewrite <- D2 at 1. apply np_outer_mat_shape.
  - unfold vadd. rewrite zip_with_length, A4, D2. lia.
  - unfold vadd. rewrite zip_with_length, A5, smul_length, H2. lia.
Qed.

Lemma tb_acc_shape (self : Network F) (positions : list (list F)) (targets : list F) :
  shape_ok self ->
  (forall x, In x positions -> length x = INPUT_SIZE) ->
  acc_shape (tb_acc self positions targets).
Proof.
  intros Hshape Hx. unfold tb_acc.
  assert (H0 : acc_shape (tb_acc0 self)).
  { destruct Hshape as (L1 & W1 & L2 & L3 & W3 & L4 & L5).
    unfold acc_shape, tb_acc0.
    cbn [train_from_lichess.NNUETrainer.grad_input_weights
         train_from_lichess.NNUETrainer.grad_hidden1_bias
         train_from_lichess.NNUETrainer.grad_hidden1_weights
         train_from_lichess.NNUETrainer.grad_hidden2_bias
         train_from_lichess.NNUETrainer.grad_hidden2_weights].
    rewrite !zeros_like_length.
    split; [apply zeros_like2_shape; split; assumption|].
    split; [exact L2|].
    split; [apply zeros_like2_shape; split; assumption|].
    split; assumption. }
  assert (Hs : forall s, In s (combine positions targets) -> length (fst s) = INPUT_SIZE).
  { intros [x t] Hin. apply Hx. exact (in_combine_l _ _ _ _ Hin). }
  revert Hs H0. generalize (tb_acc0 self). generalize (combine positions targets).
  intros l. induction l as [|s l IH]; intros acc Hs H0; [exact H0|].
  cbn [fold_left]. apply IH; [intros s' Hs'; apply Hs; right; exact Hs'|].
  apply accumulate_shape; [exact Hshape | apply Hs; left; reflexivity | exact H0].
Qed.

Lemma tb_updated_shape (self : Network F) (positions : list (list F))
      (targets : list F) (learning_rate : F) :
  shape_ok self ->
  (forall x, In x positions -> length x = INPUT_SIZE) ->
  shape_ok (tb_updated self positions targets learning_rate) /\
  all_writeable (tb_updated self positions targets learning_rate).
Proof.
  intros Hshape Hx.
  destruct (tb_acc_shape self positions targets Hshape Hx) as (A1 & A2 & A3 & A4 & A5).
  destruct Hshape as (L1 & W1 & L2 & L3 & W3 & L4 & L5).
  split; [|repeat split].
  unfold shape_ok, tb_updated.
  cbn [input_weights hidden1_bias hidden1_weights hidden2_bias hidden2_weights
       fresh_array nd_data].
  destruct (msub_shape INPUT_SIZE HIDDEN1_SIZE (nd_data (input_weights self))
              (msmul learning_rate
                 (train_from_lichess.NNUETrainer.grad_input_weights
                    (tb_acc self positions targets)))) as (S1a & S1b);
    [split; assumption | apply msmul_shape, A1 |].
  destruct (msub_shape HIDDEN1_SIZE HIDDEN2_SIZE (nd_data (hidden1_weights self))
              (msmul learning_rate
                 (train_from_lichess.NNUETrainer.grad_hidden1_weights
                    (tb_acc self positions targets)))) as (S3a & S3b);
    [split; assumption | apply msmul_shape, A3 |].
  repeat split; try assumption;
    unfold vsub; rewrite zip_with_length, smul_length; lia.
Qed.

End BatchShapes.

(** X11.  [train_batch] never raises on a batch that is not empty, and it
    does not need writeable parameters: on parameters of the network's shapes
    (fresh or just loaded, so read-only) and input vectors of [INPUT_SIZE]
    entries it returns a loss and leaves parameters of the same shapes in
    fresh writeable arrays.  On an empty batch it ends in
    [ZeroDivisionError]. *)
Theorem X11_train_batch_keeps_shapes
        (F : Type) (SF : Scalar F) (positions : list (list F)) (targets : list F)
        (learning_rate : F) (self : Network F) :
  shape_ok self ->
  (forall x, In x positions -> length x = INPUT_SIZE) ->
  (positions <> [] ->
   exists net' loss,
     train_from_lichess.NNUETrainer.train_batch positions targets learning_rate self =
     (net', Ok loss) /\
     shape_ok net' /\ all_writeable net') /\
  (positions = [] ->
   snd (train_from_lichess.NNUETrainer.train_batch positions targets learning_rate self) =
   Raise ZeroDivisionError).
Proof.
  intros Hshape Hx. rewrite train_batch_run. split.
  - intros Hne. destruct positions as [|x positions]; [congruence|].
    cbn [length]. eexists. eexists. split; [reflexivity|].
    apply tb_updated_shape; assumption.
  - intros ->. reflexivity.
Qed.

Lemma X11_witness :
  shape_ok (constant_network half32) /\
  (forall x, In x [train_from_lichess.NNUETrainer.board_to_input (F := f32) kings_board] ->
             length x = INPUT_SIZE) /\
  ([train_from_lichess.NNUETrainer.board_to_input (F := f32) kings_board] <> [] ->
   exists net' loss,
     train_from_lichess.NNUETrainer.train_batch
       [train_from_lichess.NNUETrainer.board_to_input kings_board] [target_100]
       lr_small (constant_network half32) = (net', Ok loss) /\
     shape_ok net' /\ all_writeable net').
Proof.
  assert (H1 : shape_ok (constant_network half32)) by apply constant_network_shape.
  assert (H2 : forall x,
             In x [train_from_lichess.NNUETrainer.board_to_input (F := f32) kings_board] ->
             length x = INPUT_SIZE).
  { intros x [<- | []]. apply board_to_input_vector. }
  split; [exact H1|]. split; [exact H2|].
  exact (proj1 (X11_train_batch_keeps_shapes f32 Scalar_f32 _ [target_100] lr_small _
                  H1 H2)).
Defined.

From Stdlib Require Import Sorting.Permutation.

(** * The epochs *)

Section Covering.
Context {A : Type}.

Lemma slices_are_prefix (l : list A) (b m : nat) :
  concat (map (fun i => slice l i (i + b)) (map (fun k => k * b) (seq 0 m))) =
  firstn (m * b) l.
Proof.
  induction m as [|m IH]; [reflexivity|].
  rewrite seq_S, !map_app, concat_app, IH. cbn [map concat Nat.add].
  rewrite app_nil_r. unfold slice.
  replace (m * b + b - m * b) with b by lia.
  replace (S m * b) with (b + m * b) by lia.
  symmetry. apply firstn_plus.
Qed.

Lemma range_covers (n b : nat) : 0 < b -> n <= (n + b - 1) / b * b.
Proof.
  intros Hb.
  pose proof (Nat.div_mod_eq (n + b - 1) b) as E.
  pose proof (Nat.mod_upper_bound (n + b - 1) b ltac:(lia)) as U.
  remember ((n + b - 1) / b) as q. remember ((n + b - 1) mod b) as r.
  nia.
Qed.

Lemma py_range0_pos (n b : nat) :
  0 < b -> py_range0 n b = Ok (map (fun k => k * b) (seq 0 ((n + b - 1) / b))).
Proof. intros Hb. destruct b as [|b']; [lia | reflexivity]. Qed.

(** The batches of an epoch, one after the other, are the whole list. *)
Lemma batches_cover (l : list A) (b : nat) (starts : list nat) :
  py_range0 (length l) b = Ok starts ->
  concat (map (fun i => slice l i (i + b)) starts) = l.
Proof.
  intros E.
  assert (Hb : 0 < b) by (destruct b; [discriminate E | lia]).
  rewrite (py_range0_pos _ _ Hb) in E. injection E as <-.
  rewrite slices_are_prefix.
  apply firstn_all2. apply range_covers. exact Hb.
Qed.

End Covering.

Section Loops2.
Context {St A B C : Type}.

Lemma foldM_map (g : B -> C -> Py St B) (h : A -> C) (l : list A) :
  forall b s, foldM (fun acc a => g acc (h a)) l b s = foldM g (map h l) b s.
Proof.
  induction l as [|a l IH]; intros b s; [reflexivity|].
  cbn [map foldM]. unfold bind.
  destruct (g b (h a) s) as [s' [b' | e]]; [apply IH | reflexivity].
Qed.

End Loops2.

Section BatchSize.
Context {F : Type} {SF : Scalar F}.
Variable math_exp : F -> option F.
Variable float_pow2 : F -> option F.

Lemma same_outcome_refl (x : Network F * result (F * nat)) : same_outcome x x.
Proof.
  split; [reflexivity|]. destruct (snd x) as [[l n]|e]; reflexivity.
Qed.

Lemma same_outcome_sym (x y : Network F * result (F * nat)) :
  same_outcome x y -> same_outcome y x.
Proof.
  intros (H1 & H2). split; [symmetry; exact H1|].
  destruct (snd x) as [[l n]|e], (snd y) as [[l' n']|e']; auto.
Qed.

Lemma same_outcome_trans (x y z : Network F * result (F * nat)) :
  same_outcome x y -> same_outcome y z -> same_outcome x z.
Proof.
  intros (H1 & H2) (H3 & H4). split; [congruence|].
  destruct (snd x) as [[l n]|e], (snd y) as [[l' n']|e'], (snd z) as [[l2 n2]|e2];
    try contradiction; congruence.
Qed.

(** One sample: the update does not look at the loss summed so far. *)
Lemma train_position_run (lr : F) (a : F) (n : nat) (sample : Board * F)
      (net : Network F) :
  exists net' r,
    (forall a', train_nnue.train_position math_exp float_pow2 lr (a', n) sample net =
                (net', match r with
                       | Ok d => Ok (fadd a' d, S n)
                       | Raise e => Raise e
                       end)).
Proof.
  destruct sample as [board target].
  unfold train_nnue.train_position, bind, get, ret, lift.
  destruct (train_nnue.NNUENetwork.forward_with_cache net
              (train_nnue.NNUENetwork.board_to_features board)) as [output cache].
  destruct (train_nnue.sigmoid math_exp (fmul output (of_int train_nnue.SCALE)))
    as [pred | e0].
  - destruct (train_nnue.NNUENetwork.backward cache
                (fdiv target (of_int train_nnue.SCALE)) lr net) as [net' [loss|e]].
    + destruct (float_pow2 (fsub pred target)) as [squared|].
      * exists net'. eexists (Ok _). intros a'. reflexivity.
      * exists net', (Raise OverflowError). intros a'. reflexivity.
    + exists net', (Raise e). intros a'. reflexivity.
  - exists net, (Raise e0). intros a'. reflexivity.
Qed.

Lemma per_sample_any_loss (lr : F) (l : list (Board * F)) :
  forall (a a' : F) (n : nat) (net : Network F),
    same_outcome (foldM (train_nnue.train_position math_exp float_pow2 lr) l (a, n) net)
                 (foldM (train_nnue.train_position math_exp float_pow2 lr) l (a', n) net).
Proof.
  induction l as [|sample l IH]; intros a a' n net.
  - split; reflexivity.
  - destruct (train_position_run lr a n sample net) as (net' & r & Hr).
    cbn [foldM]. unfold bind. rewrite (Hr a), (Hr a').
    destruct r as [d|e]; [apply IH | split; reflexivity].
Qed.

Lemma nnue_step_batch (all_positions : list (Board * F)) (batch_size : nat)
      (lr : F) (acc : F * nat) (i : nat) :
  nnue_step math_exp float_pow2 all_positions batch_size lr acc i =
  nnue_batch math_exp float_pow2 lr acc (slice all_positions i (i + batch_size)).
Proof. destruct acc as [t n]. reflexivity. Qed.

(** The loop over the batches is the loop over their samples. *)
Lemma batches_are_samples (lr : F) (batches : list (list (Board * F))) :
  forall (t a : F) (n : nat) (net : Network F),
    same_outcome (foldM (nnue_batch math_exp float_pow2 lr) batches (t, n) net)
                 (foldM (train_nnue.train_position math_exp float_pow2 lr) (concat batches)
                        (a, n) net).
Proof.
  induction batches as [|batch batches IH]; intros t a n net.
  - split; reflexivity.
  - cbn [foldM concat]. rewrite foldM_app. unfold bind at 1 2.
    unfold nnue_batch at 1. unfold bind.
    pose proof (per_sample_any_loss lr batch fzero a n net) as (H1 & H2).
    destruct (foldM (train_nnue.train_position math_exp float_pow2 lr) batch (fzero, n) net)
      as [net1 [[bl n1]|e1]];
    destruct (foldM (train_nnue.train_position math_exp float_pow2 lr) batch (a, n) net)
      as [net2 [[bl' n2]|e2]];
    cbn [fst snd] in H1, H2; try contradiction; subst.
    + cbn [ret]. apply IH.
    + split; reflexivity.
Qed.

Lemma nnue_epoch_is_per_sample (all_positions : list (Board * F)) (batch_size : nat)
      (lr : F) (net : Network F) :
  0 < batch_size ->
  same_outcome (train_nnue.train_epoch math_exp float_pow2 all_positions batch_size lr net)
               (foldM (train_nnue.train_position math_exp float_pow2 lr) all_positions
                      (fzero, 0) net).
Proof.
  intros Hb. rewrite nnue_epoch_run.
  destruct (py_range0 (length all_positions) batch_size) as [starts|e] eqn:Hr.
  - rewrite (foldM_ext_in _
               (fun acc i => nnue_batch math_exp float_pow2 lr acc
                               (slice all_positions i (i + batch_size))))
      by (intros i _ acc s; rewrite nnue_step_batch; reflexivity).
    rewrite (foldM_map (nnue_batch math_exp float_pow2 lr)
               (fun i => slice all_positions i (i + batch_size))).
    apply (same_outcome_trans _
             (foldM (train_nnue.train_position math_exp float_pow2 lr)
                    (concat (map (fun i => slice all_positions i (i + batch_size))
                                 starts))
                    (fzero, 0) net));
      [apply batches_are_samples|].
    rewrite (batches_cover all_positions batch_size starts Hr).
    apply same_outcome_refl.
  - unfold py_range0 in Hr. destruct batch_size; [lia | discriminate Hr].
Qed.

End BatchSize.

(** X12.  In [train_nnue] the batch size changes nothing in what is learnt.
    An epoch with any positive [batch_size] ends in the parameters of the
    pass that takes the samples one by one in the order of the list, each
    with its own update, and counts the same samples or stops at the same
    exception; so any two positive batch sizes give the same parameters and
    the same count or exception.  No gradient is accumulated over a batch.
    (The loss sum is left out of the comparison: it is added up batch by
    batch, so its rounding depends on the batch size.) *)
Theorem X12_train_nnue_epoch_ignores_batch_size
        (F : Type) (SF : Scalar F) (math_exp float_pow2 : F -> option F)
        (all_positions : list (Board * F)) (batch_size other_size : nat) (lr : F)
        (net : Network F) :
  0 < batch_size ->
  0 < other_size ->
  same_outcome (train_nnue.train_epoch math_exp float_pow2 all_positions batch_size lr net)
               (foldM (train_nnue.train_position math_exp float_pow2 lr) all_positions
                      (fzero, 0) net) /\
  same_outcome (train_nnue.train_epoch math_exp float_pow2 all_positions batch_size lr net)
               (train_nnue.train_epoch math_exp float_pow2 all_positions other_size lr net).
Proof.
  intros H1 H2.
  pose proof (nnue_epoch_is_per_sample math_exp float_pow2 all_positions batch_size lr net H1) as E1.
  pose proof (nnue_epoch_is_per_sample math_exp float_pow2 all_positions other_size lr net H2) as E2.
  split; [exact E1|].
  apply (same_outcome_trans _ _ _ E1), same_outcome_sym, E2.
Qed.

Lemma X12_witness :
  0 < 64 /\ 0 < 1 /\
  same_outcome
    (train_nnue.train_epoch (fun x : f32 => Some x) (fun x : f32 => Some x)
       [kings_position_sample; kings_position_sample] 64 lr_small
       (constant_network half32))
    (foldM (train_nnue.train_position (fun x : f32 => Some x) (fun x : f32 => Some x) lr_small)
       [kings_position_sample; kings_position_sample] (fzero, 0)
       (constant_network half32)) /\
  same_outcome
    (train_nnue.train_epoch (fun x : f32 => Some x) (fun x : f32 => Some x)
       [kings_position_sample; kings_position_sample] 64 lr_small
       (constant_network half32))
    (train_nnue.train_epoch (fun x : f32 => Some x) (fun x : f32 => Some x)
       [kings_position_sample; kings_position_sample] 1 lr_small
       (constant_network half32)).
Proof.
  assert (H1 : 0 < 64) by lia. assert (H2 : 0 < 1) by lia.
  split; [exact H1|]. split; [exact H2|].
  exact (X12_train_nnue_epoch_ignores_batch_size f32 Scalar_f32
           (fun x => Some x) (fun x => Some x)
           [kings_position_sample; kings_position_sample] 64 1 lr_small
           (constant_network half32) H1 H2).
Defined.

(** * The epoch of [main] *)

Section MainCount.
Context {F : Type} {SF : Scalar F}.

Lemma In_slice {A} (l : list A) (i j : nat) (a : A) : In a (slice l i j) -> In a l.
Proof.
  unfold slice. intros H.
  rewrite <- (firstn_skipn i l). apply in_or_app. right.
  rewrite <- (firstn_skipn (j - i) (skipn i l)). apply in_or_app. left. exact H.
Qed.

Lemma slice_length {A} (l : list A) (i b : nat) :
  length (slice l i (i + b)) = Nat.min b (length l - i).
Proof.
  unfold slice. rewrite length_firstn, length_skipn. f_equal. lia.
Qed.

Lemma half_le (b : nat) : b / 2 <= b.
Proof. apply Nat.Div0.div_le_upper_bound. lia. Qed.

(** The loop over the batch starts of [main]: it never raises, it keeps the
    shapes, and it counts the batches of at least [batch_size // 2]
    samples. *)
Lemma main_steps_run (training_data : list (list F * F)) (batch_size : nat)
      (learning_rate : F) (starts : list nat) :
  0 < batch_size ->
  (forall s, In s training_data -> length (fst s) = INPUT_SIZE) ->
  (forall i, In i starts -> i < length training_data) ->
  forall (acc : F * nat) (net : Network F),
    shape_ok net ->
    exists net' loss,
      foldM (main_step training_data batch_size learning_rate) starts acc net =
      (net', Ok (loss,
                 snd acc +
                 length (filter (fun i => negb (Nat.ltb
                                   (length (slice training_data i (i + batch_size)))
                                   (batch_size / 2))) starts))) /\
      shape_ok net'.
Proof.
  intros Hb Hdata. induction starts as [|i starts IH]; intros Hstarts [el nb] net Hshape.
  - exists net, el. cbn [foldM ret snd filter length]. rewrite Nat.add_0_r.
    split; [reflexivity | exact Hshape].
  - assert (Hrest : forall j, In j starts -> j < length training_data)
      by (intros j Hj; apply Hstarts; right; exact Hj).
    cbn [foldM filter]. unfold bind at 1. unfold main_step at 1.
    destruct (Nat.ltb (length (slice training_data i (i + batch_size)))
                      (batch_size / 2)) eqn:Hskip.
    + cbn [ret negb].
      destruct (IH Hrest (el, nb) net Hshape) as (net' & loss & Hrun & Hs).
      exists net', loss. rewrite Hrun. split; [reflexivity | exact Hs].
    + cbn [negb length]. unfold bind. rewrite train_batch_run.
      assert (Hne : length (map fst (slice training_data i (i + batch_size))) <> 0).
      { rewrite length_map, slice_length.
        pose proof (Hstarts i (or_introl eq_refl)). lia. }
      destruct (length (map fst (slice training_data i (i + batch_size))))
        as [|m] eqn:Hm; [congruence|].
      cbn [ret].
      destruct (tb_updated_shape net
                  (map fst (slice training_data i (i + batch_size)))
                  (map snd (slice training_data i (i + batch_size)))
                  learning_rate Hshape) as (Hs1 & _).
      { intros x Hx. apply in_map_iff in Hx. destruct Hx as (s & <- & Hs).
        apply Hdata. exact (In_slice _ _ _ _ Hs). }
      destruct (IH Hrest
                  (fadd el (fdiv (train_from_lichess.NNUETrainer.total_loss
                                    (tb_acc net
                                       (map fst (slice training_data i (i + batch_size)))
                                       (map snd (slice training_data i (i + batch_size)))))
                                 (of_int (Z.of_nat (S m)))),
                   S nb)
                  _ Hs1) as (net' & loss & Hrun & Hs).
      exists net', loss. rewrite Hrun. cbn [snd].
      split; [f_equal; f_equal; f_equal; lia | exact Hs].
Qed.

Lemma filter_all {A} (p : A -> bool) (l : list A) :
  (forall a, In a l -> p a = true) -> filter p l = l.
Proof.
  induction l as [|a l IH]; intros H; [reflexivity|].
  cbn [filter]. rewrite (H a (or_introl eq_refl)), IH; [reflexivity|].
  intros b Hb. apply H. right. exact Hb.
Qed.

(** How many batches [main] trains on, out of [k] full ones and a rest of
    [r]. *)
Lemma trained_batches (training_data : list (list F * F)) (batch_size k r : nat) :
  0 < batch_size ->
  length training_data = k * batch_size + r ->
  r < batch_size ->
  exists starts,
    py_range0 (length training_data) batch_size = Ok starts /\
    (forall i, In i starts -> i < length training_data) /\
    length (filter (fun i => negb (Nat.ltb
                      (length (slice training_data i (i + batch_size)))
                      (batch_size / 2))) starts) =
    k + (if Nat.ltb 0 r && Nat.leb (batch_size / 2) r then 1 else 0).
Proof.
  intros Hb Hn Hr. pose proof (half_le batch_size) as Hhalf.
  assert (Hfull : forall i, In i (map (fun j => j * batch_size) (seq 0 k)) ->
            i < length training_data /\
            negb (Nat.ltb (length (slice training_data i (i + batch_size)))
                          (batch_size / 2)) = true).
  { intros i Hi. apply in_map_iff in Hi. destruct Hi as (j & <- & Hj).
    apply in_seq in Hj. rewrite slice_length.
    assert (j * batch_size + batch_size <= length training_data) by nia.
    split; [lia|]. apply negb_true_iff, Nat.ltb_ge. lia. }
  destruct r as [|r'].
  - exists (map (fun j => j * batch_size) (seq 0 k)).
    rewrite Hn, Nat.add_0_r. split; [apply range_full, Hb|].
    rewrite <- (Nat.add_0_r (k * batch_size)), <- Hn.
    split; [intros i Hi; apply Hfull, Hi|].
    rewrite filter_all by (intros i Hi; apply Hfull, Hi).
    rewrite length_map, length_seq. cbn [Nat.ltb Nat.leb andb]. lia.
  - exists (map (fun j => j * batch_size) (seq 0 k) ++ [k * batch_size]).
    split; [rewrite Hn; apply range_partial; lia|].
    split.
    + intros i Hi. apply in_app_or in Hi. destruct Hi as [Hi | [<- | []]];
        [apply Hfull, Hi | lia].
    + rewrite filter_app, length_app.
      rewrite filter_all by (intros i Hi; apply Hfull, Hi).
      rewrite length_map, length_seq. f_equal.
      cbn [filter]. rewrite slice_length, Hn.
      replace (k * batch_size + S r' - k * batch_size) with (S r') by lia.
      rewrite Nat.min_r by lia.
      replace (Nat.ltb 0 (S r')) with true by (symmetry; apply Nat.ltb_lt; lia).
      cbn [andb].
      destruct (Nat.leb_spec (batch_size / 2) (S r')) as [Hle|Hgt].
      * replace (Nat.ltb (S r') (batch_size / 2)) with false
          by (symmetry; apply Nat.ltb_ge; exact Hle).
        reflexivity.
      * replace (Nat.ltb (S r') (batch_size / 2)) with true
          by (symmetry; apply Nat.ltb_lt; exact Hgt).
        reflexivity.
Qed.

Lemma main_epoch_total (training_data : list (list F * F)) (batch_size : nat)
      (learning_rate : F) (net : Network F) :
  shape_ok net ->
  (forall s, In s training_data -> length (fst s) = INPUT_SIZE) ->
  0 < batch_size ->
  exists net' loss,
    train_from_lichess.train_epoch training_data batch_size learning_rate net =
    (net', Ok (loss,
               length training_data / batch_size +
               (if Nat.ltb 0 (length training_data mod batch_size) &&
                   Nat.leb (batch_size / 2) (length training_data mod batch_size)
                then 1 else 0))) /\
    shape_ok net'.
Proof.
  intros Hshape Hdata Hb.
  destruct (trained_batches training_data batch_size
              (length training_data / batch_size)
              (length training_data mod batch_size) Hb)
    as (starts & Hrange & Hstarts & Hcount).
  { rewrite (Nat.mul_comm _ batch_size). apply Nat.div_mod_eq. }
  { apply Nat.mod_upper_bound. lia. }
  rewrite main_epoch_run, Hrange.
  destruct (main_steps_run training_data batch_size learning_rate starts Hb Hdata
              Hstarts (fzero, 0) net Hshape) as (net' & loss & Hrun & Hs).
  exists net', loss. rewrite Hrun, Hcount. split; [reflexivity | exact Hs].
Qed.

End MainCount.

(** X13.  An epoch of [main] never raises, and trains on every batch but a
    small last one.  On parameters of the network's shapes, input vectors of
    [INPUT_SIZE] entries and a positive [batch_size], the epoch returns; it
    leaves parameters of the same shapes; and [num_batches] is the number of
    full batches, plus one when the samples left over are at least
    [batch_size // 2]. *)
Theorem X13_main_epoch_trains_all_but_a_small_last_batch
        (F : Type) (SF : Scalar F) (training_data : list (list F * F))
        (batch_size : nat) (learning_rate : F) (net : Network F) :
  shape_ok net ->
  (forall s, In s training_data -> length (fst s) = INPUT_SIZE) ->
  0 < batch_size ->
  exists net' loss,
    train_from_lichess.train_epoch training_data batch_size learning_rate net =
    (net', Ok (loss,
               length training_data / batch_size +
               (if Nat.ltb 0 (length training_data mod batch_size) &&
                   Nat.leb (batch_size / 2) (length training_data mod batch_size)
                then 1 else 0))) /\
    shape_ok net'.
Proof. apply main_epoch_total. Qed.

Lemma X13_witness :
  shape_ok (constant_network half32) /\
  (forall s, In s (repeat kings_input_sample 7) -> length (fst s) = INPUT_SIZE) /\
  0 < 4 /\
  exists net' loss,
    train_from_lichess.train_epoch (repeat kings_input_sample 7) 4 lr_small
      (constant_network half32) =
    (net', Ok (loss,
               length (repeat kings_input_sample 7) / 4 +
               (if Nat.ltb 0 (length (repeat kings_input_sample 7) mod 4) &&
                   Nat.leb (4 / 2) (length (repeat kings_input_sample 7) mod 4)
                then 1 else 0))) /\
    shape_ok net'.
Proof.
  assert (H1 : shape_ok (constant_network half32)) by apply constant_network_shape.
  assert (H2 : forall s, In s (repeat kings_input_sample 7) ->
                         length (fst s) = INPUT_SIZE).
  { intros s Hs. apply repeat_spec in Hs. subst s. apply board_to_input_vector. }
  assert (H3 : 0 < 4) by lia.
  split; [exact H1|]. split; [exact H2|]. split; [exact H3|].
  exact (X13_main_epoch_trains_all_but_a_small_last_batch f32 Scalar_f32
           (repeat kings_input_sample 7) 4 lr_small (constant_network half32)
           H1 H2 H3).
Defined.

(** * The runs *)

Section MainRun.
Variable shuffle : nat -> list (list f32 * f32) -> list (list f32 * f32).
Hypothesis shuffle_permutes : forall k l, Permutation (shuffle k l) l.

Lemma main_run_epoch_total (batch_size : nat) (learning_rate : f32)
      (training_data : list (list f32 * f32)) (epoch : nat)
      (w : train_from_lichess.World) :
  shape_ok (fst w) ->
  (forall s, In s training_data -> length (fst s) = INPUT_SIZE) ->
  0 < batch_size ->
  exists net',
    train_from_lichess.run_epoch shuffle batch_size learning_rate training_data epoch w =
    ((net', snd w), Ok (shuffle epoch training_data)) /\
    shape_ok net'.
Proof.
  intros Hshape Hdata Hb. destruct w as [net file]. cbn [fst snd] in *.
  destruct (main_epoch_total (shuffle epoch training_data) batch_size learning_rate
              net Hshape) as (net' & loss & Hrun & Hs); [|exact Hb|].
  { intros s Hs. apply Hdata.
    exact (Permutation_in s (shuffle_permutes epoch training_data) Hs). }
  exists net'. unfold train_from_lichess.run_epoch, bind,
    train_from_lichess.on_trainer, ret. cbn [fst snd].
  rewrite Hrun. split; [reflexivity | exact Hs].
Qed.

Lemma main_epochs_total (batch_size : nat) (learning_rate : f32)
      (epochs : list nat) :
  0 < batch_size ->
  forall (training_data : list (list f32 * f32)) (w : train_from_lichess.World),
    shape_ok (fst w) ->
    (forall s, In s training_data -> length (fst s) = INPUT_SIZE) ->
    exists net' data',
      foldM (train_from_lichess.run_epoch shuffle batch_size learning_rate)
            epochs training_data w = ((net', snd w), Ok data') /\
      shape_ok net'.
Proof.
  intros Hb. induction epochs as [|epoch epochs IH]; intros training_data w Hshape Hdata.
  - exists (fst w), training_data. destruct w. split; [reflexivity | exact Hshape].
  - destruct (main_run_epoch_total batch_size learning_rate training_data epoch w
                Hshape Hdata Hb) as (net1 & Hrun & Hs1).
    destruct (IH (shuffle epoch training_data) (net1, snd w) Hs1)
      as (net' & data' & Hrest & Hs').
    { intros s Hs. apply Hdata.
      exact (Permutation_in s (shuffle_permutes epoch training_data) Hs). }
    exists net', data'. cbn [foldM]. unfold bind. rewrite Hrun, Hrest.
    split; [reflexivity | exact Hs'].
Qed.

End MainRun.

(** X14.  The training of [main] always ends with a complete weight file.
    From parameters of the network's shapes, with input vectors of
    [INPUT_SIZE] entries, a positive batch size and any number of epochs,
    however [random.shuffle] permutes the data, the epochs run without an
    exception and the file written at the end holds the final parameters in
    exactly [expected_size] bytes, whatever file was there before.  With
    [--batch-size 0] the first epoch raises [ValueError] (from [range]) and
    nothing is written. *)
Theorem X14_main_training_ends_with_a_full_file
        (shuffle : nat -> list (list f32 * f32) -> list (list f32 * f32))
        (training_data : list (list f32 * f32)) (epochs batch_size : nat)
        (learning_rate : f32) (net : Network f32) (file : option (list byte)) :
  (forall k l, Permutation (shuffle k l) l) ->
  shape_ok net ->
  (forall s, In s training_data -> length (fst s) = INPUT_SIZE) ->
  (0 < batch_size ->
   exists net',
     train_from_lichess.main_training shuffle training_data epochs batch_size
       learning_rate (net, file) =
     ((net', Some (train_from_lichess.NNUETrainer.save_weights net')), Ok tt) /\
     shape_ok net' /\
     length (train_from_lichess.NNUETrainer.save_weights net') = expected_size) /\
  (0 < epochs ->
   train_from_lichess.main_training shuffle training_data epochs 0
     learning_rate (net, file) = ((net, file), Raise ValueError)).
Proof.
  intros Hperm Hshape Hdata. split.
  - intros Hb.
    destruct (main_epochs_total shuffle Hperm batch_size learning_rate (seq 0 epochs)
                Hb training_data (net, file) Hshape Hdata)
      as (net' & data' & Hrun & Hs).
    exists net'. unfold train_from_lichess.main_training, bind. rewrite Hrun.
    cbn [snd]. unfold train_from_lichess.save_output. cbn [fst].
    split; [reflexivity|]. split; [exact Hs|].
    apply (proj1 (save_length_both net' Hs)).
  - intros He. destruct epochs as [|e]; [lia|].
    reflexivity.
Qed.

Lemma X14_witness :
  (forall k l, Permutation ((fun (_ : nat) (d : list (list f32 * f32)) => rev d) k l) l) /\
  shape_ok (constant_network half32) /\
  (forall s, In s (repeat kings_input_sample 7) -> length (fst s) = INPUT_SIZE) /\
  (0 < 4 ->
   exists net',
     train_from_lichess.main_training (fun _ d => rev d)
       (repeat kings_input_sample 7) 3 4 lr_small (constant_network half32, None) =
     ((net', Some (train_from_lichess.NNUETrainer.save_weights net')), Ok tt) /\
     shape_ok net' /\
     length (train_from_lichess.NNUETrainer.save_weights net') = expected_size).
Proof.
  assert (H0 : forall k l,
             Permutation ((fun (_ : nat) (d : list (list f32 * f32)) => rev d) k l) l).
  { intros k l. apply Permutation_sym, Permutation_rev. }
  assert (H1 : shape_ok (constant_network half32)) by apply constant_network_shape.
  assert (H2 : forall s, In s (repeat kings_input_sample 7) ->
                         length (fst s) = INPUT_SIZE).
  { intros s Hs. apply repeat_spec in Hs. subst s. apply board_to_input_vector. }
  split; [exact H0|]. split; [exact H1|]. split; [exact H2|].
  exact (proj1 (X14_main_training_ends_with_a_full_file (fun _ d => rev d)
                  (repeat kings_input_sample 7) 3 4 lr_small
                  (constant_network half32) None H0 H1 H2)).
Defined.

Section NnueRun.
Variable math_exp : f32 -> option f32.
Variable float_pow2 : f32 -> option f32.
Variable shuffle : nat -> list (Board * f32) -> list (Board * f32).
Hypothesis shuffle_permutes : forall k l, Permutation (shuffle k l) l.






Lemma py_range0_first (n b : nat) :
  0 < n -> 0 < b -> exists rest, py_range0 n b = Ok (0 :: rest).
Proof.
  intros Hn Hb. rewrite (py_range0_pos n b Hb).
  pose proof (range_covers n b Hb) as Hc.
  destruct ((n + b - 1) / b) as [|m]; [cbn in Hc; lia|].
  cbn [seq map]. eexists. reflexivity.
Qed.

(** On parameters just loaded the first sample of the first epoch raises:
    [OverflowError] in [sigmoid], or else [ValueError] in [backward]. *)
Lemma nnue_epoch_read_only (all_positions : list (Board * f32)) (batch_size : nat)
      (lr : f32) (net : Network f32) :
  all_positions <> [] -> 0 < batch_size ->
  nd_writeable (hidden2_weights net) = false ->
  exists net' e,
    train_nnue.train_epoch math_exp float_pow2 all_positions batch_size lr net =
    (net', Raise e).
Proof.
  intros Hne Hb Hro.
  destruct all_positions as [|[board target] rest]; [congruence|].
  destruct (py_range0_first (length ((board, target) :: rest)) batch_size)
    as (starts & Hr); [cbn [length]; lia | exact Hb |].
  rewrite nnue_epoch_run, Hr. cbn [foldM]. unfold bind at 1.
  unfold nnue_step at 1. unfold bind at 1.
  destruct batch_size as [|b']; [lia|].
  unfold slice at 1. cbn [Nat.add Nat.sub skipn firstn foldM].
  unfold bind at 1. unfold train_nnue.train_position at 1.
  unfold bind, get, lift.
  destruct (train_nnue.NNUENetwork.forward_with_cache net
              (train_nnue.NNUENetwork.board_to_features board)) as [output cache].
  destruct (train_nnue.sigmoid math_exp (fmul output (of_int train_nnue.SCALE)))
    as [pred | e].
  - rewrite (backward_read_only _ _ _ net Hro). eexists. eexists. reflexivity.
  - eexists. eexists. reflexivity.
Qed.

End NnueRun.

(** X15.  [train_nnue] cannot continue from the weights it saved.  When
    [output_file] exists and holds at least [expected_size] bytes, the load
    succeeds and leaves read-only arrays; with at least one position, one
    epoch and a positive batch size, the first sample of the first epoch then
    raises, whatever the file holds: the run ends in an exception before
    anything is written, and the file is left as it was. *)
Theorem X15_train_nnue_cannot_resume
        (math_exp float_pow2 : f32 -> option f32)
        (shuffle : nat -> list (Board * f32) -> list (Board * f32))
        (w1 w2 : list (list f32)) (w3 : list f32)
        (all_positions : list (Board * f32)) (epochs : nat) (lr : f32)
        (batch_size : nat) (net : Network f32) (file : list byte) :
  (forall k l, Permutation (shuffle k l) l) ->
  expected_size <= length file ->
  all_positions <> [] ->
  0 < epochs ->
  0 < batch_size ->
  exists net' e,
    train_nnue.train_nnue math_exp float_pow2 shuffle w1 w2 w3 all_positions epochs
      lr batch_size (net, Some file) = ((net', Some file), Raise e).
Proof.
  intros Hperm Hlen Hne He Hb.
  destruct (load_long_enough file (train_nnue.NNUENetwork.init w1 w2 w3) Hlen)
    as (net1 & Hload & _ & _ & _ & _ & _ & Hro).
  unfold train_nnue.train_nnue, bind, assign, get. cbn [fst snd].
  unfold train_nnue.try_except_pass, train_nnue.on_net. cbn [fst snd].
  rewrite Hload.
  destruct all_positions as [|p ps]; [congruence|].
  destruct epochs as [|n]; [lia|].
  cbn [seq foldM]. unfold bind.
  unfold train_nnue.run_epoch at 1. unfold bind, train_nnue.on_net. cbn [fst snd].
  destruct (nnue_epoch_read_only math_exp float_pow2 (shuffle 0 (p :: ps))
              batch_size lr net1)
    as (net' & e & Hrun); [|exact Hb|exact Hro|].
  { intros Hnil.
    pose proof (Permutation_length (Hperm 0 (p :: ps))) as Hl.
    rewrite Hnil in Hl. discriminate Hl. }
  rewrite Hrun. exists net', e. reflexivity.
Qed.

Lemma X15_witness :
  (forall k l, Permutation ((fun (_ : nat) (d : list (Board * f32)) => rev d) k l) l) /\
  expected_size <= length (repeat x00 expected_size) /\
  [kings_position_sample] <> [] /\
  0 < 50 /\ 0 < 64 /\
  exists net' e,
    train_nnue.train_nnue (fun x => Some x) (fun x => Some x) (fun _ d => rev d)
      [] [] [] [kings_position_sample] 50 lr_small 64
      (constant_network half32, Some (repeat x00 expected_size)) =
    ((net', Some (repeat x00 expected_size)), Raise e).
Proof.
  assert (H0 : forall k l,
             Permutation ((fun (_ : nat) (d : list (Board * f32)) => rev d) k l) l).
  { intros k l. apply Permutation_sym, Permutation_rev. }
  assert (H1 : expected_size <= length (repeat x00 expected_size)).
  { rewrite repeat_length. lia. }
  assert (H2 : [kings_position_sample] <> []) by discriminate.
  assert (H3 : 0 < 50) by lia. assert (H4 : 0 < 64) by lia.
  split; [exact H0|]. split; [exact H1|]. split; [exact H2|].
  split; [exact H3|]. split; [exact H4|].
  exact (X15_train_nnue_cannot_resume (fun x => Some x) (fun x => Some x)
           (fun _ d => rev d) [] [] []
           [kings_position_sample] 50 lr_small 64 (constant_network half32)
           (repeat x00 expected_size) H0 H1 H2 H3 H4).
Defined.





(** * The material balance *)

Section Material.

(** The loop of both [simple_material_eval], with the table of values as a
    parameter. *)
Lemma material_fold_swap (values : PieceType -> Z) (board : Board) (squares : list nat) :
  forall score : Z,
    fold_left
      (fun score square =>
         match piece_at (swap_colors board) square with
         | Some piece =>
             let value := values (piece_type piece) in
             match color piece with
             | WHITE => (score + value)%Z
             | BLACK => (score - value)%Z
             end
         | None => score
         end) squares (- score)%Z =
    (- fold_left
         (fun score square =>
            match piece_at board square with
            | Some piece =>
                let value := values (piece_type piece) in
                match color piece with
                | WHITE => (score + value)%Z
                | BLACK => (score - value)%Z
                end
            | None => score
            end) squares score)%Z.
Proof.
  induction squares as [|s l IH]; intros score; [reflexivity|].
  cbn [fold_left swap_colors piece_at].
  destruct (piece_at board s) as [[t []]|]; cbn [piece_type color];
    [rewrite <- IH; f_equal; lia | rewrite <- IH; f_equal; lia | apply IH].
Qed.

Lemma material_fold_kings (values : PieceType -> Z) (board : Board) (squares : list nat) :
  values KING = 0%Z ->
  forall score : Z,
    fold_left
      (fun score square =>
         match piece_at (without_kings board) square with
         | Some piece =>
             let value := values (piece_type piece) in
             match color piece with
             | WHITE => (score + value)%Z
             | BLACK => (score - value)%Z
             end
         | None => score
         end) squares score =
    fold_left
      (fun score square =>
         match piece_at board square with
         | Some piece =>
             let value := values (piece_type piece) in
             match color piece with
             | WHITE => (score + value)%Z
             | BLACK => (score - value)%Z
             end
         | None => score
         end) squares score.
Proof.
  intros Hk. induction squares as [|s l IH]; intros score; [reflexivity|].
  cbn [fold_left without_kings piece_at].
  destruct (piece_at board s) as [[[] c]|]; cbn [piece_type color]; try apply IH.
  rewrite Hk. destruct c; rewrite ?Z.add_0_r, ?Z.sub_0_r; apply IH.
Qed.

End Material.

(** X20.  The material balance changes sign with the colours, and the kings
    do not count.  For every board, both [simple_material_eval] (the table
    of train_nnue.py and that of train_from_lichess.py) give the opposite
    score on the board with the colours of all pieces exchanged, and the
    same score on the board with the kings taken off. *)
Theorem X20_material_balance_is_antisymmetric (board : Board) :
  train_nnue.simple_material_eval (swap_colors board) =
  (- train_nnue.simple_material_eval board)%Z /\
  train_from_lichess.simple_material_eval (swap_colors board) =
  (- train_from_lichess.simple_material_eval board)%Z /\
  train_nnue.simple_material_eval (without_kings board) =
  train_nnue.simple_material_eval board /\
  train_from_lichess.simple_material_eval (without_kings board) =
  train_from_lichess.simple_material_eval board.
Proof.
  split; [|split; [|split]].
  - exact (material_fold_swap train_nnue.piece_values board SQUARES 0%Z).
  - exact (material_fold_swap train_from_lichess.values board SQUARES 0%Z).
  - exact (material_fold_kings train_nnue.piece_values board SQUARES eq_refl 0%Z).
  - exact (material_fold_kings train_from_lichess.values board SQUARES eq_refl 0%Z).
Qed.

(** * The positions of a game *)

Section Extraction.
Context {F : Type} {SF : Scalar F}.
Variable GameBoard : Type.
Variable Move : Type.
Variable start_board : GameBoard.
Variable parse_san : GameBoard -> String.string -> train_from_lichess.SanResult Move.
Variable push : GameBoard -> Move -> GameBoard.
Variable turn : GameBoard -> Color.
Variable copy : GameBoard -> Board.

(** What the loop adds to the list, when it returns. *)
Lemma collect_positions_adds (score : F) (is_bot_white : bool)
      (moves : list String.string) :
  forall (i : nat) (board : GameBoard) (positions l : list (train_from_lichess.Position F)),
    train_from_lichess.collect_positions parse_san push turn copy
      score is_bot_white moves i board positions = train_from_lichess.Returns l ->
    exists added,
      l = positions ++ added /\
      Forall (fun p => train_from_lichess.pos_result p = score) added /\
      map (@train_from_lichess.pos_ply F) added =
      map Z.of_nat (seq (Nat.max i 20) (length added)) /\
      length added <= i + length moves - Nat.max i 20.
Proof.
  induction moves as [|move_str moves IH]; intros i board positions l Hrun.
  - cbn [train_from_lichess.collect_positions] in Hrun. injection Hrun as <-.
    exists []. rewrite app_nil_r. repeat split; [constructor | cbn [length]; lia].
  - cbn [train_from_lichess.collect_positions] in Hrun.
    destruct (parse_san board move_str) as [move| | |].
    + apply IH in Hrun. destruct Hrun as (added & -> & Hres & Hply & Hlen).
      destruct (Nat.leb_spec 20 i) as [Hi|Hi].
      * eexists (_ :: added). rewrite <- app_assoc. split; [reflexivity|].
        split; [constructor; [reflexivity | exact Hres]|].
        cbn [map length seq train_from_lichess.pos_ply].
        rewrite Hply.
        replace (Nat.max i 20) with i by lia.
        replace (Nat.max (S i) 20) with (S i) by lia.
        split; [reflexivity | cbn [length]; lia].
      * exists added. split; [reflexivity|]. split; [exact Hres|].
        replace (Nat.max i 20) with 20 by lia.
        replace (Nat.max (S i) 20) with 20 in Hply, Hlen by lia.
        split; [exact Hply | cbn [length]; lia].
    + injection Hrun as <-. exists []. rewrite app_nil_r.
      repeat split; [constructor | cbn [length]; lia].
    + injection Hrun as <-. exists []. rewrite app_nil_r.
      repeat split; [constructor | cbn [length]; lia].
    + discriminate Hrun.
Qed.

(** When every move is accepted, every index from 20 on gives a position. *)
Lemma collect_positions_all (score : F) (is_bot_white : bool)
      (moves : list String.string) :
  (forall board move_str, exists move,
      parse_san board move_str = train_from_lichess.SanMove move) ->
  forall (i : nat) (board : GameBoard) (positions : list (train_from_lichess.Position F)),
    exists added,
      train_from_lichess.collect_positions parse_san push turn copy
        score is_bot_white moves i board positions =
      train_from_lichess.Returns (positions ++ added) /\
      length added = i + length moves - Nat.max i 20.
Proof.
  intros Hok. induction moves as [|move_str moves IH]; intros i board positions.
  - exists []. rewrite app_nil_r. split; [reflexivity | cbn [length]; lia].
  - cbn [train_from_lichess.collect_positions].
    destruct (Hok board move_str) as (move & ->).
    destruct (Nat.leb_spec 20 i) as [Hi|Hi].
    + destruct (IH (S i) (push board move)
                  (positions ++
                   [train_from_lichess.mk_Position (copy board) (Z.of_nat i) score
                      (Bool.eqb match turn board with WHITE => true | BLACK => false end
                                is_bot_white)]))
        as (added & Hrun & Hlen).
      eexists (_ :: added). rewrite Hrun, <- app_assoc.
      split; [reflexivity | cbn [length]; lia].
    + destruct (IH (S i) (push board move) positions) as (added & Hrun & Hlen).
      exists added. rewrite Hrun. split; [reflexivity | cbn [length]; lia].
Qed.

End Extraction.

(** X21.  [extract_positions_from_game] takes no position from the first
    twenty plies.  Whatever the chess library answers, when the function
    returns, the positions it returns all carry the one score of the game,
    their plies are 20, 21, 22, ... without a gap, and they are at most
    [len(moves) - 20]: a game of twenty plies or fewer gives none, and an
    illegal or invalid move ends the list early.  When every move is accepted
    the function returns exactly [len(moves) - 20] positions. *)
Theorem X21_positions_start_at_ply_twenty
        (F : Type) (SF : Scalar F) (GameBoard Move : Type)
        (start_board : GameBoard)
        (parse_san : GameBoard -> String.string -> train_from_lichess.SanResult Move)
        (push : GameBoard -> Move -> GameBoard) (turn : GameBoard -> Color)
        (copy : GameBoard -> Board)
        (result : String.string) (is_bot_white : bool) (moves : list String.string) :
  (forall l,
     train_from_lichess.extract_positions_from_game start_board
       parse_san push turn copy result is_bot_white moves =
     train_from_lichess.Returns l ->
     Forall (fun p => train_from_lichess.pos_result p =
                      train_from_lichess.bot_score (F := F) result is_bot_white) l /\
     map (@train_from_lichess.pos_ply F) l = map Z.of_nat (seq 20 (length l)) /\
     length l <= length moves - 20) /\
  ((forall board move_str, exists move,
       parse_san board move_str = train_from_lichess.SanMove move) ->
   exists l,
     train_from_lichess.extract_positions_from_game start_board
       parse_san push turn copy result is_bot_white moves =
     train_from_lichess.Returns l /\
     length l = length moves - 20).
Proof.
  split.
  - intros l Hrun. unfold train_from_lichess.extract_positions_from_game in Hrun.
    apply collect_positions_adds in Hrun.
    destruct Hrun as (added & -> & Hres & Hply & Hlen).
    cbn [app Nat.max Nat.add] in *. repeat split; assumption.
  - intros Hok. unfold train_from_lichess.extract_positions_from_game.
    destruct (collect_positions_all GameBoard Move parse_san push turn copy
                (train_from_lichess.bot_score result is_bot_white) is_bot_white
                moves Hok 0 start_board []) as (added & Hrun & Hlen).
    exists added. split; [exact Hrun|]. cbn [Nat.max Nat.add] in Hlen. exact Hlen.
Qed.

Lemma X21_witness :
  (forall (board : nat) (move_str : String.string), exists move : unit,
      (fun (_ : nat) (_ : String.string) => train_from_lichess.SanMove tt) board move_str =
      train_from_lichess.SanMove move) /\
  exists l,
    train_from_lichess.extract_positions_from_game (F := Qc) 0
      (fun _ _ => train_from_lichess.SanMove tt) (fun b _ => S b)
      (fun b => if Nat.even b then WHITE else BLACK) (fun _ => kings_board)
      String.EmptyString true (repeat String.EmptyString 25) =
    train_from_lichess.Returns l /\
    length l = length (repeat String.EmptyString 25) - 20.
Proof.
  assert (H : forall (board : nat) (move_str : String.string), exists move : unit,
             (fun (_ : nat) (_ : String.string) => train_from_lichess.SanMove tt)
               board move_str = train_from_lichess.SanMove move).
  { intros board move_str. exists tt. reflexivity. }
  split; [exact H|].
  exact (proj2 (X21_positions_start_at_ply_twenty Qc Scalar_Qc nat unit 0
                  (fun _ _ => train_from_lichess.SanMove tt) (fun b _ => S b)
                  (fun b => if Nat.even b then WHITE else BLACK) (fun _ => kings_board)
                  String.EmptyString true (repeat String.EmptyString 25)) H).
Defined.
